(** * DINX chat relay: the request pipeline of [server.js]

    The repository holds two variants of one Express server: [src/server.js]
    forwards chat requests to Groq, [src/unnamed/part_000] to DeepSeek.  Both
    decide with a keyword heuristic whether to fetch web context from Tavily
    first, assemble the message list and relay the completion.

    The development embeds the JavaScript shallowly:
    - JSON-derived values are an inductive type [value];
    - the two outbound [fetch] calls and the console are the constructors of a
      small program monad [prog], with exceptions and [try]/[catch];
    - a program is run against a [world] that answers the outbound calls, and
      yields the trace of what happened together with its result.

    Start-up ([app.listen], the warnings about unset credentials) and the
    static file server are outside the chat pipeline and are not embedded. *)

From Stdlib Require Import String Ascii List Bool Arith Lia.
Import ListNotations.
Local Open Scope list_scope.
Local Open Scope string_scope.

(** ** Strings *)

(** A JavaScript string is a sequence of code units.  Text is written here
    as Rocq strings; a character outside ASCII (the bullet and the dash of the
    search context) stands as the bytes of its UTF-8 form, none of which is
    below 128. *)

Definition nl : string := String (ascii_of_nat 10) EmptyString.

Definition isAscii (c : ascii) : bool := Nat.ltb (nat_of_ascii c) 128.

Definition isUpper (c : ascii) : bool :=
  Nat.leb 65 (nat_of_ascii c) && Nat.leb (nat_of_ascii c) 90.

(** Lower-casing of one ASCII code unit: ['A'..'Z'] move to ['a'..'z']. *)
Definition asciiLower (c : ascii) : ascii :=
  if isUpper c then ascii_of_nat (nat_of_ascii c + 32) else c.

Fixpoint mapString (f : ascii -> ascii) (s : string) : string :=
  match s with
  | EmptyString => EmptyString
  | String c rest => String (f c) (mapString f rest)
  end.

Fixpoint allAscii (s : string) : bool :=
  match s with
  | EmptyString => true
  | String c rest => isAscii c && allAscii rest
  end.

(** [String.prototype.toLowerCase] follows the Unicode default case
    conversion.  Its tables belong to the JavaScript runtime, not to this
    repository.  On an ASCII code unit the conversion is [asciiLower] whatever
    surrounds it; for any other code unit the runtime's answer, which may
    depend on the text before and after it (final sigma, surrogate pairs) and
    may be several code units long, is taken from the class below. *)
Class CaseTables : Type :=
  lowerNonAscii : string -> ascii -> string -> string.

Section Lowering.
Context {tables : CaseTables}.

Fixpoint lowerFrom (before s : string) : string :=
  match s with
  | EmptyString => EmptyString
  | String c rest =>
      (if isAscii c then String (asciiLower c) EmptyString
       else lowerNonAscii before c rest)
      ++ lowerFrom (before ++ String c EmptyString) rest
  end.

(** [s.toLowerCase()] *)
Definition toLowerCase (s : string) : string := lowerFrom EmptyString s.
End Lowering.

(** [text.includes(word)]: [word] occurs in [text] at some offset. *)
Fixpoint includes (text word : string) : bool :=
  String.prefix word text
  || match text with
     | EmptyString => false
     | String _ rest => includes rest word
     end.

(** [parts.join(sep)] on an array of strings. *)
Fixpoint join (sep : string) (parts : list string) : string :=
  match parts with
  | [] => EmptyString
  | [p] => p
  | p :: rest => p ++ sep ++ join sep rest
  end.

(** ** Values *)

(** What [JSON.parse] can produce, and [undefined] for what is absent.  A
    number is kept as the two things this program can observe of it: whether
    it is truthy (neither [0] nor [-0]) and the text [ToString] gives. *)
#[warning="-register-all"]
Inductive value : Type :=
| VUndefined
| VNull
| VBool (b : bool)
| VNum (nonzero : bool) (shown : string)
| VStr (s : string)
| VArr (items : list value)
| VObj (props : list (string * value)).

Inductive exn : Type :=
| TypeError
| NetworkError
| BodyError.

Inductive result (A : Type) : Type :=
| Ok (a : A)
| Raise (e : exn).
Arguments Ok {A} a.
Arguments Raise {A} e.

Definition rbind {A B} (r : result A) (f : A -> result B) : result B :=
  match r with
  | Ok a => f a
  | Raise e => Raise e
  end.

Declare Scope result_scope.
Delimit Scope result_scope with result.
Notation "x <- r ;; k" := (rbind r (fun x => k))
  (at level 61, r at next level, right associativity) : result_scope.

(** [ToBoolean] *)
Definition truthy (v : value) : bool :=
  match v with
  | VUndefined | VNull => false
  | VBool b => b
  | VNum nonzero _ => nonzero
  | VStr s => negb (String.eqb s "")
  | VArr _ | VObj _ => true
  end.

Definition nullish (v : value) : bool :=
  match v with
  | VUndefined | VNull => true
  | _ => false
  end.

Fixpoint assoc (key : string) (props : list (string * value)) : option value :=
  match props with
  | [] => None
  | (k, v) :: rest => if String.eqb k key then Some v else assoc key rest
  end.

(** Reading property [key] of a value that is neither [null] nor
    [undefined], for the keys this program reads ([model], [system],
    [message], [answer], [results], [title], [url], [content], [choices],
    [0]): none of them lives on a prototype, so an object answers from its own
    properties, an array and a string answer for index [0] only, and
    numbers and booleans have none. *)
Definition get (v : value) (key : string) : value :=
  match v with
  | VObj props =>
      match assoc key props with
      | Some x => x
      | None => VUndefined
      end
  | VArr items => if String.eqb key "0" then hd VUndefined items else VUndefined
  | VStr s =>
      if String.eqb key "0" then
        match s with
        | EmptyString => VUndefined
        | String c _ => VStr (String c EmptyString)
        end
      else VUndefined
  | _ => VUndefined
  end.

(** [v.key]: a [TypeError] on [null] and [undefined]. *)
Definition getProp (v : value) (key : string) : result value :=
  if nullish v then Raise TypeError else Ok (get v key).

(** [v?.key] *)
Definition getOpt (v : value) (key : string) : value :=
  if nullish v then VUndefined else get v key.

(** [ToString], as a template literal applies it.  An array joins its
    elements with commas, [null] and [undefined] elements giving the empty
    string.  A plain object gives ["[object Object]"], unless a property
    of its own shadows [toString]: that property cannot be callable, and
    [valueOf] then gives back the object, so the conversion throws. *)
Fixpoint ToString (v : value) : result string :=
  match v with
  | VUndefined => Ok "undefined"
  | VNull => Ok "null"
  | VBool true => Ok "true"
  | VBool false => Ok "false"
  | VNum _ shown => Ok shown
  | VStr s => Ok s
  | VArr items =>
      (fix elements (l : list value) : result string :=
         match l with
         | [] => Ok EmptyString
         | x :: rest =>
             rbind (if nullish x then Ok EmptyString else ToString x) (fun sx =>
             match rest with
             | [] => Ok sx
             | _ => rbind (elements rest) (fun sr => Ok (sx ++ "," ++ sr))
             end)
         end) items
  | VObj props =>
      match assoc "toString" props with
      | Some _ => Raise TypeError
      | None => Ok "[object Object]"
      end
  end.

(** ** Outbound calls, console and exceptions *)

(** [fetch(url, { method, headers, body: JSON.stringify(payload) })]: the
    request keeps the payload as the value handed to [JSON.stringify]. *)
Record request : Type := {
  url : string;
  method : string;
  headers : list (string * string);
  payload : value
}.

(** What the program can observe of a response: the [ok] flag, and the body
    through [text()] or [json()], either of which may reject ([None]). *)
Record response : Type := {
  ok : bool;
  text : option string;
  json : option value
}.

(** The promise [fetch] returns is rejected, or fulfilled with a response. *)
Inductive outcome : Type :=
| Rejected
| Responded (r : response).

Inductive console : Type :=
| ConsoleLog
| ConsoleError.

Inductive logged : Type :=
| LValue (v : value)
| LError (e : exn).

(** A program: it returns, throws, awaits an outbound call or writes to the
    console and goes on. *)
Inductive prog (A : Type) : Type :=
| Ret (a : A)
| Throw (e : exn)
| Call (rq : request) (k : outcome -> prog A)
| Log (c : console) (label : string) (arg : logged) (k : prog A).
Arguments Ret {A} a.
Arguments Throw {A} e.
Arguments Call {A} rq k.
Arguments Log {A} c label arg k.

Fixpoint bind {A B} (p : prog A) (f : A -> prog B) : prog B :=
  match p with
  | Ret a => f a
  | Throw e => Throw e
  | Call rq k => Call rq (fun o => bind (k o) f)
  | Log c label arg k => Log c label arg (bind k f)
  end.

(** [try { p } catch (err) { handler err }] *)
Fixpoint tryCatch {A} (p : prog A) (handler : exn -> prog A) : prog A :=
  match p with
  | Ret a => Ret a
  | Throw e => handler e
  | Call rq k => Call rq (fun o => tryCatch (k o) handler)
  | Log c label arg k => Log c label arg (tryCatch k handler)
  end.

Definition lift {A} (r : result A) : prog A :=
  match r with
  | Ok a => Ret a
  | Raise e => Throw e
  end.

Declare Scope prog_scope.
Delimit Scope prog_scope with prog.
Bind Scope prog_scope with prog.
Notation "x <- p ;; k" := (bind p (fun x => k))
  (at level 61, p at next level, right associativity) : prog_scope.
Notation "p ;; k" := (bind p (fun _ => k))
  (at level 61, right associativity) : prog_scope.

(** [await fetch(...)] *)
Definition fetch (rq : request) : prog response :=
  Call rq (fun o =>
    match o with
    | Responded r => Ret r
    | Rejected => Throw NetworkError
    end).

(** [await response.text()] and [await response.json()] *)
Definition readText (r : response) : prog string :=
  match text r with
  | Some s => Ret s
  | None => Throw BodyError
  end.

Definition readJson (r : response) : prog value :=
  match json r with
  | Some v => Ret v
  | None => Throw BodyError
  end.

Definition consoleLog (label : string) (arg : logged) : prog unit :=
  Log ConsoleLog label arg (Ret tt).

Definition consoleError (label : string) (arg : logged) : prog unit :=
  Log ConsoleError label arg (Ret tt).

(** *** Running a program *)

(** The providers are outside the program: a [world] says how each outbound
    request ends.  A run records when a call begins and when it ends, and
    what went to the console, in the order it happened. *)
Definition world : Type := request -> outcome.

Inductive event : Type :=
| CallBegin (rq : request)
| CallEnd (rq : request) (o : outcome)
| Logged (c : console) (label : string) (arg : logged).

Fixpoint run {A} (w : world) (p : prog A) : list event * result A :=
  match p with
  | Ret a => ([], Ok a)
  | Throw e => ([], Raise e)
  | Call rq k =>
      let '(t, r) := run w (k (w rq)) in
      (CallBegin rq :: CallEnd rq (w rq) :: t, r)
  | Log c label arg k =>
      let '(t, r) := run w k in
      (Logged c label arg :: t, r)
  end.

Definition isCall (e : event) : bool :=
  match e with
  | Logged _ _ _ => false
  | _ => true
  end.

(** The outbound traffic of a run: its events without the console. *)
Definition calls (t : list event) : list event := filter isCall t.

(** ** Shared shapes *)

(** A variable of [process.env]: a string, or [undefined] when unset. *)
Definition envValue (v : option string) : value :=
  match v with
  | Some s => VStr s
  | None => VUndefined
  end.

(** A variable of [process.env] inside a template literal. *)
Definition envText (v : option string) : string :=
  match v with
  | Some s => s
  | None => "undefined"
  end.

(** What the handler hands to Express: [res.status(s).json(body)]; a bare
    [res.json(body)] leaves the status at 200. *)
Record reply : Type := {
  status : nat;
  body : value
}.

(** [{ role, content }] *)
Definition chatMessage (role : string) (content : value) : value :=
  VObj [("role", VStr role); ("content", content)].

(** ** [src/server.js]: the Groq variant *)

Module Groq.

(** The two module-level constants read from [process.env] at start-up. *)
Record config : Type := {
  GROQ_API_KEY : option string;
  TAVILY_API_KEY : option string
}.

(** *** Decide when to use web *)

Definition triggers : list string :=
  [ "latest";
    "today";
    "current";
    "news";
    "right now";
    "price of";
    "stock";
    "weather";
    "live";
    "update";
    "who is";
    "what is";
    "search";
    "on the internet" ].

(** [shouldUseWeb], lines 38 to 60.  A truthy message that is not a string
    has no [toLowerCase] method: calling it throws. *)
Definition shouldUseWeb {tables : CaseTables} (message : value) : result bool :=
  if negb (truthy message) then Ok false
  else
    match message with
    | VStr s =>
        let text := toLowerCase s in
        Ok (existsb (fun word => includes text word) triggers)
    | _ => Raise TypeError
    end.

(** *** Tavily web search *)

(** The arrow function of [.map]: one result as a bullet. *)
Definition renderResult (r : value) : result string :=
  (title <- getProp r "title" ;;
   title <- ToString title ;;
   link <- getProp r "url" ;;
   link <- ToString link ;;
   content <- getProp r "content" ;;
   content <- ToString content ;;
   Ok ("• " ++ title ++ " — " ++ link ++ nl ++ content))%result.

Fixpoint mapResult {A B} (f : A -> result B) (l : list A) : result (list B) :=
  match l with
  | [] => Ok []
  | x :: rest =>
      (y <- f x ;;
       ys <- mapResult f rest ;;
       Ok (y :: ys))%result
  end.

(** Lines 91 to 100: from the parsed response to the context string.
    Only an array has both [slice] and [map]; on a string [slice] works and
    [map] is missing, anything else lacks [slice]. *)
Definition formatContext (data : value) : result string :=
  (answerField <- getProp data "answer" ;;
   answer <- (if truthy answerField
              then (a <- ToString answerField ;; Ok ("Answer: " ++ a ++ nl ++ nl))
              else Ok "") ;;
   resultsField <- getProp data "results" ;;
   results <- match (if truthy resultsField then resultsField else VArr []) with
              | VArr items =>
                  bullets <- mapResult renderResult (firstn 3 items) ;;
                  Ok (join (nl ++ nl) bullets)
              | _ => Raise TypeError
              end ;;
   Ok (answer ++ results))%result.

Definition tavilyRequest (cfg : config) (query : value) : request :=
  {| url := "https://api.tavily.com/search";
     method := "POST";
     headers := [("Content-Type", "application/json")];
     payload := VObj [ ("api_key", envValue (TAVILY_API_KEY cfg));
                       ("query", query);
                       ("search_depth", VStr "basic");
                       ("max_results", VNum true "5");
                       ("include_answer", VBool true) ] |}.

(** [searchWebWithTavily], lines 65 to 105. *)
Definition searchWebWithTavily (cfg : config) (query : value) : prog string :=
  if negb (truthy (envValue (TAVILY_API_KEY cfg))) then Ret ""
  else
    (consoleLog "🌐 Tavily search for:" (LValue query) ;;
     tryCatch
       (response <- fetch (tavilyRequest cfg query) ;;
        if negb (ok response) then
          txt <- readText response ;;
          consoleError "Tavily error:" (LValue (VStr txt)) ;;
          Ret ""
        else
          data <- readJson response ;;
          lift (formatContext data))
       (fun err =>
          consoleError "Tavily search failed:" (LError err) ;;
          Ret ""))%prog.

(** *** Main chat endpoint *)

Definition defaultSystem : string :=
  "You are DINX, a precise, helpful design assistant. Use web context if provided, and say when information may be out of date.".

Definition webBanner : string :=
  "Here is information from a live web search. Use it carefully in your answer:" ++ nl ++ nl.

(** The array [messages] after the three [push]es. *)
Definition buildMessages (system message : value) (webInfo : string) : list value :=
  ([chatMessage "system" (if truthy system then system else VStr defaultSystem)]
   ++ (if truthy (VStr webInfo)
       then [chatMessage "system" (VStr (webBanner ++ webInfo))]
       else [])
   ++ [chatMessage "user" message])%list.

Definition groqRequest (cfg : config) (model : value) (messages : list value) : request :=
  {| url := "https://api.groq.com/openai/v1/chat/completions";
     method := "POST";
     headers := [ ("Content-Type", "application/json");
                  ("Authorization", "Bearer " ++ envText (GROQ_API_KEY cfg)) ];
     payload := VObj [("model", model); ("messages", VArr messages)] |}.

(** [app.post('/api/chat', async (req, res) => ...)], lines 110 to 180, from
    [req.body] to the response.  [req.body] is whatever the JSON middleware left there: destructuring
    it throws when it is [undefined] or [null]. *)
Definition chatHandler {tables : CaseTables} (cfg : config) (reqBody : value) : prog reply :=
  tryCatch
    (model <- lift (getProp reqBody "model") ;;
     system <- lift (getProp reqBody "system") ;;
     message <- lift (getProp reqBody "message") ;;
     if negb (truthy (envValue (GROQ_API_KEY cfg))) then
       Ret {| status := 500;
              body := VObj [("error", VStr "GROQ_API_KEY not set on server.")] |}
     else if negb (truthy model) || negb (truthy message) then
       Ret {| status := 400;
              body := VObj [("error", VStr "model and message are required.")] |}
     else
       useWeb <- lift (shouldUseWeb message) ;;
       webInfo <- (if useWeb then searchWebWithTavily cfg message else Ret "") ;;
       let messages := buildMessages system message webInfo in
       groqRes <- fetch (groqRequest cfg model messages) ;;
       if negb (ok groqRes) then
         errorText <- readText groqRes ;;
         consoleError "Groq API error:" (LValue (VStr errorText)) ;;
         Ret {| status := 500;
                body := VObj [ ("error", VStr "Groq API error");
                               ("details", VStr errorText) ] |}
       else
         data <- readJson groqRes ;;
         choices <- lift (getProp data "choices") ;;
         let content := getOpt (getOpt (getOpt choices "0") "message") "content" in
         let answer := if truthy content then content else VStr "No reply from model." in
         Ret {| status := 200; body := VObj [("reply", answer)] |})%prog
    (fun err =>
       consoleError "❌ Server error talking to LLM:" (LError err) ;;
       Ret {| status := 500;
              body := VObj [("error", VStr "Server error talking to LLM.")] |})%prog.

End Groq.

(** ** [src/unnamed/part_000]: the DeepSeek variant *)

(** The file differs from [server.js] in the completion provider only.  Its
    two module-level constants are meant to read the credentials, but lines 17
    and 20 spell them as subtractions on [process.env]; line 17 is not even
    well-formed JavaScript, a numeric literal running into an identifier.  The
    functions below are embedded from their own text, with the two constants
    as the fields of [config]. *)
Module DeepSeek.

Record config : Type := {
  DEEPSEEK_API_KEY : option string;
  TAVILY_API_KEY : option string
}.

Definition triggers : list string :=
  [ "latest";
    "today";
    "current";
    "news";
    "right now";
    "price of";
    "stock";
    "weather";
    "live";
    "update";
    "who is";
    "what is";
    "search";
    "on the internet" ].

Definition shouldUseWeb {tables : CaseTables} (message : value) : result bool :=
  if negb (truthy message) then Ok false
  else
    match message with
    | VStr s =>
        let text := toLowerCase s in
        Ok (existsb (fun word => includes text word) triggers)
    | _ => Raise TypeError
    end.

Definition renderResult (r : value) : result string :=
  (title <- getProp r "title" ;;
   title <- ToString title ;;
   link <- getProp r "url" ;;
   link <- ToString link ;;
   content <- getProp r "content" ;;
   content <- ToString content ;;
   Ok ("• " ++ title ++ " — " ++ link ++ nl ++ content))%result.

Fixpoint mapResult {A B} (f : A -> result B) (l : list A) : result (list B) :=
  match l with
  | [] => Ok []
  | x :: rest =>
      (y <- f x ;;
       ys <- mapResult f rest ;;
       Ok (y :: ys))%result
  end.

Definition formatContext (data : value) : result string :=
  (answerField <- getProp data "answer" ;;
   answer <- (if truthy answerField
              then (a <- ToString answerField ;; Ok ("Answer: " ++ a ++ nl ++ nl))
              else Ok "") ;;
   resultsField <- getProp data "results" ;;
   results <- match (if truthy resultsField then resultsField else VArr []) with
              | VArr items =>
                  bullets <- mapResult renderResult (firstn 3 items) ;;
                  Ok (join (nl ++ nl) bullets)
              | _ => Raise TypeError
              end ;;
   Ok (answer ++ results))%result.

Definition tavilyRequest (cfg : config) (query : value) : request :=
  {| url := "https://api.tavily.com/search";
     method := "POST";
     headers := [("Content-Type", "application/json")];
     payload := VObj [ ("api_key", envValue (TAVILY_API_KEY cfg));
                       ("query", query);
                       ("search_depth", VStr "basic");
                       ("max_results", VNum true "5");
                       ("include_answer", VBool true) ] |}.

Definition searchWebWithTavily (cfg : config) (query : value) : prog string :=
  if negb (truthy (envValue (TAVILY_API_KEY cfg))) then Ret ""
  else
    (consoleLog "🌐 Tavily search for:" (LValue query) ;;
     tryCatch
       (response <- fetch (tavilyRequest cfg query) ;;
        if negb (ok response) then
          txt <- readText response ;;
          consoleError "Tavily error:" (LValue (VStr txt)) ;;
          Ret ""
        else
          data <- readJson response ;;
          lift (formatContext data))
       (fun err =>
          consoleError "Tavily search failed:" (LError err) ;;
          Ret ""))%prog.

Definition defaultSystem : string :=
  "You are DINX, a precise, helpful design assistant. Use web context if provided, and say when information may be out of date.".

Definition webBanner : string :=
  "Here is information from a live web search. Use it carefully in your answer:" ++ nl ++ nl.

Definition buildMessages (system message : value) (webInfo : string) : list value :=
  ([chatMessage "system" (if truthy system then system else VStr defaultSystem)]
   ++ (if truthy (VStr webInfo)
       then [chatMessage "system" (VStr (webBanner ++ webInfo))]
       else [])
   ++ [chatMessage "user" message])%list.

(** The payload falls back to ["deepseek-chat"] for a falsy [model]. *)
Definition deepseekRequest (cfg : config) (model : value) (messages : list value) : request :=
  {| url := "https://api.deepseek.com/chat/completions";
     method := "POST";
     headers := [ ("Content-Type", "application/json");
                  ("Authorization", "Bearer " ++ envText (DEEPSEEK_API_KEY cfg)) ];
     payload := VObj [ ("model", if truthy model then model else VStr "deepseek-chat");
                       ("messages", VArr messages) ] |}.

Definition chatHandler {tables : CaseTables} (cfg : config) (reqBody : value) : prog reply :=
  tryCatch
    (model <- lift (getProp reqBody "model") ;;
     system <- lift (getProp reqBody "system") ;;
     message <- lift (getProp reqBody "message") ;;
     if negb (truthy (envValue (DEEPSEEK_API_KEY cfg))) then
       Ret {| status := 500;
              body := VObj [("error", VStr "DEEPSEEK_API_KEY not set on server.")] |}
     else if negb (truthy model) || negb (truthy message) then
       Ret {| status := 400;
              body := VObj [("error", VStr "model and message are required.")] |}
     else
       useWeb <- lift (shouldUseWeb message) ;;
       webInfo <- (if useWeb then searchWebWithTavily cfg message else Ret "") ;;
       let messages := buildMessages system message webInfo in
       deepseekRes <- fetch (deepseekRequest cfg model messages) ;;
       if negb (ok deepseekRes) then
         errorText <- readText deepseekRes ;;
         consoleError "DeepSeek API error:" (LValue (VStr errorText)) ;;
         Ret {| status := 500;
                body := VObj [ ("error", VStr "DeepSeek API error");
                               ("details", VStr errorText) ] |}
       else
         data <- readJson deepseekRes ;;
         choices <- lift (getProp data "choices") ;;
         let content := getOpt (getOpt (getOpt choices "0") "message") "content" in
         let answer := if truthy content then content else VStr "No reply from model." in
         Ret {| status := 200; body := VObj [("reply", answer)] |})%prog
    (fun err =>
       consoleError "❌ Server error talking to LLM:" (LError err) ;;
       Ret {| status := 500;
              body := VObj [("error", VStr "Server error talking to LLM.")] |})%prog.

End DeepSeek.

(** A runtime whose case tables leave every code unit outside ASCII as it
    is; the concrete runs below use it. *)
Definition plainTables : CaseTables :=
  fun _ c _ => String c EmptyString.


(** ** Vocabulary of the specification *)

(** [word] is a substring of [s]. *)
Definition Occurs (word s : string) : Prop :=
  exists pre suf, s = pre ++ word ++ suf.

(** Two texts that differ at most in the case of their ASCII letters. *)
Definition sameIgnoringCase (a b : string) : Prop :=
  mapString asciiLower a = mapString asciiLower b.

(** Some stretch of [s] spells [word], whatever the case of its letters. *)
Definition OccursIgnoringCase (word s : string) : Prop :=
  exists pre mid suf, s = pre ++ mid ++ suf /\ sameIgnoringCase mid word.

(** The response shape the search provider documents: an optional
    synthesized answer and a list of results. *)
Record searchHit : Type := {
  hitTitle : string;
  hitUrl : string;
  hitContent : string
}.

Definition hitValue (h : searchHit) : value :=
  VObj [ ("title", VStr (hitTitle h));
         ("url", VStr (hitUrl h));
         ("content", VStr (hitContent h)) ].

Definition tavilyData (answer : option string) (results : option (list searchHit)) : value :=
  VObj ((match answer with
         | Some a => [("answer", VStr a)]
         | None => []
         end)
        ++ (match results with
            | Some hits => [("results", VArr (map hitValue hits))]
            | None => []
            end))%list.

(** The context as the specification words it: an optional leading answer
    line, then at most the first three results as bullets, separated by blank
    lines.  An answer that is the empty string counts as no answer, and a
    response without [results] as one with none. *)
Definition specBullet (h : searchHit) : string :=
  "• " ++ hitTitle h ++ " — " ++ hitUrl h ++ nl ++ hitContent h.

Definition specLead (answer : option string) : string :=
  match answer with
  | Some a => if String.eqb a "" then "" else "Answer: " ++ a ++ nl ++ nl
  | None => ""
  end.

Definition specContext (answer : option string) (results : option (list searchHit)) : string :=
  specLead answer
  ++ join (nl ++ nl)
       (map specBullet (firstn 3 (match results with
                                  | Some hits => hits
                                  | None => []
                                  end))).

(** The text of the first completion choice in the response shape
    [{ choices: [{ message: { content } }] }]. *)
Definition firstChoiceContent (data : value) : value :=
  get (get (get (get data "choices") "0") "message") "content".

(** A completion response that carries no choices, or no message content in
    the first of them. *)
Definition carriesNoReply (data : value) : Prop :=
  get data "choices" = VUndefined
  \/ get data "choices" = VArr []
  \/ truthy (firstChoiceContent data) = false.

(** An object without its properties named [key]. *)
Fixpoint withoutKey (key : string) (props : list (string * value)) : list (string * value) :=
  match props with
  | [] => []
  | (k, v) :: rest =>
      if String.eqb k key then withoutKey key rest
      else (k, v) :: withoutKey key rest
  end.

(** ** The handler in two halves *)

(** The [catch] block of the handler, and the statements of its [try] block
    from the assembly of [messages] on; [chatHandler] is the first wrapped
    around what precedes the second. *)
Definition groqOnError (err : exn) : prog reply :=
  (consoleError "❌ Server error talking to LLM:" (LError err) ;;
   Ret {| status := 500;
          body := VObj [("error", VStr "Server error talking to LLM.")] |})%prog.

Definition groqRelay (cfg : Groq.config) (model system message : value) (webInfo : string) : prog reply :=
  (let messages := Groq.buildMessages system message webInfo in
   groqRes <- fetch (Groq.groqRequest cfg model messages) ;;
   if negb (ok groqRes) then
     errorText <- readText groqRes ;;
     consoleError "Groq API error:" (LValue (VStr errorText)) ;;
     Ret {| status := 500;
            body := VObj [ ("error", VStr "Groq API error");
                           ("details", VStr errorText) ] |}
   else
     data <- readJson groqRes ;;
     choices <- lift (getProp data "choices") ;;
     let content := getOpt (getOpt (getOpt choices "0") "message") "content" in
     let answer := if truthy content then content else VStr "No reply from model." in
     Ret {| status := 200; body := VObj [("reply", answer)] |})%prog.

(** Sequencing of runs. *)
Definition andThen {A B} (x : list event * result A)
    (f : A -> list event * result B) : list event * result B :=
  match x with
  | (t, Ok a) => let '(t', r) := f a in ((t ++ t')%list, r)
  | (t, Raise e) => (t, Raise e)
  end.

Definition orElse {A} (x : list event * result A)
    (h : exn -> list event * result A) : list event * result A :=
  match x with
  | (t, Ok a) => (t, Ok a)
  | (t, Raise e) => let '(t', r) := h e in ((t ++ t')%list, r)
  end.

(** The two endpoints of [server.js]. *)
Definition searchEndpoint : string := "https://api.tavily.com/search".

Definition completionEndpoint : string :=
  "https://api.groq.com/openai/v1/chat/completions".

(** The request of a call event. *)
Definition requestOf (e : event) : option request :=
  match e with
  | CallBegin rq => Some rq
  | CallEnd rq _ => Some rq
  | Logged _ _ _ => None
  end.

(** ** Concrete configurations and worlds *)

Definition bothKeys : Groq.config :=
  {| Groq.GROQ_API_KEY := Some "gsk-test"; Groq.TAVILY_API_KEY := Some "tvly-test" |}.

Definition noGroqKey : Groq.config :=
  {| Groq.GROQ_API_KEY := None; Groq.TAVILY_API_KEY := Some "tvly-test" |}.

Definition noTavilyKey : Groq.config :=
  {| Groq.GROQ_API_KEY := Some "gsk-test"; Groq.TAVILY_API_KEY := None |}.

Definition jsonResponse (data : value) : response :=
  {| ok := true; text := None; json := Some data |}.

Definition errorResponse (message : string) : response :=
  {| ok := false; text := Some message; json := None |}.

(** A world in which every call is answered alike. *)
Definition always (r : response) : world := fun _ => Responded r.

(** A world without network. *)
Definition offline : world := fun _ => Rejected.

(** A world in which Tavily and the completion provider each have their
    answer. *)
Definition twoProviders (search completion : outcome) : world := fun rq =>
  if String.eqb (url rq) "https://api.tavily.com/search" then search else completion.

Definition twoHits : list searchHit :=
  [ {| hitTitle := "T1"; hitUrl := "U1"; hitContent := "C1" |};
    {| hitTitle := "T2"; hitUrl := "U2"; hitContent := "C2" |} ].

Definition completionData (content : string) : value :=
  VObj [("choices", VArr [VObj [("message", VObj [("content", VStr content)])]])].

(** Tavily answers with ["A"] and two results, the completion provider with
    one choice. *)
Definition sunnyWorld : world :=
  twoProviders (Responded (jsonResponse (tavilyData (Some "A") (Some twoHits))))
               (Responded (jsonResponse (completionData "Bring an umbrella."))).

(** The completion provider turns the request down. *)
Definition throttledWorld : world :=
  twoProviders (Responded (jsonResponse (tavilyData (Some "A") (Some twoHits))))
               (Responded (errorResponse "rate limit exceeded")).

(** The completion provider answers with success and an empty object. *)
Definition muteWorld : world :=
  twoProviders (Responded (jsonResponse (tavilyData (Some "A") (Some twoHits))))
               (Responded (jsonResponse (VObj []))).

Definition logoRequest : value :=
  VObj [("model", VStr "llama-3.1-8b-instant"); ("message", VStr "Sketch a logo")].

Definition logoCompletion : request :=
  Groq.groqRequest bothKeys (VStr "llama-3.1-8b-instant")
    [ chatMessage "system" (VStr Groq.defaultSystem);
      chatMessage "user" (VStr "Sketch a logo") ].

Definition weatherQuestion : string := "What is the weather today?".

Definition weatherRequest : value :=
  VObj [("model", VStr "llama-3.1-8b-instant"); ("message", VStr weatherQuestion)].

(** The same question without [model]. *)
Definition modellessRequest : value :=
  VObj [("message", VStr weatherQuestion)].

(** A request without [message]. *)
Definition messagelessRequest : value :=
  VObj [("model", VStr "llama-3.1-8b-instant")].

(** [logoRequest] with an empty [system]. *)
Definition emptySystemRequest : list (string * value) :=
  [ ("model", VStr "llama-3.1-8b-instant");
    ("system", VStr "");
    ("message", VStr "Sketch a logo") ].

(** The response of the [catch] block of the handler. *)
Definition serverError : reply :=
  {| status := 500; body := VObj [("error", VStr "Server error talking to LLM.")] |}.

Definition invalidRequest : reply :=
  {| status := 400; body := VObj [("error", VStr "model and message are required.")] |}.

Definition missingCredential : reply :=
  {| status := 500; body := VObj [("error", VStr "GROQ_API_KEY not set on server.")] |}.

(** ** Further vocabulary *)

(** The console line of the [catch] block of the handler. *)
Definition crashLine (e : exn) : event :=
  Logged ConsoleError "❌ Server error talking to LLM:" (LError e).

(** The same configuration with the search credential unset. *)
Definition withoutSearch (cfg : Groq.config) : Groq.config :=
  {| Groq.GROQ_API_KEY := Groq.GROQ_API_KEY cfg; Groq.TAVILY_API_KEY := None |}.

(** ** Further concrete inputs *)

(** The LLM credential set to the empty string. *)
Definition emptyGroqKey : Groq.config :=
  {| Groq.GROQ_API_KEY := Some ""; Groq.TAVILY_API_KEY := Some "tvly-test" |}.

(** A request whose message is the number 42. *)
Definition numberRequest : value :=
  VObj [("model", VStr "llama-3.1-8b-instant"); ("message", VNum true "42")].

(** [weatherRequest] with a system prompt of the caller's. *)
Definition pirateRequest : value :=
  VObj [ ("model", VStr "llama-3.1-8b-instant");
         ("system", VStr "Answer as a pirate.");
         ("message", VStr weatherQuestion) ].

(** [logoRequest] with the number 7 as [system]. *)
Definition numberSystemRequest : value :=
  VObj [ ("model", VStr "llama-3.1-8b-instant");
         ("system", VNum true "7");
         ("message", VStr "Sketch a logo") ].

(** The completion provider answers with success and the JSON body
    [null]. *)
Definition nullBodyWorld : world :=
  twoProviders (Responded (jsonResponse (tavilyData (Some "A") (Some twoHits))))
               (Responded (jsonResponse VNull)).

(** Tavily answers with success and an empty object. *)
Definition blankSearchWorld : world :=
  twoProviders (Responded (jsonResponse (VObj [])))
               (Responded (jsonResponse (completionData "Bring an umbrella."))).

(** Tavily turns the search down; the completion provider answers. *)
Definition searchDownWorld : world :=
  twoProviders (Responded (errorResponse "quota exceeded"))
               (Responded (jsonResponse (completionData "Bring an umbrella."))).

(** Tavily answers with success and a result list whose second entry is
    [null]. *)
Definition brokenSearchWorld : world :=
  twoProviders
    (Responded (jsonResponse
       (VObj [("results", VArr [hitValue {| hitTitle := "T1"; hitUrl := "U1";
                                            hitContent := "C1" |};
                                VNull])])))
    (Responded (jsonResponse (completionData "Bring an umbrella."))).

Definition threeResults : list value :=
  [ hitValue {| hitTitle := "T1"; hitUrl := "U1"; hitContent := "C1" |};
    hitValue {| hitTitle := "T2"; hitUrl := "U2"; hitContent := "C2" |};
    hitValue {| hitTitle := "T3"; hitUrl := "U3"; hitContent := "C3" |} ].

(** A response with a property the program does not read and a fourth
    result that is [null]. *)
Definition crowdedData : value :=
  VObj [ ("query", VStr "weather");
         ("results", VArr (threeResults ++ [VNull])%list) ].

(** ** The DeepSeek handler in two halves *)

Definition deepseekEndpoint : string := "https://api.deepseek.com/chat/completions".

(** The [catch] block of the DeepSeek handler, and its [try] block from the
    assembly of [messages] on. *)
Definition deepseekOnError (err : exn) : prog reply :=
  (consoleError "❌ Server error talking to LLM:" (LError err) ;;
   Ret {| status := 500;
          body := VObj [("error", VStr "Server error talking to LLM.")] |})%prog.

Definition deepseekRelay (cfg : DeepSeek.config) (model system message : value)
    (webInfo : string) : prog reply :=
  (let messages := DeepSeek.buildMessages system message webInfo in
   deepseekRes <- fetch (DeepSeek.deepseekRequest cfg model messages) ;;
   if negb (ok deepseekRes) then
     errorText <- readText deepseekRes ;;
     consoleError "DeepSeek API error:" (LValue (VStr errorText)) ;;
     Ret {| status := 500;
            body := VObj [ ("error", VStr "DeepSeek API error");
                           ("details", VStr errorText) ] |}
   else
     data <- readJson deepseekRes ;;
     choices <- lift (getProp data "choices") ;;
     let content := getOpt (getOpt (getOpt choices "0") "message") "content" in
     let answer := if truthy content then content else VStr "No reply from model." in
     Ret {| status := 200; body := VObj [("reply", answer)] |})%prog.

(** The configuration of [server.js] with the same two credentials. *)
Definition asGroq (cfg : DeepSeek.config) : Groq.config :=
  {| Groq.GROQ_API_KEY := DeepSeek.DEEPSEEK_API_KEY cfg;
     Groq.TAVILY_API_KEY := DeepSeek.TAVILY_API_KEY cfg |}.

Definition deepseekKeys : DeepSeek.config :=
  {| DeepSeek.DEEPSEEK_API_KEY := Some "gsk-test";
     DeepSeek.TAVILY_API_KEY := Some "tvly-test" |}.

Definition logoDeepseekCompletion : request :=
  DeepSeek.deepseekRequest deepseekKeys (VStr "llama-3.1-8b-instant")
    [ chatMessage "system" (VStr DeepSeek.defaultSystem);
      chatMessage "user" (VStr "Sketch a logo") ].

(** ** Start-up of [server.js] *)

(** Lines 22 to 28: what [console.warn] receives when the module is loaded,
    in order. *)
Definition groqWarning : string :=
  "⚠️ GROQ_API_KEY is not set. LLM calls will fail.".

Definition tavilyWarning : string :=
  "⚠️ TAVILY_API_KEY is not set. Web search will be disabled.".

Definition startupWarnings (cfg : Groq.config) : list string :=
  ((if negb (truthy (envValue (Groq.GROQ_API_KEY cfg))) then [groqWarning] else [])
   ++ (if negb (truthy (envValue (Groq.TAVILY_API_KEY cfg))) then [tavilyWarning] else []))%list.

(** * Properties *)

(** ** Strings *)

Lemma append_empty_r (s : string) : s ++ "" = s.
Proof. induction s as [|c s IH]; simpl; [reflexivity | now rewrite IH]. Qed.

Lemma append_assoc3 (a b c : string) : (a ++ b) ++ c = a ++ b ++ c.
Proof. induction a as [|x a IH]; simpl; [reflexivity | now rewrite IH]. Qed.

Lemma prefix_Occurs (word s : string) :
  String.prefix word s = true <-> exists suf, s = word ++ suf.
Proof.
  revert s. induction word as [|c word IH]; intros s.
  - split; [intros _; now exists s | intros _; now destruct s].
  - destruct s as [|d s]; simpl.
    + split; [discriminate | intros [suf H]; discriminate].
    + destruct (ascii_dec c d) as [->|ne].
      * rewrite IH. split; intros [suf H]; exists suf; congruence.
      * split; [discriminate | intros [suf H]; congruence].
Qed.

Lemma includes_Occurs (s word : string) :
  includes s word = true <-> Occurs word s.
Proof.
  unfold Occurs. induction s as [|c s IH].
  - cbn [includes]. rewrite orb_false_r, prefix_Occurs. split.
    + intros [suf H]. now exists "", suf.
    + intros [[|x pre] [suf H]]; [now exists suf | discriminate].
  - cbn [includes]. rewrite orb_true_iff, IH, prefix_Occurs. split.
    + intros [[suf H] | [pre [suf H]]].
      * now exists "", suf.
      * exists (String c pre), suf. simpl. now rewrite H.
    + intros [[|x pre] [suf H]].
      * left. now exists suf.
      * right. exists pre, suf. simpl in H. congruence.
Qed.


Lemma mapString_split f (s a' b' : string) :
  mapString f s = a' ++ b' ->
  exists a b, s = a ++ b /\ mapString f a = a' /\ mapString f b = b'.
Proof.
  revert s. induction a' as [|c a' IH]; intros s H.
  - exists "", s. auto.
  - destruct s as [|d s]; [discriminate|]. simpl in H.
    injection H as Hc Hs. destruct (IH _ Hs) as (a & b & -> & Ha & Hb).
    exists (String d a), b. simpl. now rewrite Hc, Ha, Hb.
Qed.

Lemma isAscii_asciiLower (c : ascii) : isAscii (asciiLower c) = isAscii c.
Proof. destruct c as [[] [] [] [] [] [] [] []]; reflexivity. Qed.

Lemma allAscii_mapString_lower (s : string) :
  allAscii (mapString asciiLower s) = allAscii s.
Proof.
  induction s as [|c s IH]; simpl; [reflexivity|].
  now rewrite isAscii_asciiLower, IH.
Qed.


Section LoweringFacts.
Context {tables : CaseTables}.

(** An ASCII stretch is lower-cased unit by unit, wherever it stands. *)
Lemma lowerFrom_ascii_prefix (mid suf before : string) :
  allAscii mid = true ->
  lowerFrom before (mid ++ suf)
  = mapString asciiLower mid ++ lowerFrom (before ++ mid) suf.
Proof.
  revert before. induction mid as [|c mid IH]; intros before H; simpl.
  - now rewrite append_empty_r.
  - simpl in H. apply andb_true_iff in H as [Hc Hm]. rewrite Hc. simpl.
    rewrite IH by assumption. now rewrite append_assoc3.
Qed.

Lemma lowerFrom_ascii (s before : string) :
  allAscii s = true -> lowerFrom before s = mapString asciiLower s.
Proof.
  intros H. rewrite <- (append_empty_r s) at 1.
  rewrite lowerFrom_ascii_prefix by assumption. simpl.
  apply append_empty_r.
Qed.

Lemma lowerFrom_keeps_ascii (pre mid suf before : string) :
  allAscii mid = true ->
  Occurs (mapString asciiLower mid) (lowerFrom before (pre ++ mid ++ suf)).
Proof.
  revert before. induction pre as [|c pre IH]; intros before H.
  - simpl. rewrite lowerFrom_ascii_prefix by assumption.
    now exists "", (lowerFrom (before ++ mid) suf).
  - simpl. destruct (IH (before ++ String c "") H) as (x & y & E).
    rewrite E. eexists (_ ++ x), y. now rewrite append_assoc3.
Qed.
End LoweringFacts.

(** ** The augmentation decider *)

Lemma triggers_lowercase (word : string) :
  In word Groq.triggers ->
  allAscii word = true /\ mapString asciiLower word = word /\ word <> "".
Proof.
  unfold Groq.triggers. simpl.
  intros H. repeat (destruct H as [<- | H]; [repeat split; discriminate|]).
  contradiction.
Qed.

Section Decider.
Context {tables : CaseTables}.

Lemma shouldUseWeb_string (m : string) :
  Groq.shouldUseWeb (VStr m)
  = Ok (negb (String.eqb m "")
        && existsb (fun word => includes (toLowerCase m) word) Groq.triggers).
Proof.
  unfold Groq.shouldUseWeb. cbn [truthy].
  destruct (String.eqb m ""); reflexivity.
Qed.

Lemma shouldUseWeb_true_iff (m : string) :
  Groq.shouldUseWeb (VStr m) = Ok true
  <-> m <> "" /\ exists word, In word Groq.triggers /\ Occurs word (toLowerCase m).
Proof.
  rewrite shouldUseWeb_string. split.
  - intros H. injection H as H. apply andb_true_iff in H as [Hm Hx].
    split.
    + intros ->. discriminate.
    + change (existsb (fun word => includes (toLowerCase m) word) Groq.triggers
              = true) in Hx.
      apply existsb_exists in Hx as (word & Hin & Hinc).
      exists word. split; [assumption|]. now apply includes_Occurs.
  - intros [Hm (word & Hin & Hocc)]. f_equal. apply andb_true_iff. split.
    + apply negb_true_iff, String.eqb_neq, Hm.
    + apply existsb_exists. exists word. split; [assumption|].
      now apply includes_Occurs.
Qed.

Lemma shouldUseWeb_total (m : string) :
  exists b, Groq.shouldUseWeb (VStr m) = Ok b.
Proof. rewrite shouldUseWeb_string. eauto. Qed.

Lemma shouldUseWeb_false_iff (m : string) :
  Groq.shouldUseWeb (VStr m) = Ok false <-> Groq.shouldUseWeb (VStr m) <> Ok true.
Proof.
  destruct (shouldUseWeb_total m) as [[] E]; rewrite E; split; congruence.
Qed.

Lemma OccursIgnoringCase_lowered (word m : string) :
  In word Groq.triggers ->
  OccursIgnoringCase word m -> Occurs word (toLowerCase m).
Proof.
  intros Hin (pre & mid & suf & -> & Hsame).
  destruct (triggers_lowercase _ Hin) as (Hascii & Hlow & _).
  red in Hsame. rewrite Hlow in Hsame.
  assert (Hmid : allAscii mid = true).
  { rewrite <- allAscii_mapString_lower, Hsame. exact Hascii. }
  rewrite <- Hsame. now apply lowerFrom_keeps_ascii.
Qed.

Lemma Occurs_lowered_ascii (word m : string) :
  In word Groq.triggers -> allAscii m = true ->
  Occurs word (toLowerCase m) -> OccursIgnoringCase word m.
Proof.
  intros Hin Hm (pre' & suf' & E).
  destruct (triggers_lowercase _ Hin) as (_ & Hlow & _).
  unfold toLowerCase in E. rewrite lowerFrom_ascii in E by assumption.
  apply mapString_split in E as (pre & rest & -> & _ & E).
  apply mapString_split in E as (mid & suf & -> & Hmid & _).
  exists pre, mid, suf. split; [reflexivity|].
  red. now rewrite Hlow.
Qed.
End Decider.

(** Decides, for a given text, that no trigger occurs in it. *)
Ltac no_trigger_occurs :=
  let word := fresh "word" in
  let Hin := fresh "Hin" in
  let Hocc := fresh "Hocc" in
  intros word Hin Hocc;
  apply includes_Occurs in Hocc;
  unfold Groq.triggers in Hin; simpl in Hin;
  repeat (destruct Hin as [<- | Hin]; [vm_compute in Hocc; discriminate|]);
  contradiction.

(** C1.  [shouldUseWeb] answers [true] for every message in which some
    stretch spells one of the fixed trigger substrings in any mix of upper and
    lower case, wherever it stands and whatever surrounds it; it answers
    [false] for every message whose lower-cased text holds none of them, which
    for an ASCII message means that no stretch spells a trigger in any case;
    and it answers [false] for the empty string, [undefined] and [null]. *)
Theorem shouldUseWeb_follows_triggers {tables : CaseTables} :
  (forall m : string,
      (exists word, In word Groq.triggers /\ OccursIgnoringCase word m) ->
      Groq.shouldUseWeb (VStr m) = Ok true)
  /\ (forall m : string,
      (forall word, In word Groq.triggers -> ~ Occurs word (toLowerCase m)) ->
      Groq.shouldUseWeb (VStr m) = Ok false)
  /\ (forall m : string,
      allAscii m = true ->
      (forall word, In word Groq.triggers -> ~ OccursIgnoringCase word m) ->
      Groq.shouldUseWeb (VStr m) = Ok false)
  /\ Groq.shouldUseWeb (VStr "") = Ok false
  /\ Groq.shouldUseWeb VUndefined = Ok false
  /\ Groq.shouldUseWeb VNull = Ok false.
Proof.
  assert (Hnone : forall m : string,
             (forall word, In word Groq.triggers -> ~ Occurs word (toLowerCase m)) ->
             Groq.shouldUseWeb (VStr m) = Ok false).
  { intros m H. apply shouldUseWeb_false_iff. intros E.
    apply shouldUseWeb_true_iff in E as [_ (word & Hin & Hocc)].
    exact (H word Hin Hocc). }
  split; [|split; [exact Hnone|split; [|repeat split]]].
  - intros m (word & Hin & Hocc). apply shouldUseWeb_true_iff. split.
    + intros ->. destruct Hocc as (pre & mid & suf & E & Hsame).
      destruct (triggers_lowercase _ Hin) as (_ & Hlow & Hne).
      destruct pre; [|discriminate]. destruct mid; [|discriminate].
      red in Hsame. rewrite Hlow in Hsame. simpl in Hsame. congruence.
    + exists word. split; [assumption|].
      now apply OccursIgnoringCase_lowered.
  - intros m Hm H. apply Hnone. intros word Hin Hocc.
    exact (H word Hin (Occurs_lowered_ascii _ _ Hin Hm Hocc)).
Qed.

Lemma shouldUseWeb_follows_triggers_witness :
  Groq.shouldUseWeb (tables := plainTables) (VStr "What is the WEATHER like?") = Ok true
  /\ Groq.shouldUseWeb (tables := plainTables) (VStr "Sketch a logo") = Ok false.
Proof.
  destruct (shouldUseWeb_follows_triggers (tables := plainTables))
    as (Hyes & _ & Hno & _).
  split.
  - apply Hyes. exists "weather". split.
    + simpl. tauto.
    + exists "What is the ", "WEATHER", " like?". split; reflexivity.
  - apply Hno; [reflexivity|].
    intros word Hin Hocc.
    apply (OccursIgnoringCase_lowered (tables := plainTables) _ _ Hin) in Hocc.
    apply includes_Occurs in Hocc.
    unfold Groq.triggers in Hin. simpl in Hin.
    repeat (destruct Hin as [<- | Hin]; [vm_compute in Hocc; discriminate|]).
    contradiction.
Defined.

(** ** Running programs *)

Lemma run_bind {A B} (w : world) (p : prog A) (f : A -> prog B) :
  run w (bind p f) = andThen (run w p) (fun a => run w (f a)).
Proof.
  induction p as [a | e | rq k IH | c label arg k IH]; cbn [bind run andThen].
  - now destruct (run w (f a)).
  - reflexivity.
  - rewrite IH. destruct (run w (k (w rq))) as [t [a|e]]; cbn [andThen].
    + now destruct (run w (f a)).
    + reflexivity.
  - rewrite IH. destruct (run w k) as [t [a|e]]; cbn [andThen].
    + now destruct (run w (f a)).
    + reflexivity.
Qed.

Lemma run_tryCatch {A} (w : world) (p : prog A) (h : exn -> prog A) :
  run w (tryCatch p h) = orElse (run w p) (fun e => run w (h e)).
Proof.
  induction p as [a | e | rq k IH | c label arg k IH]; cbn [tryCatch run orElse].
  - reflexivity.
  - now destruct (run w (h e)).
  - rewrite IH. destruct (run w (k (w rq))) as [t [a|e]]; cbn [orElse].
    + reflexivity.
    + now destruct (run w (h e)).
  - rewrite IH. destruct (run w k) as [t [a|e]]; cbn [orElse].
    + reflexivity.
    + now destruct (run w (h e)).
Qed.


(** One step of evaluation of a program whose next action is known. *)
Ltac program_step :=
  cbn [negb ok json text consoleLog consoleError bind tryCatch fetch run
       readJson readText lift andThen orElse app fst snd].

(** ** The web search client *)

Lemma searchWebWithTavily_disabled (cfg : Groq.config) (query : value) :
  truthy (envValue (Groq.TAVILY_API_KEY cfg)) = false ->
  Groq.searchWebWithTavily cfg query = Ret "".
Proof. intros H. unfold Groq.searchWebWithTavily. now rewrite H. Qed.

(** With a credential the search is one call to Tavily between console
    lines, and it ends with a string whatever the call brings. *)
Lemma searchWebWithTavily_run (cfg : Groq.config) (query : value) (w : world) :
  truthy (envValue (Groq.TAVILY_API_KEY cfg)) = true ->
  let s := Groq.tavilyRequest cfg query in
  exists tail ctx,
    run w (Groq.searchWebWithTavily cfg query)
    = (Logged ConsoleLog "🌐 Tavily search for:" (LValue query)
         :: CallBegin s :: CallEnd s (w s) :: tail, Ok ctx)
    /\ calls tail = []
    /\ (w s = Rejected -> ctx = "")
    /\ (forall r, w s = Responded r -> ok r = false -> ctx = "")
    /\ (forall r, w s = Responded r -> ok r = true -> json r = None -> ctx = "")
    /\ (forall r data, w s = Responded r -> ok r = true -> json r = Some data ->
        ctx = match Groq.formatContext data with
              | Ok c => c
              | Raise _ => ""
              end).
Proof.
  intros H s. unfold Groq.searchWebWithTavily. rewrite H. fold s.
  cbn [negb consoleLog consoleError bind tryCatch fetch run].
  destruct (w s) as [|[isOk txt js]] eqn:E; [|destruct isOk; [destruct js as [data|]|destruct txt as [t|]]];
    program_step;
    try (destruct (Groq.formatContext data) as [c|e] eqn:F; program_step);
    (do 2 eexists; split; [reflexivity|]);
    repeat split; intros; try reflexivity; try congruence;
    match goal with
    | Hr : Responded _ = Responded _ |- _ => injection Hr as <-
    end; cbn in *; try congruence;
    match goal with
    | Hd : Some _ = Some _ |- _ => injection Hd as <-
    end; now rewrite F.
Qed.

Lemma searchWebWithTavily_returns (cfg : Groq.config) (query : value) (w : world) :
  exists events ctx,
    run w (Groq.searchWebWithTavily cfg query) = (events, Ok ctx)
    /\ (truthy (envValue (Groq.TAVILY_API_KEY cfg)) = false -> events = [] /\ ctx = "")
    /\ (truthy (envValue (Groq.TAVILY_API_KEY cfg)) = true ->
        calls events = [ CallBegin (Groq.tavilyRequest cfg query);
                         CallEnd (Groq.tavilyRequest cfg query)
                                 (w (Groq.tavilyRequest cfg query)) ]).
Proof.
  destruct (truthy (envValue (Groq.TAVILY_API_KEY cfg))) eqn:K.
  - destruct (searchWebWithTavily_run cfg query w K) as (tail & ctx & E & T & _).
    do 2 eexists. split; [exact E|]. split; [discriminate|]. intros _.
    cbn [calls filter isCall]. f_equal. f_equal. exact T.
  - rewrite searchWebWithTavily_disabled by assumption.
    exists [], "". repeat split. discriminate.
Qed.

Lemma mapResult_renderResult (hits : list searchHit) :
  Groq.mapResult Groq.renderResult (map hitValue hits) = Ok (map specBullet hits).
Proof.
  induction hits as [|h hits IH]; [reflexivity|].
  cbn [map Groq.mapResult]. rewrite IH. reflexivity.
Qed.

Lemma formatContext_tavilyData (answer : option string)
    (results : option (list searchHit)) :
  Groq.formatContext (tavilyData answer results) = Ok (specContext answer results).
Proof.
  unfold specContext, specLead.
  assert (R : forall hits,
             (match (VArr (map hitValue hits)) with
              | VArr items =>
                  rbind (Groq.mapResult Groq.renderResult (firstn 3 items))
                        (fun bullets => Ok (join (nl ++ nl) bullets))
              | _ => Raise TypeError
              end)
             = Ok (join (nl ++ nl) (map specBullet (firstn 3 hits)))).
  { intros hits. rewrite firstn_map, mapResult_renderResult. reflexivity. }
  destruct answer as [a|], results as [hits|];
    unfold Groq.formatContext, tavilyData;
    cbn -[firstn join Groq.mapResult nl String.append];
    try rewrite R; try destruct (String.eqb a ""); reflexivity.
Qed.

(** C4.  For a response of the documented shape the context is the
    specification's: an answer line when there is a non-empty answer, then
    the first three results at most, each as a bullet, with blank lines between
    them.  That is what [searchWebWithTavily] returns when the provider
    answers with success, further results change nothing, and for the answer
    ["A"] with the results [T1] and [T2] it is the text of the
    specification, character for character. *)
Theorem search_context_as_specified :
  (forall answer results,
      Groq.formatContext (tavilyData answer results) = Ok (specContext answer results))
  /\ (forall cfg query w r answer results,
      truthy (envValue (Groq.TAVILY_API_KEY cfg)) = true ->
      w (Groq.tavilyRequest cfg query) = Responded r ->
      ok r = true ->
      json r = Some (tavilyData answer results) ->
      snd (run w (Groq.searchWebWithTavily cfg query)) = Ok (specContext answer results))
  /\ (forall answer hits,
      specContext answer (Some hits) = specContext answer (Some (firstn 3 hits)))
  /\ specContext (Some "A") (Some twoHits)
     = "Answer: A

• T1 — U1
C1

• T2 — U2
C2".
Proof.
  split; [exact formatContext_tavilyData|]. split; [|split].
  - intros cfg query w r answer results K W O J.
    destruct (searchWebWithTavily_run cfg query w K)
      as (tail & ctx & E & _ & _ & _ & _ & F).
    rewrite E. cbn [snd]. f_equal.
    rewrite (F r _ W O J), formatContext_tavilyData. reflexivity.
  - intros answer hits. unfold specContext.
    rewrite firstn_firstn. reflexivity.
  - reflexivity.
Qed.

Lemma search_context_as_specified_witness :
  snd (run (always (jsonResponse (tavilyData (Some "A") (Some twoHits))))
           (Groq.searchWebWithTavily bothKeys (VStr "weather today")))
  = Ok "Answer: A

• T1 — U1
C1

• T2 — U2
C2".
Proof.
  destruct search_context_as_specified as (_ & H & _ & L).
  rewrite <- L.
  apply H with (r := jsonResponse (tavilyData (Some "A") (Some twoHits))); reflexivity.
Defined.

(** C5.  [searchWebWithTavily] always ends with a string, never with an
    exception.  Without a credential it returns the empty string at once and
    nothing happens: no call, no console line.  It returns the empty string
    when the provider answers without success, when the call itself fails, and
    when the body of a successful answer cannot be read as JSON. *)
Theorem search_never_raises (cfg : Groq.config) (query : value) (w : world) :
  (exists ctx, snd (run w (Groq.searchWebWithTavily cfg query)) = Ok ctx)
  /\ (truthy (envValue (Groq.TAVILY_API_KEY cfg)) = false ->
      run w (Groq.searchWebWithTavily cfg query) = ([], Ok ""))
  /\ (forall r, w (Groq.tavilyRequest cfg query) = Responded r -> ok r = false ->
      snd (run w (Groq.searchWebWithTavily cfg query)) = Ok "")
  /\ (w (Groq.tavilyRequest cfg query) = Rejected ->
      snd (run w (Groq.searchWebWithTavily cfg query)) = Ok "")
  /\ (forall r, w (Groq.tavilyRequest cfg query) = Responded r -> ok r = true ->
      json r = None ->
      snd (run w (Groq.searchWebWithTavily cfg query)) = Ok "").
Proof.
  destruct (truthy (envValue (Groq.TAVILY_API_KEY cfg))) eqn:K.
  - destruct (searchWebWithTavily_run cfg query w K)
      as (tail & ctx & E & _ & Hrej & Hbad & Hjson & _).
    rewrite E. cbn [snd]. split; [now exists ctx|].
    split; [discriminate|]. repeat split.
    + intros r W O. now rewrite (Hbad r W O).
    + intros W. now rewrite (Hrej W).
    + intros r W O J. now rewrite (Hjson r W O J).
  - rewrite searchWebWithTavily_disabled by assumption. cbn.
    split; [now exists ""|]. repeat split.
Qed.

Lemma search_never_raises_witness :
  run offline (Groq.searchWebWithTavily noTavilyKey (VStr "latest news")) = ([], Ok "")
  /\ snd (run (always (errorResponse "quota exceeded"))
              (Groq.searchWebWithTavily bothKeys (VStr "latest news"))) = Ok ""
  /\ snd (run offline (Groq.searchWebWithTavily bothKeys (VStr "latest news"))) = Ok "".
Proof.
  split; [|split].
  - destruct (search_never_raises noTavilyKey (VStr "latest news") offline)
      as (_ & H & _).
    apply H. reflexivity.
  - destruct (search_never_raises bothKeys (VStr "latest news")
                (always (errorResponse "quota exceeded")))
      as (_ & _ & H & _).
    apply H with (r := errorResponse "quota exceeded"); reflexivity.
  - destruct (search_never_raises bothKeys (VStr "latest news") offline)
      as (_ & _ & _ & H & _).
    apply H. reflexivity.
Defined.

(** ** The chat endpoint, path by path *)

Lemma In_calls (e : event) (t : list event) :
  In e t -> isCall e = true -> In e (calls t).
Proof. intros H C. apply filter_In. now split. Qed.

(** The second half of the handler: one call to the completion provider,
    then console lines at most, and always a response. *)
Lemma groqRelay_run (cfg : Groq.config) (model system message : value)
    (webInfo : string) (w : world) :
  let c := Groq.groqRequest cfg model (Groq.buildMessages system message webInfo) in
  exists tail res,
    run w (tryCatch (groqRelay cfg model system message webInfo) groqOnError)
    = (CallBegin c :: CallEnd c (w c) :: tail, Ok res)
    /\ calls tail = []
    /\ (forall r errorText,
          w c = Responded r -> ok r = false -> text r = Some errorText ->
          res = {| status := 500;
                   body := VObj [ ("error", VStr "Groq API error");
                                  ("details", VStr errorText) ] |})
    /\ (forall r data,
          w c = Responded r -> ok r = true -> json r = Some data ->
          nullish data = false ->
          res = {| status := 200;
                   body := VObj [("reply",
                             if truthy (getOpt (getOpt (getOpt (get data "choices") "0")
                                                       "message") "content")
                             then getOpt (getOpt (getOpt (get data "choices") "0")
                                                 "message") "content"
                             else VStr "No reply from model.")] |}).
Proof.
  intros c. unfold groqRelay, groqOnError. cbv zeta. fold c.
  program_step.
  destruct (w c) as [|[isOk txt js]] eqn:E;
    [|destruct isOk; [destruct js as [data|]; [destruct (nullish data) eqn:N|]
                     |destruct txt as [t|]]];
    program_step; unfold getProp; try rewrite N; program_step;
    (do 2 eexists; split; [reflexivity|]);
    repeat split; intros; try reflexivity; try congruence;
    match goal with
    | Hr : Responded _ = Responded _ |- _ => injection Hr as <-
    end; cbn in *; try congruence.
  match goal with
  | Hd : Some _ = Some _ |- _ => injection Hd as <-
  end. reflexivity.
Qed.

Section Handler.
Context {tables : CaseTables}.

Lemma chatHandler_halves (cfg : Groq.config) (reqBody : value) :
  Groq.chatHandler cfg reqBody
  = tryCatch
      (model <- lift (getProp reqBody "model") ;;
       system <- lift (getProp reqBody "system") ;;
       message <- lift (getProp reqBody "message") ;;
       if negb (truthy (envValue (Groq.GROQ_API_KEY cfg))) then
         Ret {| status := 500;
                body := VObj [("error", VStr "GROQ_API_KEY not set on server.")] |}
       else if negb (truthy model) || negb (truthy message) then
         Ret {| status := 400;
                body := VObj [("error", VStr "model and message are required.")] |}
       else
         useWeb <- lift (Groq.shouldUseWeb message) ;;
         webInfo <- (if useWeb then Groq.searchWebWithTavily cfg message else Ret "") ;;
         groqRelay cfg model system message webInfo)%prog
      groqOnError.
Proof. reflexivity. Qed.

Lemma chatHandler_absent_body (cfg : Groq.config) (reqBody : value) (w : world) :
  nullish reqBody = true ->
  run w (Groq.chatHandler cfg reqBody)
  = ([Logged ConsoleError "❌ Server error talking to LLM:" (LError TypeError)],
     Ok serverError).
Proof.
  intros N. unfold Groq.chatHandler, getProp. rewrite N. reflexivity.
Qed.

Lemma chatHandler_no_key (cfg : Groq.config) (reqBody : value) (w : world) :
  nullish reqBody = false ->
  truthy (envValue (Groq.GROQ_API_KEY cfg)) = false ->
  run w (Groq.chatHandler cfg reqBody)
  = ([], Ok missingCredential).
Proof.
  intros N K. unfold Groq.chatHandler, getProp. rewrite N.
  cbn [lift bind]. rewrite K. reflexivity.
Qed.

Lemma chatHandler_invalid (cfg : Groq.config) (reqBody : value) (w : world) :
  nullish reqBody = false ->
  truthy (envValue (Groq.GROQ_API_KEY cfg)) = true ->
  truthy (get reqBody "model") = false \/ truthy (get reqBody "message") = false ->
  run w (Groq.chatHandler cfg reqBody)
  = ([], Ok invalidRequest).
Proof.
  intros N K V. unfold Groq.chatHandler, getProp. rewrite N.
  cbn [lift bind]. rewrite K. cbn [negb].
  replace (negb (truthy (get reqBody "model")) || negb (truthy (get reqBody "message")))
    with true; [reflexivity|].
  destruct V as [-> | ->]; [reflexivity | now rewrite orb_true_r].
Qed.

Lemma chatHandler_decider_throws (cfg : Groq.config) (reqBody : value) (w : world)
    (e : exn) :
  nullish reqBody = false ->
  truthy (envValue (Groq.GROQ_API_KEY cfg)) = true ->
  truthy (get reqBody "model") = true ->
  truthy (get reqBody "message") = true ->
  Groq.shouldUseWeb (get reqBody "message") = Raise e ->
  run w (Groq.chatHandler cfg reqBody)
  = ([Logged ConsoleError "❌ Server error talking to LLM:" (LError e)],
     Ok serverError).
Proof.
  intros N K M U S. unfold Groq.chatHandler, getProp. rewrite N.
  cbn [lift bind]. rewrite K, M, U, S. reflexivity.
Qed.

(** The served path: what the search left in the trace, then the
    completion call. *)
Lemma chatHandler_served (cfg : Groq.config) (reqBody : value) (w : world)
    (useWeb : bool) (events : list event) (webInfo : string) :
  nullish reqBody = false ->
  truthy (envValue (Groq.GROQ_API_KEY cfg)) = true ->
  truthy (get reqBody "model") = true ->
  truthy (get reqBody "message") = true ->
  Groq.shouldUseWeb (get reqBody "message") = Ok useWeb ->
  run w (if useWeb then Groq.searchWebWithTavily cfg (get reqBody "message") else Ret "")
  = (events, Ok webInfo) ->
  let relayed := run w (tryCatch (groqRelay cfg (get reqBody "model")
                                    (get reqBody "system") (get reqBody "message")
                                    webInfo) groqOnError) in
  run w (Groq.chatHandler cfg reqBody) = ((events ++ fst relayed)%list, snd relayed).
Proof.
  intros N K M U S R relayed. rewrite chatHandler_halves. unfold getProp.
  rewrite N. cbn [lift bind]. rewrite K, M, U, S. cbn [negb orb lift bind].
  rewrite run_tryCatch, run_bind, R. cbn [andThen].
  subst relayed. rewrite run_tryCatch.
  destruct (run w (groqRelay cfg (get reqBody "model") (get reqBody "system")
                     (get reqBody "message") webInfo)) as [t [a|x]];
    cbn [orElse fst snd]; [reflexivity|].
  destruct (run w (groqOnError x)) as [t' r'].
  cbn [fst snd]. now rewrite app_assoc.
Qed.

End Handler.

(** ** The trace of the chat endpoint *)

Lemma search_step_run (cfg : Groq.config) (query : value) (w : world) (useWeb : bool) :
  exists events webInfo,
    run w (if useWeb then Groq.searchWebWithTavily cfg query else Ret "")
    = (events, Ok webInfo)
    /\ (useWeb = false -> events = [] /\ webInfo = "")
    /\ (calls events = []
        \/ useWeb = true
           /\ truthy (envValue (Groq.TAVILY_API_KEY cfg)) = true
           /\ calls events = [ CallBegin (Groq.tavilyRequest cfg query);
                               CallEnd (Groq.tavilyRequest cfg query)
                                       (w (Groq.tavilyRequest cfg query)) ]).
Proof.
  destruct useWeb.
  - destruct (searchWebWithTavily_returns cfg query w) as (events & ctx & E & Hoff & Hon).
    exists events, ctx. split; [exact E|]. split; [discriminate|].
    destruct (truthy (envValue (Groq.TAVILY_API_KEY cfg))).
    + right. auto.
    + left. destruct Hoff as [-> _]; reflexivity.
  - exists [], "". cbn. auto.
Qed.

Section Trace.
Context {tables : CaseTables}.

(** Either the handler makes no outbound call at all, or it is on the served
    path: the search step, then one completion call whose outcome decides the
    response. *)
Lemma chatHandler_trace (cfg : Groq.config) (reqBody : value) (w : world) :
  let model := get reqBody "model" in
  let system := get reqBody "system" in
  let message := get reqBody "message" in
  calls (fst (run w (Groq.chatHandler cfg reqBody))) = []
  \/ exists useWeb events webInfo tail,
       nullish reqBody = false
       /\ truthy (envValue (Groq.GROQ_API_KEY cfg)) = true
       /\ truthy model = true
       /\ truthy message = true
       /\ Groq.shouldUseWeb message = Ok useWeb
       /\ run w (if useWeb then Groq.searchWebWithTavily cfg message else Ret "")
          = (events, Ok webInfo)
       /\ (let c := Groq.groqRequest cfg model (Groq.buildMessages system message webInfo) in
           fst (run w (Groq.chatHandler cfg reqBody))
           = (events ++ CallBegin c :: CallEnd c (w c) :: tail)%list
           /\ calls tail = []
           /\ run w (tryCatch (groqRelay cfg model system message webInfo) groqOnError)
              = (CallBegin c :: CallEnd c (w c) :: tail,
                 snd (run w (Groq.chatHandler cfg reqBody)))).
Proof.
  intros model system message.
  destruct (nullish reqBody) eqn:N.
  { left. now rewrite chatHandler_absent_body. }
  destruct (truthy (envValue (Groq.GROQ_API_KEY cfg))) eqn:K.
  2:{ left. now rewrite chatHandler_no_key. }
  destruct (truthy model) eqn:M.
  2:{ left. rewrite chatHandler_invalid; auto. }
  destruct (truthy message) eqn:U.
  2:{ left. rewrite chatHandler_invalid; auto. }
  destruct (Groq.shouldUseWeb message) as [useWeb|e] eqn:S.
  2:{ left. now rewrite (chatHandler_decider_throws cfg reqBody w e N K M U S). }
  right.
  destruct (search_step_run cfg message w useWeb) as (events & webInfo & R & _).
  destruct (groqRelay_run cfg model system message webInfo w)
    as (tail & res & E & T & _).
  exists useWeb, events, webInfo, tail.
  rewrite (chatHandler_served cfg reqBody w useWeb events webInfo N K M U S R).
  fold model system message. rewrite E. cbn [fst snd].
  repeat split; auto.
Qed.

End Trace.

(** ** Requests without and with a trigger *)

Lemma get_string_not_nullish (v : value) (key s : string) :
  get v key = VStr s -> nullish v = false.
Proof. destruct v; cbn; intros H; congruence. Qed.

Lemma truthy_VStr (s : string) : s <> "" -> truthy (VStr s) = true.
Proof. intros H. cbn. now apply negb_true_iff, String.eqb_neq. Qed.


Lemma buildMessages_plain (system message : value) :
  Groq.buildMessages system message ""
  = [ chatMessage "system" (if truthy system then system else VStr Groq.defaultSystem);
      chatMessage "user" message ].
Proof. reflexivity. Qed.

Lemma buildMessages_web (system message : value) (webInfo : string) :
  webInfo <> "" ->
  Groq.buildMessages system message webInfo
  = [ chatMessage "system" (if truthy system then system else VStr Groq.defaultSystem);
      chatMessage "system" (VStr (Groq.webBanner ++ webInfo));
      chatMessage "user" message ].
Proof.
  intros H. unfold Groq.buildMessages. now rewrite (truthy_VStr _ H).
Qed.

(** The requests and the message list, written out field by field. *)
Lemma credential_truthy (v : option string) (key : string) :
  v = Some key -> key <> "" -> truthy (envValue v) = true.
Proof. intros -> H. now apply truthy_VStr. Qed.

Lemma credential_set (v : option string) :
  truthy (envValue v) = true -> exists key, v = Some key /\ key <> "".
Proof.
  destruct v as [key|]; [|discriminate]. intros H. exists key. split; [reflexivity|].
  intros ->. discriminate.
Qed.

Lemma groqRequest_written (cfg : Groq.config) (key : string) (model : value)
    (messages : list value) :
  Groq.GROQ_API_KEY cfg = Some key ->
  Groq.groqRequest cfg model messages
  = {| url := "https://api.groq.com/openai/v1/chat/completions";
       method := "POST";
       headers := [ ("Content-Type", "application/json");
                    ("Authorization", "Bearer " ++ key) ];
       payload := VObj [("model", model); ("messages", VArr messages)] |}.
Proof. intros E. unfold Groq.groqRequest. now rewrite E. Qed.

Lemma tavilyRequest_written (cfg : Groq.config) (key : string) (query : value) :
  Groq.TAVILY_API_KEY cfg = Some key ->
  Groq.tavilyRequest cfg query
  = {| url := "https://api.tavily.com/search";
       method := "POST";
       headers := [("Content-Type", "application/json")];
       payload := VObj [ ("api_key", VStr key);
                         ("query", query);
                         ("search_depth", VStr "basic");
                         ("max_results", VNum true "5");
                         ("include_answer", VBool true) ] |}.
Proof. intros E. unfold Groq.tavilyRequest. now rewrite E. Qed.

Lemma buildMessages_written (system message : value) (webInfo : string) :
  Groq.buildMessages system message webInfo
  = (VObj [ ("role", VStr "system");
            ("content",
             if truthy system then system
             else VStr "You are DINX, a precise, helpful design assistant. Use web context if provided, and say when information may be out of date.") ]
     :: (if truthy (VStr webInfo)
         then [VObj [ ("role", VStr "system");
                      ("content", VStr ("Here is information from a live web search. Use it carefully in your answer:

" ++ webInfo)) ]]
         else [])
     ++ [VObj [("role", VStr "user"); ("content", message)]])%list.
Proof. reflexivity. Qed.

(** The outbound traffic of a request without a trigger, in terms of the
    request constructors of the handler. *)
Lemma untriggered_request_trace {tables : CaseTables}
    (cfg : Groq.config) (reqBody : value) (w : world) (m : string) :
  truthy (get reqBody "model") = true ->
  get reqBody "message" = VStr m ->
  m <> "" ->
  (forall word, In word Groq.triggers -> ~ Occurs word (toLowerCase m)) ->
  let trace := fst (run w (Groq.chatHandler cfg reqBody)) in
  let systemContent :=
    if truthy (get reqBody "system") then get reqBody "system"
    else VStr Groq.defaultSystem in
  let c := Groq.groqRequest cfg (get reqBody "model")
             [chatMessage "system" systemContent; chatMessage "user" (VStr m)] in
  (forall rq, In (CallBegin rq) trace -> url rq <> searchEndpoint /\ rq = c)
  /\ (truthy (envValue (Groq.GROQ_API_KEY cfg)) = true ->
      calls trace = [CallBegin c; CallEnd c (w c)]).
Proof.
  intros M E Hm Hnone trace systemContent c.
  assert (N : nullish reqBody = false) by exact (get_string_not_nullish _ _ _ E).
  assert (U : truthy (get reqBody "message") = true)
    by (rewrite E; now apply truthy_VStr).
  assert (S : Groq.shouldUseWeb (get reqBody "message") = Ok false).
  { rewrite E. apply shouldUseWeb_false_iff. intros T.
    apply shouldUseWeb_true_iff in T as [_ (word & Hin & Hocc)].
    exact (Hnone word Hin Hocc). }
  destruct (truthy (envValue (Groq.GROQ_API_KEY cfg))) eqn:K.
  - assert (R : run w (if false then Groq.searchWebWithTavily cfg (get reqBody "message")
                       else Ret "") = ([], Ok "")) by reflexivity.
    pose proof (chatHandler_served cfg reqBody w false [] "" N K M U S R) as H.
    cbv zeta in H.
    destruct (groqRelay_run cfg (get reqBody "model") (get reqBody "system")
                (get reqBody "message") "" w) as (tail & res & Erun & T & _).
    cbv zeta in Erun. rewrite buildMessages_plain, E in Erun. fold systemContent c in Erun.
    rewrite E in H. rewrite Erun in H. cbn [fst snd app] in H.
    assert (C : calls trace = [CallBegin c; CallEnd c (w c)]).
    { subst trace. rewrite H. unfold calls in *. cbn [fst filter isCall]. now rewrite T. }
    split; [|intros _; exact C].
    intros rq Hin. apply In_calls in Hin; [|reflexivity].
    rewrite C in Hin. destruct Hin as [Hin|[Hin|[]]]; [|discriminate].
    injection Hin as <-. split; [discriminate | reflexivity].
  - subst trace. rewrite (chatHandler_no_key cfg reqBody w N K). cbn [fst].
    split; [intros rq [] | discriminate].
Qed.

(** C3.  A request with a truthy [model] and a non-empty message whose
    lower-cased text holds no trigger: every outbound call of the handler is
    a POST to the Groq completion endpoint carrying the model and exactly two
    messages, the first of role [system] (the caller's prompt when truthy,
    else the default one) and the second of role [user] with the message, so
    none goes to the search provider; and with the LLM credential set that
    request is the one and only call. *)
Theorem untriggered_request_skips_search {tables : CaseTables}
    (cfg : Groq.config) (reqBody : value) (w : world) (m : string) :
  truthy (get reqBody "model") = true ->
  get reqBody "message" = VStr m ->
  m <> "" ->
  (forall word, In word Groq.triggers -> ~ Occurs word (toLowerCase m)) ->
  let trace := fst (run w (Groq.chatHandler cfg reqBody)) in
  let completion := fun key : string =>
    {| url := "https://api.groq.com/openai/v1/chat/completions";
       method := "POST";
       headers := [ ("Content-Type", "application/json");
                    ("Authorization", "Bearer " ++ key) ];
       payload :=
         VObj [ ("model", get reqBody "model");
                ("messages",
                 VArr [ VObj [ ("role", VStr "system");
                               ("content",
                                if truthy (get reqBody "system") then get reqBody "system"
                                else VStr "You are DINX, a precise, helpful design assistant. Use web context if provided, and say when information may be out of date.") ];
                        VObj [ ("role", VStr "user"); ("content", VStr m) ] ]) ] |} in
  (forall rq, In (CallBegin rq) trace ->
     url rq <> "https://api.tavily.com/search"
     /\ exists key, Groq.GROQ_API_KEY cfg = Some key /\ rq = completion key)
  /\ (forall key, Groq.GROQ_API_KEY cfg = Some key -> key <> "" ->
      calls trace = [ CallBegin (completion key);
                      CallEnd (completion key) (w (completion key)) ]).
Proof.
  intros M E Hm Hnone trace completion.
  destruct (untriggered_request_trace cfg reqBody w m M E Hm Hnone) as [Hall Honly].
  assert (W : forall key, Groq.GROQ_API_KEY cfg = Some key ->
              Groq.groqRequest cfg (get reqBody "model")
                [ chatMessage "system"
                    (if truthy (get reqBody "system") then get reqBody "system"
                     else VStr Groq.defaultSystem);
                  chatMessage "user" (VStr m) ]
              = completion key).
  { intros key Ek. now rewrite (groqRequest_written cfg key _ _ Ek). }
  split.
  - intros rq Hin. destruct (Hall rq Hin) as [Hurl ->]. split.
    + cbn [Groq.groqRequest url]. discriminate.
    + destruct (Groq.GROQ_API_KEY cfg) as [key|] eqn:Ek.
      * exists key. split; [reflexivity|]. now apply W.
      * exfalso.
        assert (K : truthy (envValue (Groq.GROQ_API_KEY cfg)) = false)
          by now rewrite Ek.
        unfold trace in Hin.
        rewrite (chatHandler_no_key cfg reqBody w (get_string_not_nullish _ _ _ E) K) in Hin.
        destruct Hin.
  - intros key Ek Hk. rewrite <- (W key Ek).
    apply Honly. exact (credential_truthy _ _ Ek Hk).
Qed.

Lemma untriggered_request_skips_search_witness :
  calls (fst (run offline (Groq.chatHandler (tables := plainTables) bothKeys logoRequest)))
  = [ CallBegin
        {| url := "https://api.groq.com/openai/v1/chat/completions";
           method := "POST";
           headers := [ ("Content-Type", "application/json");
                        ("Authorization", "Bearer gsk-test") ];
           payload :=
             VObj [ ("model", VStr "llama-3.1-8b-instant");
                    ("messages",
                     VArr [ VObj [ ("role", VStr "system");
                                   ("content", VStr "You are DINX, a precise, helpful design assistant. Use web context if provided, and say when information may be out of date.") ];
                            VObj [ ("role", VStr "user");
                                   ("content", VStr "Sketch a logo") ] ]) ] |};
      CallEnd
        {| url := "https://api.groq.com/openai/v1/chat/completions";
           method := "POST";
           headers := [ ("Content-Type", "application/json");
                        ("Authorization", "Bearer gsk-test") ];
           payload :=
             VObj [ ("model", VStr "llama-3.1-8b-instant");
                    ("messages",
                     VArr [ VObj [ ("role", VStr "system");
                                   ("content", VStr "You are DINX, a precise, helpful design assistant. Use web context if provided, and say when information may be out of date.") ];
                            VObj [ ("role", VStr "user");
                                   ("content", VStr "Sketch a logo") ] ]) ] |}
        Rejected ].
Proof.
  destruct (untriggered_request_skips_search (tables := plainTables)
              bothKeys logoRequest offline "Sketch a logo") as [_ H].
  - reflexivity.
  - reflexivity.
  - discriminate.
  - no_trigger_occurs.
  - apply (H "gsk-test"); [reflexivity | discriminate].
Defined.

(** The outbound traffic of a request whose message contains
    ["weather today"], in terms of the request constructors of the
    handler. *)
Lemma weather_today_trace {tables : CaseTables}
    (cfg : Groq.config) (reqBody : value) (w : world) (m : string) :
  truthy (envValue (Groq.GROQ_API_KEY cfg)) = true ->
  truthy (envValue (Groq.TAVILY_API_KEY cfg)) = true ->
  truthy (get reqBody "model") = true ->
  get reqBody "message" = VStr m ->
  Occurs "weather today" m ->
  let trace := fst (run w (Groq.chatHandler cfg reqBody)) in
  let systemContent :=
    if truthy (get reqBody "system") then get reqBody "system"
    else VStr Groq.defaultSystem in
  exists webInfo,
    snd (run w (Groq.searchWebWithTavily cfg (VStr m))) = Ok webInfo
    /\ (let s := Groq.tavilyRequest cfg (VStr m) in
        let c := Groq.groqRequest cfg (get reqBody "model")
                   (Groq.buildMessages (get reqBody "system") (VStr m) webInfo) in
        calls trace = [CallBegin s; CallEnd s (w s); CallBegin c; CallEnd c (w c)])
    /\ (webInfo <> "" ->
        Groq.buildMessages (get reqBody "system") (VStr m) webInfo
        = [ chatMessage "system" systemContent;
            chatMessage "system" (VStr (Groq.webBanner ++ webInfo));
            chatMessage "user" (VStr m) ]).
Proof.
  intros K T M E Hocc trace systemContent.
  assert (N : nullish reqBody = false) by exact (get_string_not_nullish _ _ _ E).
  assert (S : Groq.shouldUseWeb (get reqBody "message") = Ok true).
  { rewrite E. apply shouldUseWeb_true_iff.
    destruct Hocc as (pre & suf & ->). split.
    - destruct pre; discriminate.
    - exists "weather". split; [simpl; tauto|].
      apply OccursIgnoringCase_lowered; [simpl; tauto|].
      exists pre, "weather", (" today" ++ suf). split; [|reflexivity].
      now rewrite <- (append_assoc3 "weather" " today" suf). }
  assert (U : truthy (get reqBody "message") = true).
  { rewrite E. apply truthy_VStr. intros ->.
    destruct Hocc as (pre & suf & Hocc). destruct pre; discriminate. }
  destruct (searchWebWithTavily_run cfg (VStr m) w T)
    as (tail1 & webInfo & R & T1 & _).
  cbv zeta in R.
  exists webInfo. rewrite R. split; [reflexivity|].
  split; [|apply buildMessages_web].
  assert (R' : run w (if true then Groq.searchWebWithTavily cfg (get reqBody "message")
                      else Ret "")
               = (Logged ConsoleLog "🌐 Tavily search for:" (LValue (VStr m))
                    :: CallBegin (Groq.tavilyRequest cfg (VStr m))
                    :: CallEnd (Groq.tavilyRequest cfg (VStr m))
                               (w (Groq.tavilyRequest cfg (VStr m)))
                    :: tail1, Ok webInfo)) by (rewrite E; exact R).
  pose proof (chatHandler_served cfg reqBody w true _ webInfo N K M U S R') as H.
  cbv zeta in H.
  destruct (groqRelay_run cfg (get reqBody "model") (get reqBody "system")
              (get reqBody "message") webInfo w) as (tail2 & res & Erun & T2 & _).
  cbv zeta in Erun. rewrite Erun in H. rewrite E in H.
  subst trace. rewrite H. unfold calls in *.
  cbn [fst app filter isCall]. rewrite filter_app, T1.
  cbn [fst app filter isCall]. now rewrite T2.
Qed.

(** C2, as the code has it.  With both credentials set and a truthy
    [model], a request whose message contains ["weather today"] makes exactly
    two outbound calls.  The first is a POST to the Tavily search endpoint
    with the message as its query; it begins and ends, and only then the
    second begins, a POST to the Groq completion endpoint with the model and
    a message list.  When the context the search returned is not empty that
    list has three entries in order: one of role [system] with the system
    prompt, one of role [system] with the banner followed by the search
    context, and one of role [user] with the message; when it is empty the
    list has the first and the last only. *)
Theorem weather_today_searches_first {tables : CaseTables}
    (cfg : Groq.config) (reqBody : value) (w : world)
    (m groqKey tavilyKey : string) :
  Groq.GROQ_API_KEY cfg = Some groqKey ->
  groqKey <> "" ->
  Groq.TAVILY_API_KEY cfg = Some tavilyKey ->
  tavilyKey <> "" ->
  truthy (get reqBody "model") = true ->
  get reqBody "message" = VStr m ->
  Occurs "weather today" m ->
  let search :=
    {| url := "https://api.tavily.com/search";
       method := "POST";
       headers := [("Content-Type", "application/json")];
       payload := VObj [ ("api_key", VStr tavilyKey);
                         ("query", VStr m);
                         ("search_depth", VStr "basic");
                         ("max_results", VNum true "5");
                         ("include_answer", VBool true) ] |} in
  let completion := fun messages : list value =>
    {| url := "https://api.groq.com/openai/v1/chat/completions";
       method := "POST";
       headers := [ ("Content-Type", "application/json");
                    ("Authorization", "Bearer " ++ groqKey) ];
       payload := VObj [ ("model", get reqBody "model");
                         ("messages", VArr messages) ] |} in
  let systemEntry :=
    VObj [ ("role", VStr "system");
           ("content",
            if truthy (get reqBody "system") then get reqBody "system"
            else VStr "You are DINX, a precise, helpful design assistant. Use web context if provided, and say when information may be out of date.") ] in
  let userEntry := VObj [ ("role", VStr "user"); ("content", VStr m) ] in
  exists webInfo messages,
    snd (run w (Groq.searchWebWithTavily cfg (VStr m))) = Ok webInfo
    /\ calls (fst (run w (Groq.chatHandler cfg reqBody)))
       = [ CallBegin search; CallEnd search (w search);
           CallBegin (completion messages);
           CallEnd (completion messages) (w (completion messages)) ]
    /\ (webInfo <> "" ->
        messages
        = [ systemEntry;
            VObj [ ("role", VStr "system");
                   ("content", VStr ("Here is information from a live web search. Use it carefully in your answer:

" ++ webInfo)) ];
            userEntry ])
    /\ (webInfo = "" -> messages = [systemEntry; userEntry]).
Proof.
  intros Kg Hg Kt Ht M E Hocc search completion systemEntry userEntry.
  destruct (weather_today_trace cfg reqBody w m
              (credential_truthy _ _ Kg Hg) (credential_truthy _ _ Kt Ht) M E Hocc)
    as (webInfo & Hs & Hc & _).
  exists webInfo, (Groq.buildMessages (get reqBody "system") (VStr m) webInfo).
  split; [exact Hs|]. split; [|split].
  - cbv zeta in Hc. rewrite Hc.
    rewrite (tavilyRequest_written cfg tavilyKey _ Kt).
    rewrite (groqRequest_written cfg groqKey _ _ Kg). reflexivity.
  - intros Hne. rewrite buildMessages_written, (truthy_VStr _ Hne). reflexivity.
  - intros ->. reflexivity.
Qed.

Lemma weather_today_searches_first_witness :
  calls (fst (run sunnyWorld
                (Groq.chatHandler (tables := plainTables) bothKeys weatherRequest)))
  = [ CallBegin
        {| url := "https://api.tavily.com/search";
           method := "POST";
           headers := [("Content-Type", "application/json")];
           payload := VObj [ ("api_key", VStr "tvly-test");
                             ("query", VStr "What is the weather today?");
                             ("search_depth", VStr "basic");
                             ("max_results", VNum true "5");
                             ("include_answer", VBool true) ] |};
      CallEnd
        {| url := "https://api.tavily.com/search";
           method := "POST";
           headers := [("Content-Type", "application/json")];
           payload := VObj [ ("api_key", VStr "tvly-test");
                             ("query", VStr "What is the weather today?");
                             ("search_depth", VStr "basic");
                             ("max_results", VNum true "5");
                             ("include_answer", VBool true) ] |}
        (Responded (jsonResponse (tavilyData (Some "A") (Some twoHits))));
      CallBegin
        {| url := "https://api.groq.com/openai/v1/chat/completions";
           method := "POST";
           headers := [ ("Content-Type", "application/json");
                        ("Authorization", "Bearer gsk-test") ];
           payload :=
             VObj [ ("model", VStr "llama-3.1-8b-instant");
                    ("messages",
                     VArr [ VObj [ ("role", VStr "system");
                                   ("content", VStr "You are DINX, a precise, helpful design assistant. Use web context if provided, and say when information may be out of date.") ];
                            VObj [ ("role", VStr "system");
                                   ("content",
                                    VStr ("Here is information from a live web search. Use it carefully in your answer:

" ++ specContext (Some "A") (Some twoHits))) ];
                            VObj [ ("role", VStr "user");
                                   ("content", VStr "What is the weather today?") ] ]) ] |};
      CallEnd
        {| url := "https://api.groq.com/openai/v1/chat/completions";
           method := "POST";
           headers := [ ("Content-Type", "application/json");
                        ("Authorization", "Bearer gsk-test") ];
           payload :=
             VObj [ ("model", VStr "llama-3.1-8b-instant");
                    ("messages",
                     VArr [ VObj [ ("role", VStr "system");
                                   ("content", VStr "You are DINX, a precise, helpful design assistant. Use web context if provided, and say when information may be out of date.") ];
                            VObj [ ("role", VStr "system");
                                   ("content",
                                    VStr ("Here is information from a live web search. Use it carefully in your answer:

" ++ specContext (Some "A") (Some twoHits))) ];
                            VObj [ ("role", VStr "user");
                                   ("content", VStr "What is the weather today?") ] ]) ] |}
        (Responded (jsonResponse (completionData "Bring an umbrella."))) ].
Proof.
  destruct (weather_today_searches_first (tables := plainTables) bothKeys weatherRequest
              sunnyWorld weatherQuestion "gsk-test" "tvly-test")
    as (webInfo & messages & Hs & Hc & Hm & _).
  - reflexivity.
  - discriminate.
  - reflexivity.
  - discriminate.
  - reflexivity.
  - reflexivity.
  - exists "What is the ", "?". reflexivity.
  - assert (Ew : webInfo = specContext (Some "A") (Some twoHits))
      by (vm_compute in Hs; injection Hs as <-; reflexivity).
    assert (Hne : webInfo <> "") by (rewrite Ew; discriminate).
    rewrite Hc, (Hm Hne), Ew. reflexivity.
Defined.

(** C2 as worded fails: with the search credential set and a message that
    contains ["weather today"], a request without [model] is turned down with
    status 400 before anything is sent, so the search provider is not
    invoked. *)
Lemma weather_today_without_model :
  truthy (envValue (Groq.TAVILY_API_KEY bothKeys)) = true
  /\ get modellessRequest "message" = VStr weatherQuestion
  /\ Occurs "weather today" weatherQuestion
  /\ run sunnyWorld (Groq.chatHandler (tables := plainTables) bothKeys modellessRequest)
     = ([], Ok {| status := 400;
                  body := VObj [("error", VStr "model and message are required.")] |})
  /\ ~ (exists rq,
          In (CallBegin rq)
             (fst (run sunnyWorld
                     (Groq.chatHandler (tables := plainTables) bothKeys modellessRequest)))
          /\ url rq = searchEndpoint).
Proof.
  assert (E : run sunnyWorld
                (Groq.chatHandler (tables := plainTables) bothKeys modellessRequest)
              = ([], Ok invalidRequest)) by reflexivity.
  split; [reflexivity|]. split; [reflexivity|].
  split; [now exists "What is the ", "?"|].
  split; [exact E|]. rewrite E. intros (rq & [] & _).
Qed.

(** ** Requests that are turned down *)

(** C7, as the code has it.  When [model] or [message] is missing or
    otherwise falsy the handler makes no outbound call, whatever the
    configuration; and when the request has a body and the LLM credential is
    set, the response is status 400 with the error
    ["model and message are required."]. *)
Theorem invalid_request_is_rejected {tables : CaseTables}
    (cfg : Groq.config) (reqBody : value) (w : world) :
  truthy (get reqBody "model") = false \/ truthy (get reqBody "message") = false ->
  calls (fst (run w (Groq.chatHandler cfg reqBody))) = []
  /\ (nullish reqBody = false ->
      truthy (envValue (Groq.GROQ_API_KEY cfg)) = true ->
      run w (Groq.chatHandler cfg reqBody)
      = ([], Ok {| status := 400;
                   body := VObj [("error", VStr "model and message are required.")] |})).
Proof.
  intros V. split.
  - destruct (chatHandler_trace cfg reqBody w) as [H|H]; [exact H|].
    destruct H as (useWeb & events & webInfo & tail & _ & _ & M & U & _).
    destruct V; congruence.
  - intros N K. now apply chatHandler_invalid.
Qed.

Lemma invalid_request_is_rejected_witness :
  run sunnyWorld (Groq.chatHandler (tables := plainTables) bothKeys messagelessRequest)
  = ([], Ok {| status := 400;
               body := VObj [("error", VStr "model and message are required.")] |}).
Proof.
  apply (invalid_request_is_rejected (tables := plainTables) bothKeys
           messagelessRequest sunnyWorld); [right|..]; reflexivity.
Defined.

(** C7 as worded fails: without the LLM credential a request that lacks
    [message] is answered with status 500, not 400. *)
Lemma missing_message_without_credential :
  truthy (get messagelessRequest "message") = false
  /\ run sunnyWorld (Groq.chatHandler (tables := plainTables) noGroqKey messagelessRequest)
     = ([], Ok {| status := 500;
                  body := VObj [("error", VStr "GROQ_API_KEY not set on server.")] |})
  /\ ~ (exists r,
          snd (run sunnyWorld
                 (Groq.chatHandler (tables := plainTables) noGroqKey messagelessRequest))
          = Ok r
          /\ status r = 400).
Proof.
  assert (E : run sunnyWorld
                (Groq.chatHandler (tables := plainTables) noGroqKey messagelessRequest)
              = ([], Ok missingCredential)) by reflexivity.
  split; [reflexivity|]. split; [exact E|].
  rewrite E. intros (r & H & S). injection H as <-. discriminate.
Qed.

(** ** What the completion provider answers *)

Lemma getOpt_get (v : value) (key : string) : getOpt v key = get v key.
Proof. now destruct v. Qed.

Section Completion.
Context {tables : CaseTables}.

(** An event of the completion endpoint belongs to the one call of the
    served path, whose outcome decides the response as [groqRelay] says. *)
Lemma completion_event_inv (cfg : Groq.config) (reqBody : value) (w : world)
    (e : event) (rq : request) :
  In e (fst (run w (Groq.chatHandler cfg reqBody))) ->
  requestOf e = Some rq ->
  url rq = completionEndpoint ->
  exists webInfo tail,
    let c := Groq.groqRequest cfg (get reqBody "model")
               (Groq.buildMessages (get reqBody "system") (get reqBody "message")
                  webInfo) in
    (e = CallBegin c \/ e = CallEnd c (w c))
    /\ run w (tryCatch (groqRelay cfg (get reqBody "model") (get reqBody "system")
                          (get reqBody "message") webInfo) groqOnError)
       = (CallBegin c :: CallEnd c (w c) :: tail,
          snd (run w (Groq.chatHandler cfg reqBody))).
Proof.
  intros Hin Hreq Hurl.
  assert (Hcall : isCall e = true) by (destruct e; [reflexivity..|discriminate]).
  destruct (chatHandler_trace cfg reqBody w) as [H|H].
  { apply In_calls in Hin; [|exact Hcall]. rewrite H in Hin. destruct Hin. }
  destruct H as (useWeb & events & webInfo & tail & _ & _ & _ & _ & _ & R & H).
  cbv zeta in H. destruct H as (Etrace & T & Erun).
  exists webInfo, tail. cbv zeta.
  rewrite Etrace in Hin. apply in_app_or in Hin as [Hin|Hin].
  - exfalso.
    destruct (search_step_run cfg (get reqBody "message") w useWeb)
      as (events' & webInfo' & R' & _ & C).
    rewrite R in R'. injection R' as <- <-.
    apply In_calls in Hin; [|exact Hcall].
    destruct C as [C|(_ & _ & C)]; rewrite C in Hin.
    + destruct Hin.
    + destruct Hin as [<-|[<-|[]]]; injection Hreq as <-; discriminate.
  - destruct Hin as [Hin|[Hin|Hin]]; auto.
    exfalso. apply In_calls in Hin; [|exact Hcall]. rewrite T in Hin. destruct Hin.
Qed.

End Completion.

(** C6.  Whenever a call to the completion endpoint has ended with a
    response that is not a success and whose body reads as [errorText], the
    endpoint answers with status 500 and a JSON body whose [details] is that
    text. *)
Theorem provider_error_is_surfaced {tables : CaseTables}
    (cfg : Groq.config) (reqBody : value) (w : world)
    (rq : request) (r : response) (errorText : string) :
  In (CallEnd rq (Responded r)) (fst (run w (Groq.chatHandler cfg reqBody))) ->
  url rq = completionEndpoint ->
  ok r = false ->
  text r = Some errorText ->
  snd (run w (Groq.chatHandler cfg reqBody))
  = Ok {| status := 500;
          body := VObj [ ("error", VStr "Groq API error");
                         ("details", VStr errorText) ] |}.
Proof.
  intros Hin Hurl Hok Htext.
  destruct (completion_event_inv cfg reqBody w _ rq Hin eq_refl Hurl)
    as (webInfo & tail & [Hev|Hev] & Erun); [discriminate|].
  injection Hev as -> W.
  destruct (groqRelay_run cfg (get reqBody "model") (get reqBody "system")
              (get reqBody "message") webInfo w) as (tail' & res & E & _ & Herr & _).
  cbv zeta in E, Herr. rewrite Erun in E. injection E as _ E.
  rewrite E. f_equal. now apply (Herr r errorText).
Qed.

Lemma provider_error_is_surfaced_witness :
  snd (run throttledWorld (Groq.chatHandler (tables := plainTables) bothKeys logoRequest))
  = Ok {| status := 500;
          body := VObj [ ("error", VStr "Groq API error");
                         ("details", VStr "rate limit exceeded") ] |}.
Proof.
  apply (provider_error_is_surfaced (tables := plainTables) bothKeys logoRequest
           throttledWorld logoCompletion (errorResponse "rate limit exceeded")).
  - vm_compute. right. left. reflexivity.
  - reflexivity.
  - reflexivity.
  - reflexivity.
Defined.

(** C8, as the code has it.  Whenever a call to the completion endpoint
    has ended with a success whose JSON body is not [null] and carries no
    choices, or no message content in the first choice, the endpoint answers
    with status 200 and the reply ["No reply from model."]. *)
Theorem missing_reply_gets_placeholder {tables : CaseTables}
    (cfg : Groq.config) (reqBody : value) (w : world)
    (rq : request) (r : response) (data : value) :
  In (CallEnd rq (Responded r)) (fst (run w (Groq.chatHandler cfg reqBody))) ->
  url rq = completionEndpoint ->
  ok r = true ->
  json r = Some data ->
  nullish data = false ->
  carriesNoReply data ->
  snd (run w (Groq.chatHandler cfg reqBody))
  = Ok {| status := 200; body := VObj [("reply", VStr "No reply from model.")] |}.
Proof.
  intros Hin Hurl Hok Hjson N Hnone.
  assert (F : truthy (firstChoiceContent data) = false).
  { unfold firstChoiceContent.
    destruct Hnone as [H|[H|H]]; [now rewrite H | now rewrite H | exact H]. }
  destruct (completion_event_inv cfg reqBody w _ rq Hin eq_refl Hurl)
    as (webInfo & tail & [Hev|Hev] & Erun); [discriminate|].
  injection Hev as -> W.
  destruct (groqRelay_run cfg (get reqBody "model") (get reqBody "system")
              (get reqBody "message") webInfo w) as (tail' & res & E & _ & _ & Hok200).
  cbv zeta in E, Hok200. rewrite Erun in E. injection E as _ E.
  rewrite E. f_equal. rewrite (Hok200 r data (eq_sym W) Hok Hjson N).
  rewrite !getOpt_get. fold (firstChoiceContent data). now rewrite F.
Qed.

Lemma missing_reply_gets_placeholder_witness :
  snd (run muteWorld (Groq.chatHandler (tables := plainTables) bothKeys logoRequest))
  = Ok {| status := 200; body := VObj [("reply", VStr "No reply from model.")] |}.
Proof.
  apply (missing_reply_gets_placeholder (tables := plainTables) bothKeys logoRequest
           muteWorld logoCompletion (jsonResponse (VObj [])) (VObj [])).
  - vm_compute. right. left. reflexivity.
  - reflexivity.
  - reflexivity.
  - reflexivity.
  - reflexivity.
  - left. reflexivity.
Defined.

(** C8 as worded fails: the completion provider answers the request for
    ["Sketch a logo"] with success and the JSON body [null], which carries
    no choices; reading [choices] of [null] throws, and the endpoint answers
    with status 500 and ["Server error talking to LLM."], not with the
    placeholder reply. *)
Lemma null_completion_body_is_server_error :
  In (CallEnd
        {| url := "https://api.groq.com/openai/v1/chat/completions";
           method := "POST";
           headers := [ ("Content-Type", "application/json");
                        ("Authorization", "Bearer gsk-test") ];
           payload :=
             VObj [ ("model", VStr "llama-3.1-8b-instant");
                    ("messages",
                     VArr [ VObj [ ("role", VStr "system");
                                   ("content", VStr "You are DINX, a precise, helpful design assistant. Use web context if provided, and say when information may be out of date.") ];
                            VObj [ ("role", VStr "user");
                                   ("content", VStr "Sketch a logo") ] ]) ] |}
        (Responded {| ok := true; text := None; json := Some VNull |}))
     (fst (run nullBodyWorld
             (Groq.chatHandler (tables := plainTables) bothKeys logoRequest)))
  /\ carriesNoReply VNull
  /\ snd (run nullBodyWorld
            (Groq.chatHandler (tables := plainTables) bothKeys logoRequest))
     = Ok {| status := 500;
             body := VObj [("error", VStr "Server error talking to LLM.")] |}
  /\ snd (run nullBodyWorld
            (Groq.chatHandler (tables := plainTables) bothKeys logoRequest))
     <> Ok {| status := 200; body := VObj [("reply", VStr "No reply from model.")] |}.
Proof.
  split; [|split; [|split]].
  - vm_compute. right. left. reflexivity.
  - left. reflexivity.
  - reflexivity.
  - discriminate.
Qed.

(** ** The system prompt *)

Lemma assoc_withoutKey_same (key : string) (props : list (string * value)) :
  assoc key (withoutKey key props) = None.
Proof.
  induction props as [|[k v] props IH]; [reflexivity|].
  cbn [withoutKey]. destruct (String.eqb k key) eqn:E; [exact IH|].
  cbn [assoc]. now rewrite E.
Qed.

Lemma assoc_withoutKey_other (key other : string) (props : list (string * value)) :
  other <> key ->
  assoc other (withoutKey key props) = assoc other props.
Proof.
  intros Hne. induction props as [|[k v] props IH]; [reflexivity|].
  cbn [withoutKey assoc]. destruct (String.eqb k key) eqn:E.
  - apply String.eqb_eq in E as ->.
    apply not_eq_sym, String.eqb_neq in Hne. now rewrite Hne.
  - cbn [assoc]. now rewrite IH.
Qed.

(** C9, as the code has it.  A request whose [system] is the empty string
    is handled by the very program that handles the same request without
    [system], in both variants; the first message assembled is then the one
    of role [system] with the fixed default prompt, and every call the Groq
    handler sends to the completion endpoint carries it as its first message.
    The caller's [system] replaces the default whenever it is truthy, string
    or not: every completion call of a request with a truthy [system] has
    that value, as it came, as the content of its first message. *)
Theorem empty_system_uses_default {tables : CaseTables}
    (props : list (string * value)) :
  assoc "system" props = Some (VStr "") ->
  (forall cfg,
      Groq.chatHandler cfg (VObj props)
      = Groq.chatHandler cfg (VObj (withoutKey "system" props)))
  /\ (forall cfg,
      DeepSeek.chatHandler cfg (VObj props)
      = DeepSeek.chatHandler cfg (VObj (withoutKey "system" props)))
  /\ (forall message webInfo,
      Groq.buildMessages (VStr "") message webInfo
      = Groq.buildMessages VUndefined message webInfo
      /\ hd VUndefined (Groq.buildMessages (VStr "") message webInfo)
         = VObj [ ("role", VStr "system");
                  ("content", VStr "You are DINX, a precise, helpful design assistant. Use web context if provided, and say when information may be out of date.") ]
      /\ DeepSeek.buildMessages (VStr "") message webInfo
         = DeepSeek.buildMessages VUndefined message webInfo
      /\ hd VUndefined (DeepSeek.buildMessages (VStr "") message webInfo)
         = VObj [ ("role", VStr "system");
                  ("content", VStr "You are DINX, a precise, helpful design assistant. Use web context if provided, and say when information may be out of date.") ])
  /\ (forall cfg w e rq,
      In e (fst (run w (Groq.chatHandler cfg (VObj props)))) ->
      requestOf e = Some rq ->
      url rq = completionEndpoint ->
      exists rest,
        payload rq
        = VObj [ ("model", get (VObj props) "model");
                 ("messages",
                  VArr (VObj [ ("role", VStr "system");
                               ("content", VStr "You are DINX, a precise, helpful design assistant. Use web context if provided, and say when information may be out of date.") ]
                        :: rest)) ])
  /\ (forall cfg reqBody w e rq,
      truthy (get reqBody "system") = true ->
      In e (fst (run w (Groq.chatHandler cfg reqBody))) ->
      requestOf e = Some rq ->
      url rq = completionEndpoint ->
      exists rest,
        payload rq
        = VObj [ ("model", get reqBody "model");
                 ("messages",
                  VArr (VObj [ ("role", VStr "system");
                               ("content", get reqBody "system") ]
                        :: rest)) ]).
Proof.
  intros H.
  assert (Hmodel : assoc "model" (withoutKey "system" props) = assoc "model" props)
    by (apply assoc_withoutKey_other; discriminate).
  assert (Hmessage : assoc "message" (withoutKey "system" props) = assoc "message" props)
    by (apply assoc_withoutKey_other; discriminate).
  pose proof (assoc_withoutKey_same "system" props) as Hsystem.
  assert (Sent : forall cfg reqBody w e rq,
             In e (fst (run w (Groq.chatHandler cfg reqBody))) ->
             requestOf e = Some rq ->
             url rq = completionEndpoint ->
             exists webInfo,
               rq = Groq.groqRequest cfg (get reqBody "model")
                      (Groq.buildMessages (get reqBody "system") (get reqBody "message")
                         webInfo)).
  { intros cfg reqBody w e rq Hin Hreq Hurl.
    destruct (completion_event_inv cfg reqBody w e rq Hin Hreq Hurl)
      as (webInfo & tail & Hev & _).
    exists webInfo. cbv zeta in Hev.
    destruct Hev as [-> | ->]; cbn [requestOf] in Hreq; congruence. }
  split; [|split; [|split; [|split]]].
  - intros cfg. unfold Groq.chatHandler, getProp. cbn [nullish get].
    rewrite H, Hmodel, Hmessage, Hsystem. reflexivity.
  - intros cfg. unfold DeepSeek.chatHandler, getProp. cbn [nullish get].
    rewrite H, Hmodel, Hmessage, Hsystem. reflexivity.
  - intros message webInfo. repeat split.
  - intros cfg w e rq Hin Hreq Hurl.
    destruct (Sent cfg (VObj props) w e rq Hin Hreq Hurl) as [webInfo ->].
    rewrite buildMessages_written. cbn [get]. rewrite H.
    eexists. reflexivity.
  - intros cfg reqBody w e rq T Hin Hreq Hurl.
    destruct (Sent cfg reqBody w e rq Hin Hreq Hurl) as [webInfo ->].
    rewrite buildMessages_written, T.
    eexists. reflexivity.
Qed.

Lemma empty_system_uses_default_witness :
  Groq.chatHandler (tables := plainTables) bothKeys (VObj emptySystemRequest)
  = Groq.chatHandler (tables := plainTables) bothKeys logoRequest
  /\ exists rest,
       VObj [ ("model", VStr "llama-3.1-8b-instant");
              ("messages",
               VArr [ VObj [ ("role", VStr "system");
                             ("content", VStr "You are DINX, a precise, helpful design assistant. Use web context if provided, and say when information may be out of date.") ];
                      VObj [ ("role", VStr "user");
                             ("content", VStr "Sketch a logo") ] ]) ]
       = VObj [ ("model", VStr "llama-3.1-8b-instant");
                ("messages",
                 VArr (VObj [ ("role", VStr "system");
                              ("content", VStr "You are DINX, a precise, helpful design assistant. Use web context if provided, and say when information may be out of date.") ]
                       :: rest)) ].
Proof.
  destruct (empty_system_uses_default (tables := plainTables) emptySystemRequest eq_refl)
    as (Hsame & _ & _ & Hsent & _).
  split; [exact (Hsame bothKeys)|].
  destruct (Hsent bothKeys sunnyWorld (CallBegin logoCompletion) logoCompletion)
    as [rest Hrest].
  - vm_compute. left. reflexivity.
  - reflexivity.
  - reflexivity.
  - exists rest. exact Hrest.
Defined.

(** C9 as worded fails in its last part: the override is not limited to
    non-empty strings.  A request whose [system] is the number 7 is sent to
    the completion provider with a first message whose content is that
    number, not the default prompt. *)
Lemma number_system_overrides_default :
  get numberSystemRequest "system" = VNum true "7"
  /\ calls (fst (run sunnyWorld
                   (Groq.chatHandler (tables := plainTables) bothKeys
                      numberSystemRequest)))
     = [ CallBegin
           {| url := "https://api.groq.com/openai/v1/chat/completions";
              method := "POST";
              headers := [ ("Content-Type", "application/json");
                           ("Authorization", "Bearer gsk-test") ];
              payload :=
                VObj [ ("model", VStr "llama-3.1-8b-instant");
                       ("messages",
                        VArr [ VObj [ ("role", VStr "system");
                                      ("content", VNum true "7") ];
                               VObj [ ("role", VStr "user");
                                      ("content", VStr "Sketch a logo") ] ]) ] |};
         CallEnd
           {| url := "https://api.groq.com/openai/v1/chat/completions";
              method := "POST";
              headers := [ ("Content-Type", "application/json");
                           ("Authorization", "Bearer gsk-test") ];
              payload :=
                VObj [ ("model", VStr "llama-3.1-8b-instant");
                       ("messages",
                        VArr [ VObj [ ("role", VStr "system");
                                      ("content", VNum true "7") ];
                               VObj [ ("role", VStr "user");
                                      ("content", VStr "Sketch a logo") ] ]) ] |}
           (Responded (jsonResponse (completionData "Bring an umbrella."))) ]
  /\ VNum true "7" <> VStr "You are DINX, a precise, helpful design assistant. Use web context if provided, and say when information may be out of date.".
Proof.
  split; [reflexivity|]. split; [reflexivity|discriminate].
Qed.

(** ** The two variants *)

(** C10.  The variants agree on their pure core: [shouldUseWeb] gives the
    same answer for every message, the formatting of a search response gives
    the same context or fails alike for every parsed response, and with the
    same Tavily credential the whole search client is one and the same
    program. *)
Theorem variants_agree {tables : CaseTables} :
  (forall message, Groq.shouldUseWeb message = DeepSeek.shouldUseWeb message)
  /\ (forall data, Groq.formatContext data = DeepSeek.formatContext data)
  /\ (forall g d query,
      Groq.TAVILY_API_KEY g = DeepSeek.TAVILY_API_KEY d ->
      Groq.searchWebWithTavily g query = DeepSeek.searchWebWithTavily d query).
Proof.
  split; [|split].
  - intros message. reflexivity.
  - intros data. reflexivity.
  - intros g d query E.
    unfold Groq.searchWebWithTavily, DeepSeek.searchWebWithTavily,
      Groq.tavilyRequest, DeepSeek.tavilyRequest.
    rewrite E. reflexivity.
Qed.

Lemma variants_agree_witness :
  Groq.searchWebWithTavily bothKeys (VStr "latest news")
  = DeepSeek.searchWebWithTavily
      {| DeepSeek.DEEPSEEK_API_KEY := Some "sk-test";
         DeepSeek.TAVILY_API_KEY := Some "tvly-test" |}
      (VStr "latest news").
Proof.
  apply (variants_agree (tables := plainTables)). reflexivity.
Defined.

(** * Further properties of the code *)

(** ** Every path of the chat endpoint *)

(** The completion call and what follows it, outcome by outcome. *)
Lemma groqRelay_outcome (cfg : Groq.config) (model system message : value)
    (webInfo : string) (w : world) :
  let c := Groq.groqRequest cfg model (Groq.buildMessages system message webInfo) in
  run w (tryCatch (groqRelay cfg model system message webInfo) groqOnError)
  = (CallBegin c :: CallEnd c (w c)
       :: match w c with
          | Rejected => [crashLine NetworkError]
          | Responded r =>
              if ok r then
                match json r with
                | None => [crashLine BodyError]
                | Some data => if nullish data then [crashLine TypeError] else []
                end
              else
                match text r with
                | Some t => [Logged ConsoleError "Groq API error:" (LValue (VStr t))]
                | None => [crashLine BodyError]
                end
          end,
     Ok match w c with
        | Rejected => serverError
        | Responded r =>
            if ok r then
              match json r with
              | None => serverError
              | Some data =>
                  if nullish data then serverError
                  else {| status := 200;
                          body := VObj [("reply",
                                    if truthy (firstChoiceContent data)
                                    then firstChoiceContent data
                                    else VStr "No reply from model.")] |}
              end
            else
              match text r with
              | Some t => {| status := 500;
                             body := VObj [ ("error", VStr "Groq API error");
                                            ("details", VStr t) ] |}
              | None => serverError
              end
        end).
Proof.
  intros c. unfold groqRelay, groqOnError. cbv zeta. fold c. program_step.
  destruct (w c) as [|[isOk txt js]];
    [|destruct isOk; [destruct js as [data|]; [destruct (nullish data) eqn:N|]
                     |destruct txt as [t|]]];
    program_step; unfold getProp; try rewrite N; program_step;
    try reflexivity.
  unfold firstChoiceContent. rewrite !getOpt_get. reflexivity.
Qed.

Lemma shouldUseWeb_raises {tables : CaseTables} (v : value) (e : exn) :
  Groq.shouldUseWeb v = Raise e ->
  e = TypeError /\ truthy v = true /\ forall s, v <> VStr s.
Proof.
  unfold Groq.shouldUseWeb. destruct (truthy v) eqn:T; cbn [negb]; [|discriminate].
  destruct v; intros H; try discriminate; injection H as <-;
    repeat split; intros s; discriminate.
Qed.

Lemma shouldUseWeb_non_string {tables : CaseTables} (v : value) :
  truthy v = true -> (forall s, v <> VStr s) -> Groq.shouldUseWeb v = Raise TypeError.
Proof.
  intros T H. unfold Groq.shouldUseWeb. rewrite T. cbn [negb].
  destruct v; try reflexivity. now destruct (H s).
Qed.

Lemma get_truthy_not_nullish (v : value) (key : string) :
  truthy (get v key) = true -> nullish v = false.
Proof. destruct v; cbn; intros H; congruence. Qed.

Section Paths.
Context {tables : CaseTables}.

(** The five ways through the handler. *)
Lemma chatHandler_paths (cfg : Groq.config) (reqBody : value) (w : world) :
  let model := get reqBody "model" in
  let system := get reqBody "system" in
  let message := get reqBody "message" in
  (nullish reqBody = true
   /\ run w (Groq.chatHandler cfg reqBody) = ([crashLine TypeError], Ok serverError))
  \/ (nullish reqBody = false
      /\ truthy (envValue (Groq.GROQ_API_KEY cfg)) = false
      /\ run w (Groq.chatHandler cfg reqBody) = ([], Ok missingCredential))
  \/ (nullish reqBody = false
      /\ truthy (envValue (Groq.GROQ_API_KEY cfg)) = true
      /\ (truthy model = false \/ truthy message = false)
      /\ run w (Groq.chatHandler cfg reqBody) = ([], Ok invalidRequest))
  \/ (nullish reqBody = false
      /\ truthy (envValue (Groq.GROQ_API_KEY cfg)) = true
      /\ truthy model = true /\ truthy message = true
      /\ (forall s, message <> VStr s)
      /\ run w (Groq.chatHandler cfg reqBody) = ([crashLine TypeError], Ok serverError))
  \/ (exists useWeb events webInfo,
        nullish reqBody = false
        /\ truthy (envValue (Groq.GROQ_API_KEY cfg)) = true
        /\ truthy model = true /\ truthy message = true
        /\ Groq.shouldUseWeb message = Ok useWeb
        /\ run w (if useWeb then Groq.searchWebWithTavily cfg message else Ret "")
           = (events, Ok webInfo)
        /\ run w (Groq.chatHandler cfg reqBody)
           = ((events
               ++ fst (run w (tryCatch (groqRelay cfg model system message webInfo)
                                groqOnError)))%list,
              snd (run w (tryCatch (groqRelay cfg model system message webInfo)
                            groqOnError)))).
Proof.
  intros model system message.
  destruct (nullish reqBody) eqn:N.
  { left. split; [reflexivity|]. now apply chatHandler_absent_body. }
  right.
  destruct (truthy (envValue (Groq.GROQ_API_KEY cfg))) eqn:K.
  2:{ left. repeat split. now apply chatHandler_no_key. }
  right.
  destruct (truthy model) eqn:M.
  2:{ left. repeat split; auto. apply chatHandler_invalid; auto. }
  destruct (truthy message) eqn:U.
  2:{ left. repeat split; auto. apply chatHandler_invalid; auto. }
  right.
  destruct (Groq.shouldUseWeb message) as [useWeb|e] eqn:S.
  - right.
    destruct (search_step_run cfg message w useWeb) as (events & webInfo & R & _).
    exists useWeb, events, webInfo. repeat split; auto.
    exact (chatHandler_served cfg reqBody w useWeb events webInfo N K M U S R).
  - left. destruct (shouldUseWeb_raises _ _ S) as (-> & _ & Hns).
    repeat split; auto.
    exact (chatHandler_decider_throws cfg reqBody w TypeError N K M U S).
Qed.

End Paths.

(** The search step: skipped, or one call to Tavily. *)
Lemma search_step_cases (cfg : Groq.config) (query : value) (w : world)
    (useWeb : bool) (events : list event) (webInfo : string) :
  run w (if useWeb then Groq.searchWebWithTavily cfg query else Ret "")
  = (events, Ok webInfo) ->
  (events = [] /\ webInfo = ""
   /\ (useWeb = false \/ truthy (envValue (Groq.TAVILY_API_KEY cfg)) = false))
  \/ (useWeb = true
      /\ truthy (envValue (Groq.TAVILY_API_KEY cfg)) = true
      /\ run w (Groq.searchWebWithTavily cfg query) = (events, Ok webInfo)
      /\ calls events = [ CallBegin (Groq.tavilyRequest cfg query);
                          CallEnd (Groq.tavilyRequest cfg query)
                                  (w (Groq.tavilyRequest cfg query)) ]).
Proof.
  intros R. destruct useWeb.
  - destruct (truthy (envValue (Groq.TAVILY_API_KEY cfg))) eqn:K.
    + right. repeat split; auto.
      destruct (searchWebWithTavily_returns cfg query w) as (ev & ctx & E & _ & C).
      rewrite E in R. injection R as <- <-. now apply C.
    + left. rewrite searchWebWithTavily_disabled in R by assumption.
      cbn in R. injection R as <- <-. auto.
  - left. cbn in R. injection R as <- <-. auto.
Qed.

(** Opens the five paths of the handler for [cfg], [reqBody] and [w]. *)
Ltac handler_paths cfg reqBody w :=
  let N := fresh "N" in
  let K := fresh "K" in
  let V := fresh "V" in
  let M := fresh "M" in
  let U := fresh "U" in
  let S := fresh "S" in
  let R := fresh "R" in
  let E := fresh "E" in
  let Hns := fresh "Hns" in
  let useWeb := fresh "useWeb" in
  let events := fresh "events" in
  let webInfo := fresh "webInfo" in
  destruct (chatHandler_paths cfg reqBody w)
    as [(N & E)
       |[(N & K & E)
        |[(N & K & V & E)
         |[(N & K & M & U & Hns & E)
          |(useWeb & events & webInfo & N & K & M & U & S & R & E)]]]];
  [ | | | | rewrite groqRelay_outcome in E; cbn [fst snd] in E ].

(** X1.  The handler never lets an exception escape: whatever the
    configuration, the request body and the behaviour of the two providers, it
    ends with a response, and the status of that response is 200, 400 or
    500. *)
Theorem chatHandler_always_answers {tables : CaseTables}
    (cfg : Groq.config) (reqBody : value) (w : world) :
  exists res,
    snd (run w (Groq.chatHandler cfg reqBody)) = Ok res
    /\ (status res = 200 \/ status res = 400 \/ status res = 500).
Proof.
  handler_paths cfg reqBody w; rewrite E; cbn [snd];
    eexists; (split; [reflexivity|]); cbn; auto.
  destruct (w _) as [|[[] txt [data|]]]; cbn; auto;
    try destruct (nullish data); try destruct txt; cbn; auto.
Qed.

Lemma calls_relay_tail (o : outcome) :
  calls match o with
        | Rejected => [crashLine NetworkError]
        | Responded r =>
            if ok r then
              match json r with
              | None => [crashLine BodyError]
              | Some data => if nullish data then [crashLine TypeError] else []
              end
            else
              match text r with
              | Some t => [Logged ConsoleError "Groq API error:" (LValue (VStr t))]
              | None => [crashLine BodyError]
              end
        end = [].
Proof.
  destruct o as [|[[] [t|] [data|]]]; try reflexivity;
    cbn [ok json text]; destruct (nullish data); reflexivity.
Qed.

(** X2.  The outbound traffic of one request has one of three shapes: no
    call at all; the completion call alone, built without search context; or
    the search call, begun and ended, followed by the completion call built
    from what the search returned.  So there are never more than two calls,
    no call is repeated, the search never comes after the completion call,
    and a search is always followed by the completion call. *)
Theorem chatHandler_call_shapes {tables : CaseTables}
    (cfg : Groq.config) (reqBody : value) (w : world) :
  let model := get reqBody "model" in
  let system := get reqBody "system" in
  let message := get reqBody "message" in
  let trace := fst (run w (Groq.chatHandler cfg reqBody)) in
  let s := Groq.tavilyRequest cfg message in
  let completion := fun webInfo =>
    Groq.groqRequest cfg model (Groq.buildMessages system message webInfo) in
  calls trace = []
  \/ calls trace = [CallBegin (completion ""); CallEnd (completion "") (w (completion ""))]
  \/ exists webInfo,
       snd (run w (Groq.searchWebWithTavily cfg message)) = Ok webInfo
       /\ calls trace = [ CallBegin s; CallEnd s (w s);
                          CallBegin (completion webInfo);
                          CallEnd (completion webInfo) (w (completion webInfo)) ].
Proof.
  intros model system message trace s completion.
  subst model system message trace s completion. cbv beta.
  handler_paths cfg reqBody w; rewrite E; cbn [fst]; try (left; reflexivity).
  right. unfold calls in *. rewrite filter_app. cbn [filter isCall].
  fold (calls (match w (Groq.groqRequest cfg (get reqBody "model")
                          (Groq.buildMessages (get reqBody "system")
                             (get reqBody "message") webInfo)) with
               | Rejected => [crashLine NetworkError]
               | Responded r =>
                   if ok r then
                     match json r with
                     | None => [crashLine BodyError]
                     | Some data => if nullish data then [crashLine TypeError] else []
                     end
                   else
                     match text r with
                     | Some t => [Logged ConsoleError "Groq API error:" (LValue (VStr t))]
                     | None => [crashLine BodyError]
                     end
               end)).
  rewrite calls_relay_tail.
  destruct (search_step_cases cfg _ w useWeb events webInfo R)
    as [(-> & -> & _)|(_ & _ & Rs & C)].
  - left. reflexivity.
  - right. exists webInfo. rewrite Rs. split; [reflexivity|].
    unfold calls in C. rewrite C. reflexivity.
Qed.

(** ** Who is called, and with what *)

Section Events.
Context {tables : CaseTables}.

(** A call event in the trace belongs to the served path: to its search
    step or to its completion call. *)
Lemma served_event_inv (cfg : Groq.config) (reqBody : value) (w : world) (e : event) :
  In e (fst (run w (Groq.chatHandler cfg reqBody))) ->
  isCall e = true ->
  exists useWeb events webInfo,
    truthy (envValue (Groq.GROQ_API_KEY cfg)) = true
    /\ truthy (get reqBody "model") = true
    /\ truthy (get reqBody "message") = true
    /\ Groq.shouldUseWeb (get reqBody "message") = Ok useWeb
    /\ run w (if useWeb then Groq.searchWebWithTavily cfg (get reqBody "message")
              else Ret "") = (events, Ok webInfo)
    /\ (let c := Groq.groqRequest cfg (get reqBody "model")
                   (Groq.buildMessages (get reqBody "system") (get reqBody "message")
                      webInfo) in
        In e (calls events) \/ e = CallBegin c \/ e = CallEnd c (w c)).
Proof.
  intros Hin Hcall.
  handler_paths cfg reqBody w; rewrite E in Hin; cbn [fst] in Hin.
  - destruct Hin as [<-|[]]. discriminate.
  - destruct Hin.
  - destruct Hin.
  - destruct Hin as [<-|[]]. discriminate.
  - exists useWeb, events, webInfo. repeat split; auto. cbv zeta.
    apply in_app_or in Hin as [Hin|[Hin|[Hin|Hin]]]; auto.
    + left. now apply In_calls.
    + exfalso. apply In_calls in Hin; [|exact Hcall].
      rewrite calls_relay_tail in Hin. destruct Hin.
Qed.

(** Every event of the completion endpoint carries the request the handler
    assembled from the body and from what the search step returned. *)
Lemma completion_request_inv (cfg : Groq.config) (reqBody : value) (w : world)
    (e : event) (rq : request) :
  In e (fst (run w (Groq.chatHandler cfg reqBody))) ->
  requestOf e = Some rq ->
  url rq = completionEndpoint ->
  exists useWeb events webInfo,
    truthy (envValue (Groq.GROQ_API_KEY cfg)) = true
    /\ truthy (get reqBody "model") = true
    /\ truthy (get reqBody "message") = true
    /\ Groq.shouldUseWeb (get reqBody "message") = Ok useWeb
    /\ run w (if useWeb then Groq.searchWebWithTavily cfg (get reqBody "message")
              else Ret "") = (events, Ok webInfo)
    /\ rq = Groq.groqRequest cfg (get reqBody "model")
              (Groq.buildMessages (get reqBody "system") (get reqBody "message")
                 webInfo).
Proof.
  intros Hin Hreq Hurl.
  assert (Hcall : isCall e = true) by (destruct e; [reflexivity..|discriminate]).
  destruct (served_event_inv cfg reqBody w e Hin Hcall)
    as (useWeb & events & webInfo & K & M & U & S & R & Hev).
  exists useWeb, events, webInfo. repeat split; auto.
  cbv zeta in Hev. destruct Hev as [Hev|[-> | ->]];
    [exfalso | cbn [requestOf] in Hreq; congruence
             | cbn [requestOf] in Hreq; congruence].
  destruct (search_step_cases cfg _ w useWeb events webInfo R)
    as [(-> & _)|(_ & _ & _ & C)].
  - destruct Hev.
  - rewrite C in Hev.
    destruct Hev as [<-|[<-|[]]]; cbn in Hreq; injection Hreq as <-; discriminate.
Qed.

(** Every event of the search endpoint carries the Tavily request for the
    user's message, and there is one only when the message triggers and the
    search credential is set. *)
Lemma search_request_inv (cfg : Groq.config) (reqBody : value) (w : world)
    (e : event) (rq : request) :
  In e (fst (run w (Groq.chatHandler cfg reqBody))) ->
  requestOf e = Some rq ->
  url rq = searchEndpoint ->
  truthy (envValue (Groq.GROQ_API_KEY cfg)) = true
  /\ truthy (envValue (Groq.TAVILY_API_KEY cfg)) = true
  /\ truthy (get reqBody "model") = true
  /\ Groq.shouldUseWeb (get reqBody "message") = Ok true
  /\ rq = Groq.tavilyRequest cfg (get reqBody "message").
Proof.
  intros Hin Hreq Hurl.
  assert (Hcall : isCall e = true) by (destruct e; [reflexivity..|discriminate]).
  destruct (served_event_inv cfg reqBody w e Hin Hcall)
    as (useWeb & events & webInfo & K & M & U & S & R & Hev).
  cbv zeta in Hev. destruct Hev as [Hev|[-> | ->]];
    [ | exfalso; cbn in Hreq; injection Hreq as <-; discriminate
      | exfalso; cbn in Hreq; injection Hreq as <-; discriminate ].
  destruct (search_step_cases cfg _ w useWeb events webInfo R)
    as [(-> & _)|(-> & T & _ & C)].
  - destruct Hev.
  - rewrite C in Hev. repeat split; auto.
    destruct Hev as [<-|[<-|[]]]; cbn [requestOf] in Hreq; congruence.
Qed.

End Events.

Lemma shouldUseWeb_true_string {tables : CaseTables} (v : value) :
  Groq.shouldUseWeb v = Ok true -> exists m, v = VStr m.
Proof.
  unfold Groq.shouldUseWeb. destruct (truthy v); cbn [negb]; [|discriminate].
  destruct v; try discriminate. intros _. now exists s.
Qed.

(** X3.  The search provider is contacted only for a message that is a
    string whose lower-cased text holds a trigger, and only with the search
    credential set; the request is then the one for that very message: the
    query is the message as the user wrote it, not its lower-cased form, the
    key is the Tavily credential, and the request asks for basic depth, five
    results at most and a synthesized answer. *)
Theorem search_only_on_trigger {tables : CaseTables}
    (cfg : Groq.config) (reqBody : value) (w : world) (e : event) (rq : request) :
  In e (fst (run w (Groq.chatHandler cfg reqBody))) ->
  requestOf e = Some rq ->
  url rq = searchEndpoint ->
  exists m key,
    get reqBody "message" = VStr m
    /\ (exists word, In word Groq.triggers /\ Occurs word (toLowerCase m))
    /\ Groq.TAVILY_API_KEY cfg = Some key /\ key <> ""
    /\ method rq = "POST"
    /\ headers rq = [("Content-Type", "application/json")]
    /\ payload rq = VObj [ ("api_key", VStr key);
                           ("query", VStr m);
                           ("search_depth", VStr "basic");
                           ("max_results", VNum true "5");
                           ("include_answer", VBool true) ].
Proof.
  intros Hin Hreq Hurl.
  destruct (search_request_inv cfg reqBody w e rq Hin Hreq Hurl)
    as (_ & T & _ & S & ->).
  destruct (shouldUseWeb_true_string _ S) as [m Em]. rewrite Em in *.
  apply shouldUseWeb_true_iff in S as [_ Hword].
  destruct (Groq.TAVILY_API_KEY cfg) as [key|] eqn:Ek; [|discriminate].
  exists m, key. repeat split; auto.
  - intros ->. discriminate.
  - unfold Groq.tavilyRequest. cbn [payload]. now rewrite Ek.
Qed.

Lemma search_only_on_trigger_witness :
  exists m key,
    get weatherRequest "message" = VStr m
    /\ (exists word, In word Groq.triggers
                     /\ Occurs word (toLowerCase (tables := plainTables) m))
    /\ Groq.TAVILY_API_KEY bothKeys = Some key /\ key <> ""
    /\ method (Groq.tavilyRequest bothKeys (VStr weatherQuestion)) = "POST"
    /\ headers (Groq.tavilyRequest bothKeys (VStr weatherQuestion))
       = [("Content-Type", "application/json")]
    /\ payload (Groq.tavilyRequest bothKeys (VStr weatherQuestion))
       = VObj [ ("api_key", VStr key);
                ("query", VStr m);
                ("search_depth", VStr "basic");
                ("max_results", VNum true "5");
                ("include_answer", VBool true) ].
Proof.
  apply (search_only_on_trigger (tables := plainTables) bothKeys weatherRequest
           sunnyWorld
           (CallBegin (Groq.tavilyRequest bothKeys (VStr weatherQuestion)))).
  - vm_compute. right. left. reflexivity.
  - reflexivity.
  - reflexivity.
Defined.

(** X4.  Every request sent to the completion endpoint is a POST with the
    LLM credential as bearer token, names the model of the chat request, and
    carries a message list that begins with a message of role [system] (the
    caller's prompt when truthy, else the default one), ends with a message
    of role [user] holding the user's message, and has in between nothing or
    one message of role [system] made of the banner and a non-empty search
    context. *)
Theorem completion_request_shape {tables : CaseTables}
    (cfg : Groq.config) (reqBody : value) (w : world) (e : event) (rq : request) :
  In e (fst (run w (Groq.chatHandler cfg reqBody))) ->
  requestOf e = Some rq ->
  url rq = completionEndpoint ->
  exists key middle,
    Groq.GROQ_API_KEY cfg = Some key /\ key <> ""
    /\ method rq = "POST"
    /\ headers rq = [ ("Content-Type", "application/json");
                      ("Authorization", "Bearer " ++ key) ]
    /\ payload rq
       = VObj [ ("model", get reqBody "model");
                ("messages",
                 VArr (VObj [ ("role", VStr "system");
                              ("content",
                               if truthy (get reqBody "system") then get reqBody "system"
                               else VStr "You are DINX, a precise, helpful design assistant. Use web context if provided, and say when information may be out of date.") ]
                       :: middle
                       ++ [VObj [ ("role", VStr "user");
                                  ("content", get reqBody "message") ]])%list) ]
    /\ (middle = []
        \/ exists webInfo,
             webInfo <> ""
             /\ middle
                = [VObj [ ("role", VStr "system");
                          ("content", VStr ("Here is information from a live web search. Use it carefully in your answer:

" ++ webInfo)) ]]).
Proof.
  intros Hin Hreq Hurl.
  destruct (completion_request_inv cfg reqBody w e rq Hin Hreq Hurl)
    as (useWeb & events & webInfo & K & _ & _ & _ & _ & ->).
  destruct (credential_set _ K) as (key & Ek & Hk).
  rewrite (groqRequest_written cfg key _ _ Ek), buildMessages_written.
  exists key. eexists. repeat split; [exact Ek | exact Hk |].
  destruct (truthy (VStr webInfo)) eqn:T; [right|left; reflexivity].
  exists webInfo. split; [|reflexivity]. intros ->. discriminate.
Qed.

Lemma completion_request_shape_witness :
  In (CallBegin
        {| url := "https://api.groq.com/openai/v1/chat/completions";
          method := "POST";
          headers := [ ("Content-Type", "application/json");
                       ("Authorization", "Bearer gsk-test") ];
          payload :=
            VObj [ ("model", VStr "llama-3.1-8b-instant");
                   ("messages",
                    VArr [ VObj [ ("role", VStr "system");
                                  ("content", VStr "You are DINX, a precise, helpful design assistant. Use web context if provided, and say when information may be out of date.") ];
                           VObj [ ("role", VStr "user");
                                  ("content", VStr "Sketch a logo") ] ]) ] |})
     (fst (run sunnyWorld (Groq.chatHandler (tables := plainTables) bothKeys logoRequest)))
  /\ exists key middle,
       Groq.GROQ_API_KEY bothKeys = Some key /\ key <> ""
       /\ [ ("Content-Type", "application/json"); ("Authorization", "Bearer gsk-test") ]
          = [ ("Content-Type", "application/json"); ("Authorization", "Bearer " ++ key) ]
       /\ VObj [ ("model", VStr "llama-3.1-8b-instant");
                 ("messages",
                  VArr [ VObj [ ("role", VStr "system");
                                ("content", VStr "You are DINX, a precise, helpful design assistant. Use web context if provided, and say when information may be out of date.") ];
                         VObj [ ("role", VStr "user");
                                ("content", VStr "Sketch a logo") ] ]) ]
          = VObj [ ("model", VStr "llama-3.1-8b-instant");
                   ("messages",
                    VArr (VObj [ ("role", VStr "system");
                                 ("content", VStr "You are DINX, a precise, helpful design assistant. Use web context if provided, and say when information may be out of date.") ]
                          :: middle
                          ++ [VObj [ ("role", VStr "user");
                                     ("content", VStr "Sketch a logo") ]])%list) ]
       /\ (middle = []
           \/ exists webInfo,
                webInfo <> ""
                /\ middle
                   = [VObj [ ("role", VStr "system");
                             ("content", VStr ("Here is information from a live web search. Use it carefully in your answer:

" ++ webInfo)) ]]).
Proof.
  assert (Hin : In (CallBegin logoCompletion)
                  (fst (run sunnyWorld
                          (Groq.chatHandler (tables := plainTables) bothKeys logoRequest))))
    by (vm_compute; left; reflexivity).
  split; [exact Hin|].
  destruct (completion_request_shape (tables := plainTables) bothKeys logoRequest
              sunnyWorld (CallBegin logoCompletion) logoCompletion Hin eq_refl eq_refl)
    as (key & middle & Ek & Hk & _ & Hh & Hp & Hm).
  exists key, middle. repeat split; assumption.
Defined.

(** ** Requests that never reach a provider *)

(** X5.  Without the LLM credential (the variable unset, or set to the
    empty string) no request causes an outbound call and every request is
    answered with status 500; a request with a body gets the error
    ["GROQ_API_KEY not set on server."], whatever it contains. *)
Theorem missing_credential_stops_everything {tables : CaseTables}
    (cfg : Groq.config) (reqBody : value) (w : world) :
  Groq.GROQ_API_KEY cfg = None \/ Groq.GROQ_API_KEY cfg = Some "" ->
  calls (fst (run w (Groq.chatHandler cfg reqBody))) = []
  /\ (exists res, snd (run w (Groq.chatHandler cfg reqBody)) = Ok res
                  /\ status res = 500)
  /\ (nullish reqBody = false ->
      run w (Groq.chatHandler cfg reqBody)
      = ([], Ok {| status := 500;
                   body := VObj [("error", VStr "GROQ_API_KEY not set on server.")] |})).
Proof.
  intros Hkey.
  assert (K : truthy (envValue (Groq.GROQ_API_KEY cfg)) = false)
    by (destruct Hkey as [-> | ->]; reflexivity).
  destruct (nullish reqBody) eqn:N.
  - rewrite chatHandler_absent_body by assumption. cbn [fst snd].
    split; [reflexivity|]. split; [|discriminate].
    now exists serverError.
  - rewrite chatHandler_no_key by assumption. cbn [fst snd].
    split; [reflexivity|]. split; [|reflexivity].
    now exists missingCredential.
Qed.

Lemma missing_credential_stops_everything_witness :
  run sunnyWorld (Groq.chatHandler (tables := plainTables) emptyGroqKey weatherRequest)
  = ([], Ok {| status := 500;
               body := VObj [("error", VStr "GROQ_API_KEY not set on server.")] |}).
Proof.
  apply (missing_credential_stops_everything (tables := plainTables) emptyGroqKey
           weatherRequest sunnyWorld); [right|]; reflexivity.
Defined.

(** X6.  A message that is truthy but not a string (a number, [true], an
    array, an object) makes [shouldUseWeb] throw; with the LLM credential set
    and a truthy [model] the handler catches the exception, logs it, and
    answers with status 500 and the generic error, without any outbound
    call. *)
Theorem non_string_message_is_server_error {tables : CaseTables}
    (cfg : Groq.config) (reqBody : value) (w : world) :
  truthy (envValue (Groq.GROQ_API_KEY cfg)) = true ->
  truthy (get reqBody "model") = true ->
  truthy (get reqBody "message") = true ->
  (forall s, get reqBody "message" <> VStr s) ->
  Groq.shouldUseWeb (get reqBody "message") = Raise TypeError
  /\ run w (Groq.chatHandler cfg reqBody)
     = ([Logged ConsoleError "❌ Server error talking to LLM:" (LError TypeError)],
        Ok {| status := 500;
              body := VObj [("error", VStr "Server error talking to LLM.")] |}).
Proof.
  intros K M U Hns.
  pose proof (shouldUseWeb_non_string _ U Hns) as S.
  split; [exact S|].
  apply chatHandler_decider_throws; auto.
  exact (get_truthy_not_nullish _ _ M).
Qed.

Lemma non_string_message_is_server_error_witness :
  run sunnyWorld (Groq.chatHandler (tables := plainTables) bothKeys numberRequest)
  = ([Logged ConsoleError "❌ Server error talking to LLM:" (LError TypeError)],
     Ok {| status := 500;
           body := VObj [("error", VStr "Server error talking to LLM.")] |}).
Proof.
  apply (non_string_message_is_server_error (tables := plainTables) bothKeys
           numberRequest sunnyWorld); try reflexivity.
  intros s. discriminate.
Defined.

(** X7.  A response with status 400 is only ever given to a request that
    has a body, with the LLM credential set, whose [model] or [message] is
    missing or falsy, and nothing at all has happened by then: no outbound
    call and no console line. *)
Theorem bad_request_means_invalid_input {tables : CaseTables}
    (cfg : Groq.config) (reqBody : value) (w : world) (res : reply) :
  snd (run w (Groq.chatHandler cfg reqBody)) = Ok res ->
  status res = 400 ->
  fst (run w (Groq.chatHandler cfg reqBody)) = []
  /\ nullish reqBody = false
  /\ truthy (envValue (Groq.GROQ_API_KEY cfg)) = true
  /\ (truthy (get reqBody "model") = false \/ truthy (get reqBody "message") = false)
  /\ body res = VObj [("error", VStr "model and message are required.")].
Proof.
  intros Hres Hstatus.
  handler_paths cfg reqBody w; rewrite E in Hres |- *; cbn [fst snd] in *;
    injection Hres as <-; try discriminate.
  - repeat split; auto.
  - exfalso. revert Hstatus.
    destruct (w _) as [|[[] txt [data|]]]; cbn;
      try destruct (nullish data); try destruct txt; cbn; discriminate.
Qed.

Lemma bad_request_means_invalid_input_witness :
  fst (run sunnyWorld (Groq.chatHandler (tables := plainTables) bothKeys
                         messagelessRequest)) = []
  /\ nullish messagelessRequest = false
  /\ truthy (envValue (Groq.GROQ_API_KEY bothKeys)) = true
  /\ (truthy (get messagelessRequest "model") = false
      \/ truthy (get messagelessRequest "message") = false)
  /\ body invalidRequest = VObj [("error", VStr "model and message are required.")].
Proof.
  apply (bad_request_means_invalid_input (tables := plainTables) bothKeys
           messagelessRequest sunnyWorld invalidRequest); reflexivity.
Defined.

(** ** The search step and the response *)

Section SearchStep.
Context {tables : CaseTables}.

(** With an empty search context the handler answers as it does with the
    search credential unset. *)
Lemma empty_context_same_response (cfg : Groq.config) (reqBody : value) (w : world) :
  snd (run w (Groq.searchWebWithTavily cfg (get reqBody "message"))) = Ok "" ->
  snd (run w (Groq.chatHandler cfg reqBody))
  = snd (run w (Groq.chatHandler (withoutSearch cfg) reqBody)).
Proof.
  intros Hempty.
  destruct (nullish reqBody) eqn:N.
  { now rewrite !chatHandler_absent_body. }
  destruct (truthy (envValue (Groq.GROQ_API_KEY cfg))) eqn:K.
  2:{ now rewrite !chatHandler_no_key. }
  destruct (truthy (get reqBody "model")) eqn:M.
  2:{ rewrite !chatHandler_invalid; auto. }
  destruct (truthy (get reqBody "message")) eqn:U.
  2:{ rewrite !chatHandler_invalid; auto. }
  destruct (Groq.shouldUseWeb (get reqBody "message")) as [useWeb|e] eqn:S.
  2:{ now rewrite !(chatHandler_decider_throws _ reqBody w e). }
  destruct (search_step_run cfg (get reqBody "message") w useWeb)
    as (events & webInfo & R & _).
  assert (Ew : webInfo = "").
  { destruct (search_step_cases cfg _ w useWeb events webInfo R)
      as [(_ & -> & _)|(_ & _ & Rs & _)]; [reflexivity|].
    rewrite Rs in Hempty. cbn in Hempty. congruence. }
  subst webInfo.
  assert (R' : run w (if useWeb
                      then Groq.searchWebWithTavily (withoutSearch cfg)
                             (get reqBody "message")
                      else Ret "") = ([], Ok "")) by (now destruct useWeb).
  rewrite (chatHandler_served cfg reqBody w useWeb events "" N K M U S R).
  rewrite (chatHandler_served (withoutSearch cfg) reqBody w useWeb [] "" N K M U S R').
  reflexivity.
Qed.

End SearchStep.

(** X8.  With the search credential unset a request is served without
    search even when its message triggers: for a truthy [model] and a
    non-empty string message the only outbound call is a POST to the Groq
    completion endpoint with the two messages, one of role [system] and one
    of role [user]. *)
Theorem search_disabled_without_credential {tables : CaseTables}
    (cfg : Groq.config) (reqBody : value) (w : world) (m key : string) :
  Groq.GROQ_API_KEY cfg = Some key ->
  key <> "" ->
  truthy (envValue (Groq.TAVILY_API_KEY cfg)) = false ->
  truthy (get reqBody "model") = true ->
  get reqBody "message" = VStr m ->
  m <> "" ->
  let c :=
    {| url := "https://api.groq.com/openai/v1/chat/completions";
       method := "POST";
       headers := [ ("Content-Type", "application/json");
                    ("Authorization", "Bearer " ++ key) ];
       payload :=
         VObj [ ("model", get reqBody "model");
                ("messages",
                 VArr [ VObj [ ("role", VStr "system");
                               ("content",
                                if truthy (get reqBody "system") then get reqBody "system"
                                else VStr "You are DINX, a precise, helpful design assistant. Use web context if provided, and say when information may be out of date.") ];
                        VObj [ ("role", VStr "user"); ("content", VStr m) ] ]) ] |} in
  calls (fst (run w (Groq.chatHandler cfg reqBody))) = [CallBegin c; CallEnd c (w c)].
Proof.
  intros Ek Hk T M Em Hm c.
  pose proof (credential_truthy _ _ Ek Hk) as K.
  assert (N : nullish reqBody = false) by exact (get_string_not_nullish _ _ _ Em).
  assert (U : truthy (get reqBody "message") = true)
    by (rewrite Em; now apply truthy_VStr).
  destruct (shouldUseWeb_total m) as [useWeb S]. rewrite <- Em in S.
  assert (R : run w (if useWeb
                     then Groq.searchWebWithTavily cfg (get reqBody "message")
                     else Ret "") = ([], Ok "")).
  { destruct useWeb; [|reflexivity].
    now rewrite searchWebWithTavily_disabled. }
  rewrite (chatHandler_served cfg reqBody w useWeb [] "" N K M U S R).
  rewrite groqRelay_outcome. cbn [fst app].
  rewrite (groqRequest_written cfg key _ _ Ek), buildMessages_written, Em.
  change (truthy (VStr "")) with false. cbn [app]. fold c.
  unfold calls. cbn [filter isCall]. f_equal. f_equal. apply calls_relay_tail.
Qed.

Lemma search_disabled_without_credential_witness :
  calls (fst (run sunnyWorld
                (Groq.chatHandler (tables := plainTables) noTavilyKey weatherRequest)))
  = [ CallBegin
        {| url := "https://api.groq.com/openai/v1/chat/completions";
           method := "POST";
           headers := [ ("Content-Type", "application/json");
                        ("Authorization", "Bearer gsk-test") ];
           payload :=
             VObj [ ("model", VStr "llama-3.1-8b-instant");
                    ("messages",
                     VArr [ VObj [ ("role", VStr "system");
                                   ("content", VStr "You are DINX, a precise, helpful design assistant. Use web context if provided, and say when information may be out of date.") ];
                            VObj [ ("role", VStr "user");
                                   ("content", VStr "What is the weather today?") ] ]) ] |};
      CallEnd
        {| url := "https://api.groq.com/openai/v1/chat/completions";
           method := "POST";
           headers := [ ("Content-Type", "application/json");
                        ("Authorization", "Bearer gsk-test") ];
           payload :=
             VObj [ ("model", VStr "llama-3.1-8b-instant");
                    ("messages",
                     VArr [ VObj [ ("role", VStr "system");
                                   ("content", VStr "You are DINX, a precise, helpful design assistant. Use web context if provided, and say when information may be out of date.") ];
                            VObj [ ("role", VStr "user");
                                   ("content", VStr "What is the weather today?") ] ]) ] |}
        (Responded (jsonResponse (completionData "Bring an umbrella."))) ].
Proof.
  apply (search_disabled_without_credential (tables := plainTables) noTavilyKey
           weatherRequest sunnyWorld weatherQuestion "gsk-test").
  - reflexivity.
  - discriminate.
  - reflexivity.
  - reflexivity.
  - reflexivity.
  - discriminate.
Defined.

(** X9.  When the search returns the empty string (it failed, or it found
    neither an answer nor a result) the request goes on as if there were no
    search: the completion request carries the model and two messages, one
    of role [system] and one of role [user], and the response is the one the
    handler gives with the search credential unset. *)
Theorem empty_context_is_no_context {tables : CaseTables}
    (cfg : Groq.config) (reqBody : value) (w : world) :
  snd (run w (Groq.searchWebWithTavily cfg (get reqBody "message"))) = Ok "" ->
  snd (run w (Groq.chatHandler cfg reqBody))
  = snd (run w (Groq.chatHandler (withoutSearch cfg) reqBody))
  /\ (forall e rq,
        In e (fst (run w (Groq.chatHandler cfg reqBody))) ->
        requestOf e = Some rq ->
        url rq = completionEndpoint ->
        payload rq
        = VObj [ ("model", get reqBody "model");
                 ("messages",
                  VArr [ VObj [ ("role", VStr "system");
                                ("content",
                                 if truthy (get reqBody "system")
                                 then get reqBody "system"
                                 else VStr "You are DINX, a precise, helpful design assistant. Use web context if provided, and say when information may be out of date.") ];
                         VObj [ ("role", VStr "user");
                                ("content", get reqBody "message") ] ]) ]).
Proof.
  intros Hempty. split; [now apply empty_context_same_response|].
  intros e rq Hin Hreq Hurl.
  destruct (completion_request_inv cfg reqBody w e rq Hin Hreq Hurl)
    as (useWeb & events & webInfo & _ & _ & _ & _ & R & ->).
  assert (Ew : webInfo = "").
  { destruct (search_step_cases cfg _ w useWeb events webInfo R)
      as [(_ & -> & _)|(_ & _ & Rs & _)]; [reflexivity|].
    rewrite Rs in Hempty. cbn in Hempty. congruence. }
  subst webInfo. reflexivity.
Qed.

Lemma empty_context_is_no_context_witness :
  snd (run blankSearchWorld
         (Groq.chatHandler (tables := plainTables) bothKeys weatherRequest))
  = snd (run blankSearchWorld
           (Groq.chatHandler (tables := plainTables) (withoutSearch bothKeys)
              weatherRequest))
  /\ (forall e rq,
        In e (fst (run blankSearchWorld
                     (Groq.chatHandler (tables := plainTables) bothKeys weatherRequest))) ->
        requestOf e = Some rq ->
        url rq = completionEndpoint ->
        payload rq
        = VObj [ ("model", VStr "llama-3.1-8b-instant");
                 ("messages",
                  VArr [ VObj [ ("role", VStr "system");
                                ("content", VStr "You are DINX, a precise, helpful design assistant. Use web context if provided, and say when information may be out of date.") ];
                         VObj [ ("role", VStr "user");
                                ("content", VStr "What is the weather today?") ] ]) ]).
Proof.
  apply (empty_context_is_no_context (tables := plainTables) bothKeys weatherRequest
           blankSearchWorld).
  reflexivity.
Defined.

(** X10.  A search provider that is out of order never changes the answer:
    when the call to Tavily is rejected, answered without success, or
    answered with a body that is not JSON, the response of the chat endpoint
    is the one it gives with the search credential unset. *)
Theorem failing_search_is_absorbed {tables : CaseTables}
    (cfg : Groq.config) (reqBody : value) (w : world) :
  let s := Groq.tavilyRequest cfg (get reqBody "message") in
  w s = Rejected
  \/ (exists r, w s = Responded r /\ (ok r = false \/ json r = None)) ->
  snd (run w (Groq.chatHandler cfg reqBody))
  = snd (run w (Groq.chatHandler (withoutSearch cfg) reqBody)).
Proof.
  intros s Hfail. apply empty_context_same_response.
  destruct (truthy (envValue (Groq.TAVILY_API_KEY cfg))) eqn:T.
  - destruct (searchWebWithTavily_run cfg (get reqBody "message") w T)
      as (tail & ctx & E & _ & Hrej & Hbad & Hjson & _).
    cbv zeta in E, Hrej, Hbad, Hjson. fold s in Hrej, Hbad, Hjson.
    rewrite E. cbn [snd]. f_equal.
    destruct Hfail as [W|(r & W & [O|J])].
    + now apply Hrej.
    + now apply (Hbad r).
    + destruct (ok r) eqn:O; [now apply (Hjson r) | now apply (Hbad r)].
  - now rewrite searchWebWithTavily_disabled.
Qed.

Lemma failing_search_is_absorbed_witness :
  snd (run searchDownWorld
         (Groq.chatHandler (tables := plainTables) bothKeys weatherRequest))
  = snd (run searchDownWorld
           (Groq.chatHandler (tables := plainTables) (withoutSearch bothKeys)
              weatherRequest)).
Proof.
  apply (failing_search_is_absorbed (tables := plainTables) bothKeys weatherRequest
           searchDownWorld).
  right. exists (errorResponse "quota exceeded"). split; [reflexivity|].
  left. reflexivity.
Defined.

(** ** The completion call and the response *)

Section Outcome.
Context {tables : CaseTables}.

(** The response is the one the outcome of the completion call decides. *)
Lemma response_after_completion (cfg : Groq.config) (reqBody : value) (w : world)
    (rq : request) (o : outcome) :
  In (CallEnd rq o) (fst (run w (Groq.chatHandler cfg reqBody))) ->
  url rq = completionEndpoint ->
  snd (run w (Groq.chatHandler cfg reqBody))
  = Ok match o with
       | Rejected => serverError
       | Responded r =>
           if ok r then
             match json r with
             | None => serverError
             | Some data =>
                 if nullish data then serverError
                 else {| status := 200;
                         body := VObj [("reply",
                                   if truthy (firstChoiceContent data)
                                   then firstChoiceContent data
                                   else VStr "No reply from model.")] |}
             end
           else
             match text r with
             | Some t => {| status := 500;
                            body := VObj [ ("error", VStr "Groq API error");
                                           ("details", VStr t) ] |}
             | None => serverError
             end
       end
  /\ In match o with
        | Rejected => crashLine NetworkError
        | Responded r =>
            if ok r then
              match json r with
              | None => crashLine BodyError
              | Some data =>
                  if nullish data then crashLine TypeError else CallEnd rq o
              end
            else
              match text r with
              | Some t => Logged ConsoleError "Groq API error:" (LValue (VStr t))
              | None => crashLine BodyError
              end
        end (fst (run w (Groq.chatHandler cfg reqBody))).
Proof.
  intros Hin Hurl.
  handler_paths cfg reqBody w; rewrite E in Hin |- *; cbn [fst snd] in *.
  - destruct Hin as [Hin|[]]. discriminate.
  - destruct Hin.
  - destruct Hin.
  - destruct Hin as [Hin|[]]. discriminate.
  - assert (Ho : rq = Groq.groqRequest cfg (get reqBody "model")
                        (Groq.buildMessages (get reqBody "system")
                           (get reqBody "message") webInfo)
                 /\ o = w rq).
    { apply in_app_or in Hin as [Hin|[Hin|[Hin|Hin]]].
      - exfalso. apply In_calls in Hin; [|reflexivity].
        destruct (search_step_cases cfg _ w useWeb events webInfo R)
          as [(-> & _)|(_ & _ & _ & C)].
        + destruct Hin.
        + rewrite C in Hin.
          destruct Hin as [Hin|[Hin|[]]]; [discriminate|].
          injection Hin as <- _. discriminate.
      - discriminate.
      - injection Hin as <- <-. auto.
      - exfalso. apply In_calls in Hin; [|reflexivity].
        rewrite calls_relay_tail in Hin. destruct Hin. }
    destruct Ho as [Erq ->]. rewrite <- Erq.
    split; [reflexivity|].
    apply in_or_app. right. right.
    destruct (w rq) as [|[[] txt [data|]]]; cbn [ok json text];
      try destruct (nullish data); try destruct txt;
      first [ now left | now right; left ].
Qed.

End Outcome.

(** X11.  When the completion call ends with a success whose first choice
    carries truthy message content, the endpoint answers with status 200 and
    that content as [reply], unchanged. *)
Theorem reply_is_relayed {tables : CaseTables}
    (cfg : Groq.config) (reqBody : value) (w : world)
    (rq : request) (r : response) (data : value) :
  In (CallEnd rq (Responded r)) (fst (run w (Groq.chatHandler cfg reqBody))) ->
  url rq = completionEndpoint ->
  ok r = true ->
  json r = Some data ->
  truthy (firstChoiceContent data) = true ->
  snd (run w (Groq.chatHandler cfg reqBody))
  = Ok {| status := 200; body := VObj [("reply", firstChoiceContent data)] |}.
Proof.
  intros Hin Hurl Hok Hjson Hcontent.
  destruct (response_after_completion cfg reqBody w rq _ Hin Hurl) as [-> _].
  rewrite Hok, Hjson, Hcontent.
  assert (N : nullish data = false) by (destruct data; try reflexivity; discriminate).
  now rewrite N.
Qed.

Lemma reply_is_relayed_witness :
  snd (run sunnyWorld (Groq.chatHandler (tables := plainTables) bothKeys logoRequest))
  = Ok {| status := 200; body := VObj [("reply", VStr "Bring an umbrella.")] |}.
Proof.
  apply (reply_is_relayed (tables := plainTables) bothKeys logoRequest sunnyWorld
           logoCompletion (jsonResponse (completionData "Bring an umbrella."))
           (completionData "Bring an umbrella.")).
  - vm_compute. right. left. reflexivity.
  - reflexivity.
  - reflexivity.
  - reflexivity.
  - reflexivity.
Defined.

(** X12.  When the completion call cannot be completed or read (the call
    is rejected, the body of an error response cannot be read, the body of a
    success is not JSON or is the JSON value [null]) the handler logs the
    exception and answers with status 500 and the generic error
    ["Server error talking to LLM."], without [details]. *)
Theorem completion_failure_is_server_error {tables : CaseTables}
    (cfg : Groq.config) (reqBody : value) (w : world)
    (rq : request) (o : outcome) :
  In (CallEnd rq o) (fst (run w (Groq.chatHandler cfg reqBody))) ->
  url rq = completionEndpoint ->
  o = Rejected
  \/ (exists r, o = Responded r /\ ok r = false /\ text r = None)
  \/ (exists r, o = Responded r /\ ok r = true /\ json r = None)
  \/ (exists r data, o = Responded r /\ ok r = true /\ json r = Some data
                     /\ nullish data = true) ->
  snd (run w (Groq.chatHandler cfg reqBody))
  = Ok {| status := 500;
          body := VObj [("error", VStr "Server error talking to LLM.")] |}
  /\ exists e,
       In (Logged ConsoleError "❌ Server error talking to LLM:" (LError e))
          (fst (run w (Groq.chatHandler cfg reqBody))).
Proof.
  intros Hin Hurl Hfail.
  destruct (response_after_completion cfg reqBody w rq _ Hin Hurl) as [-> Hlog].
  destruct Hfail as [-> | [(r & -> & O & T) | [(r & -> & O & J) | (r & data & -> & O & J & N)]]];
    cbn [ok json text] in *.
  - split; [reflexivity|]. now exists NetworkError.
  - rewrite O, T in *. split; [reflexivity|]. now exists BodyError.
  - rewrite O, J in *. split; [reflexivity|]. now exists BodyError.
  - rewrite O, J, N in *. split; [reflexivity|]. now exists TypeError.
Qed.

Lemma completion_failure_is_server_error_witness :
  snd (run offline (Groq.chatHandler (tables := plainTables) bothKeys logoRequest))
  = Ok {| status := 500;
          body := VObj [("error", VStr "Server error talking to LLM.")] |}.
Proof.
  apply (completion_failure_is_server_error (tables := plainTables) bothKeys
           logoRequest offline logoCompletion Rejected).
  - vm_compute. right. left. reflexivity.
  - reflexivity.
  - left. reflexivity.
Defined.

(** X13.  The response carries a [details] field only when a call to the
    completion endpoint ended with a response that is not a success, and
    [details] is then the text of that response: nothing the search provider
    says and no exception text reaches the client that way. *)
Theorem details_only_from_provider {tables : CaseTables}
    (cfg : Groq.config) (reqBody : value) (w : world) (res : reply) :
  snd (run w (Groq.chatHandler cfg reqBody)) = Ok res ->
  get (body res) "details" <> VUndefined ->
  exists rq r errorText,
    In (CallEnd rq (Responded r)) (fst (run w (Groq.chatHandler cfg reqBody)))
    /\ url rq = completionEndpoint
    /\ ok r = false
    /\ text r = Some errorText
    /\ res = {| status := 500;
                body := VObj [ ("error", VStr "Groq API error");
                               ("details", VStr errorText) ] |}.
Proof.
  intros Hres Hdetails.
  handler_paths cfg reqBody w; rewrite E in Hres |- *; cbn [fst snd] in *;
    injection Hres as <-; try (now destruct Hdetails).
  remember (Groq.groqRequest cfg (get reqBody "model")
              (Groq.buildMessages (get reqBody "system") (get reqBody "message")
                 webInfo)) as c eqn:Ec.
  destruct (w c) as [|[isOk txt js]] eqn:W; [now destruct Hdetails|].
  exists c, {| ok := isOk; text := txt; json := js |}.
  destruct isOk; cbn [ok json text] in *.
  - exfalso. destruct js as [data|]; [destruct (nullish data)|];
      now destruct Hdetails.
  - destruct txt as [t|]; [|now destruct Hdetails].
    exists t. repeat split; try (subst c; reflexivity).
    apply in_or_app. right. right. left. reflexivity.
Qed.

Lemma details_only_from_provider_witness :
  exists rq r errorText,
    In (CallEnd rq (Responded r))
       (fst (run throttledWorld
               (Groq.chatHandler (tables := plainTables) bothKeys logoRequest)))
    /\ url rq = completionEndpoint
    /\ ok r = false
    /\ text r = Some errorText
    /\ {| status := 500;
          body := VObj [ ("error", VStr "Groq API error");
                         ("details", VStr "rate limit exceeded") ] |}
       = {| status := 500;
            body := VObj [ ("error", VStr "Groq API error");
                           ("details", VStr errorText) ] |}.
Proof.
  apply (details_only_from_provider (tables := plainTables) bothKeys logoRequest
           throttledWorld).
  - reflexivity.
  - discriminate.
Defined.

(** X14.  A response with status 200 is given only after a call to the
    completion endpoint ended with a success whose body is JSON other than
    [null]; its body is a [reply] that is never missing or empty: it is the
    content of the first choice, or the placeholder
    ["No reply from model."]. *)
Theorem success_means_provider_success {tables : CaseTables}
    (cfg : Groq.config) (reqBody : value) (w : world) (res : reply) :
  snd (run w (Groq.chatHandler cfg reqBody)) = Ok res ->
  status res = 200 ->
  exists rq r data answer,
    In (CallEnd rq (Responded r)) (fst (run w (Groq.chatHandler cfg reqBody)))
    /\ url rq = completionEndpoint
    /\ ok r = true
    /\ json r = Some data
    /\ nullish data = false
    /\ body res = VObj [("reply", answer)]
    /\ truthy answer = true
    /\ (answer = firstChoiceContent data \/ answer = VStr "No reply from model.").
Proof.
  intros Hres Hstatus.
  handler_paths cfg reqBody w; rewrite E in Hres |- *; cbn [fst snd] in *;
    injection Hres as <-; try discriminate.
  remember (Groq.groqRequest cfg (get reqBody "model")
              (Groq.buildMessages (get reqBody "system") (get reqBody "message")
                 webInfo)) as c eqn:Ec.
  destruct (w c) as [|[isOk txt js]] eqn:W; [discriminate|].
  destruct isOk; cbn [ok json text] in *;
    [|destruct txt; discriminate].
  destruct js as [data|]; [|discriminate].
  destruct (nullish data) eqn:Nd; [discriminate|].
  exists c, {| ok := true; text := txt; json := Some data |}, data.
  exists (if truthy (firstChoiceContent data) then firstChoiceContent data
          else VStr "No reply from model.").
  repeat split; try (subst c; reflexivity); auto.
  - apply in_or_app. right. right. left. reflexivity.
  - destruct (truthy (firstChoiceContent data)) eqn:T; [exact T | reflexivity].
  - destruct (truthy (firstChoiceContent data)); auto.
Qed.

Lemma success_means_provider_success_witness :
  exists rq r data answer,
    In (CallEnd rq (Responded r))
       (fst (run muteWorld
               (Groq.chatHandler (tables := plainTables) bothKeys logoRequest)))
    /\ url rq = completionEndpoint
    /\ ok r = true
    /\ json r = Some data
    /\ nullish data = false
    /\ VObj [("reply", VStr "No reply from model.")] = VObj [("reply", answer)]
    /\ truthy answer = true
    /\ (answer = firstChoiceContent data \/ answer = VStr "No reply from model.").
Proof.
  apply (success_means_provider_success (tables := plainTables) bothKeys logoRequest
           muteWorld
           {| status := 200; body := VObj [("reply", VStr "No reply from model.")] |});
    reflexivity.
Defined.

(** ** More on the web search client *)

(** The only exception [ToString] throws is a [TypeError]. *)
Lemma ToString_raises (v : value) (e : exn) :
  ToString v = Raise e -> e = TypeError.
Proof.
  revert v e. fix IH 1. intros v e.
  destruct v as [| |[]| | |items|props]; cbn [ToString]; try discriminate.
  - induction items as [|x rest IHrest]; [discriminate|].
    destruct (nullish x) eqn:Nx.
    + cbn [rbind]. destruct rest as [|y rest']; [discriminate|].
      destruct ((fix elements (l : list value) : result string :=
                   match l with
                   | [] => Ok ""
                   | x0 :: rest0 =>
                       rbind (if nullish x0 then Ok "" else ToString x0)
                         (fun sx =>
                            match rest0 with
                            | [] => Ok sx
                            | _ :: _ => rbind (elements rest0)
                                          (fun sr => Ok (sx ++ "," ++ sr))
                            end)
                   end) (y :: rest')) as [sr|e'] eqn:Er; cbn [rbind].
      * discriminate.
      * intros H. injection H as <-. now apply IHrest.
    + destruct (ToString x) as [sx|ex] eqn:Ex; cbn [rbind].
      * destruct rest as [|y rest']; [discriminate|].
        destruct ((fix elements (l : list value) : result string :=
                     match l with
                     | [] => Ok ""
                     | x0 :: rest0 =>
                         rbind (if nullish x0 then Ok "" else ToString x0)
                           (fun sx =>
                              match rest0 with
                              | [] => Ok sx
                              | _ :: _ => rbind (elements rest0)
                                            (fun sr => Ok (sx ++ "," ++ sr))
                              end)
                     end) (y :: rest')) as [sr|e'] eqn:Er; cbn [rbind].
        -- discriminate.
        -- intros H. injection H as <-. now apply IHrest.
      * intros H. injection H as <-. exact (IH x ex Ex).
  - destruct (assoc "toString" props); [|discriminate].
    intros H. now injection H as <-.
Qed.

Lemma renderResult_raises (r : value) (e : exn) :
  Groq.renderResult r = Raise e -> e = TypeError.
Proof.
  unfold Groq.renderResult, getProp.
  destruct (nullish r); cbn [rbind]; [intros H; now injection H as <-|].
  destruct (ToString (get r "title")) eqn:E1; cbn [rbind];
    [|intros H; injection H as <-; exact (ToString_raises _ _ E1)].
  destruct (ToString (get r "url")) eqn:E2; cbn [rbind];
    [|intros H; injection H as <-; exact (ToString_raises _ _ E2)].
  destruct (ToString (get r "content")) eqn:E3; cbn [rbind];
    [discriminate|intros H; injection H as <-; exact (ToString_raises _ _ E3)].
Qed.

Lemma mapResult_render_raises (items : list value) (e : exn) :
  Groq.mapResult Groq.renderResult items = Raise e -> e = TypeError.
Proof.
  induction items as [|x rest IH]; cbn [Groq.mapResult]; [discriminate|].
  destruct (Groq.renderResult x) eqn:E1; cbn [rbind];
    [|intros H; injection H as <-; exact (renderResult_raises _ _ E1)].
  destruct (Groq.mapResult Groq.renderResult rest) eqn:E2; cbn [rbind];
    [discriminate|intros H; injection H as <-; now apply IH].
Qed.

Lemma mapResult_render_nullish (items : list value) :
  (exists x, In x items /\ nullish x = true) ->
  exists e, Groq.mapResult Groq.renderResult items = Raise e.
Proof.
  intros (x & Hin & Nx). induction items as [|y rest IH]; [destruct Hin|].
  cbn [Groq.mapResult]. destruct Hin as [->|Hin].
  - unfold Groq.renderResult, getProp. rewrite Nx. cbn [rbind]. eauto.
  - destruct (Groq.renderResult y); cbn [rbind]; [|eauto].
    destruct (IH Hin) as [e ->]. cbn [rbind]. eauto.
Qed.

(** Lines 91 to 100 in terms of the two properties they read. *)
Lemma formatContext_unfold (data : value) :
  nullish data = false ->
  Groq.formatContext data
  = rbind (if truthy (get data "answer")
           then rbind (ToString (get data "answer"))
                  (fun a => Ok ("Answer: " ++ a ++ nl ++ nl))
           else Ok "")
      (fun answer =>
         rbind match (if truthy (get data "results") then get data "results"
                      else VArr []) with
               | VArr items =>
                   rbind (Groq.mapResult Groq.renderResult (firstn 3 items))
                     (fun bullets => Ok (join (nl ++ nl) bullets))
               | _ => Raise TypeError
               end
           (fun results => Ok (answer ++ results))).
Proof.
  intros N. unfold Groq.formatContext, getProp. rewrite N. reflexivity.
Qed.

Lemma formatContext_raises (data : value) (e : exn) :
  Groq.formatContext data = Raise e -> e = TypeError.
Proof.
  destruct (nullish data) eqn:N.
  { unfold Groq.formatContext, getProp. rewrite N. cbn [rbind].
    intros H. now injection H as <-. }
  rewrite formatContext_unfold by assumption.
  destruct (truthy (get data "answer")).
  - destruct (ToString (get data "answer")) eqn:Ea; cbn [rbind];
      [|intros H; injection H as <-; exact (ToString_raises _ _ Ea)].
    destruct (if truthy (get data "results") then get data "results" else VArr [])
      as [| | | | |items|]; cbn [rbind];
      try (intros H; now injection H as <-).
    destruct (Groq.mapResult Groq.renderResult (firstn 3 items)) eqn:Em; cbn [rbind];
      [discriminate|intros H; injection H as <-; exact (mapResult_render_raises _ _ Em)].
  - cbn [rbind].
    destruct (if truthy (get data "results") then get data "results" else VArr [])
      as [| | | | |items|]; cbn [rbind];
      try (intros H; now injection H as <-).
    destruct (Groq.mapResult Groq.renderResult (firstn 3 items)) eqn:Em; cbn [rbind];
      [discriminate|intros H; injection H as <-; exact (mapResult_render_raises _ _ Em)].
Qed.

(** The search, outcome by outcome. *)
Lemma searchWebWithTavily_outcome (cfg : Groq.config) (query : value) (w : world) :
  truthy (envValue (Groq.TAVILY_API_KEY cfg)) = true ->
  let s := Groq.tavilyRequest cfg query in
  let failed := fun e => Logged ConsoleError "Tavily search failed:" (LError e) in
  run w (Groq.searchWebWithTavily cfg query)
  = (Logged ConsoleLog "🌐 Tavily search for:" (LValue query)
       :: CallBegin s :: CallEnd s (w s)
       :: match w s with
          | Rejected => [failed NetworkError]
          | Responded r =>
              if ok r then
                match json r with
                | None => [failed BodyError]
                | Some data =>
                    match Groq.formatContext data with
                    | Ok _ => []
                    | Raise e => [failed e]
                    end
                end
              else
                match text r with
                | Some t => [Logged ConsoleError "Tavily error:" (LValue (VStr t))]
                | None => [failed BodyError]
                end
          end,
     Ok match w s with
        | Rejected => ""
        | Responded r =>
            if ok r then
              match json r with
              | None => ""
              | Some data =>
                  match Groq.formatContext data with
                  | Ok c => c
                  | Raise _ => ""
                  end
              end
            else ""
        end).
Proof.
  intros K s failed. unfold Groq.searchWebWithTavily. rewrite K. fold s.
  program_step.
  destruct (w s) as [|[[] [t|] [data|]]]; program_step; try reflexivity;
    destruct (Groq.formatContext data); reflexivity.
Qed.

(** X15.  With a credential, one search is exactly one call to Tavily,
    whatever the provider does: the call is announced on the console, begins
    and ends, and is never repeated. *)
Theorem search_calls_once (cfg : Groq.config) (query : value) (w : world) :
  truthy (envValue (Groq.TAVILY_API_KEY cfg)) = true ->
  let s := Groq.tavilyRequest cfg query in
  calls (fst (run w (Groq.searchWebWithTavily cfg query)))
  = [CallBegin s; CallEnd s (w s)]
  /\ exists rest,
       fst (run w (Groq.searchWebWithTavily cfg query))
       = Logged ConsoleLog "🌐 Tavily search for:" (LValue query)
           :: CallBegin s :: CallEnd s (w s) :: rest
       /\ (length rest <= 1)%nat.
Proof.
  intros K s. rewrite (searchWebWithTavily_outcome cfg query w K). cbn [fst].
  fold s. split.
  - unfold calls. cbn [filter isCall]. do 2 f_equal.
    destruct (w s) as [|[[] [t|] [data|]]]; cbn [ok json text]; try reflexivity;
      destruct (Groq.formatContext data); reflexivity.
  - eexists. split; [reflexivity|].
    destruct (w s) as [|[[] [t|] [data|]]]; cbn [ok json text length]; try lia;
      destruct (Groq.formatContext data); cbn [length]; lia.
Qed.

Lemma search_calls_once_witness :
  calls (fst (run offline (Groq.searchWebWithTavily bothKeys (VStr "latest news"))))
  = [ CallBegin (Groq.tavilyRequest bothKeys (VStr "latest news"));
      CallEnd (Groq.tavilyRequest bothKeys (VStr "latest news")) Rejected ].
Proof.
  apply (search_calls_once bothKeys (VStr "latest news") offline). reflexivity.
Defined.

(** X16.  A failure of the search leaves one line on the error console: the
    text of the provider's response when the response is not a success, the
    exception when the call is rejected.  A search that succeeds leaves
    none. *)
Theorem search_failure_is_logged (cfg : Groq.config) (query : value) (w : world) :
  truthy (envValue (Groq.TAVILY_API_KEY cfg)) = true ->
  let s := Groq.tavilyRequest cfg query in
  let begun := [ Logged ConsoleLog "🌐 Tavily search for:" (LValue query);
                 CallBegin s; CallEnd s (w s) ] in
  (w s = Rejected ->
   fst (run w (Groq.searchWebWithTavily cfg query))
   = (begun ++ [Logged ConsoleError "Tavily search failed:" (LError NetworkError)])%list)
  /\ (forall r t, w s = Responded r -> ok r = false -> text r = Some t ->
      fst (run w (Groq.searchWebWithTavily cfg query))
      = (begun ++ [Logged ConsoleError "Tavily error:" (LValue (VStr t))])%list)
  /\ (forall r data c, w s = Responded r -> ok r = true -> json r = Some data ->
      Groq.formatContext data = Ok c ->
      run w (Groq.searchWebWithTavily cfg query) = (begun, Ok c)).
Proof.
  intros K s begun. rewrite (searchWebWithTavily_outcome cfg query w K).
  fold s. subst begun. cbn [fst app]. split; [|split].
  - intros W. now rewrite W.
  - intros r t W O T. now rewrite W, O, T.
  - intros r data c W O J F. now rewrite W, O, J, F.
Qed.

Lemma search_failure_is_logged_witness :
  fst (run searchDownWorld (Groq.searchWebWithTavily bothKeys (VStr weatherQuestion)))
  = [ Logged ConsoleLog "🌐 Tavily search for:" (LValue (VStr weatherQuestion));
      CallBegin (Groq.tavilyRequest bothKeys (VStr weatherQuestion));
      CallEnd (Groq.tavilyRequest bothKeys (VStr weatherQuestion))
              (Responded (errorResponse "quota exceeded"));
      Logged ConsoleError "Tavily error:" (LValue (VStr "quota exceeded")) ].
Proof.
  destruct (search_failure_is_logged bothKeys (VStr weatherQuestion) searchDownWorld)
    as (_ & H & _); [reflexivity|].
  apply (H (errorResponse "quota exceeded") "quota exceeded"); reflexivity.
Defined.

Lemma formatContext_malformed (data : value) :
  nullish data = true
  \/ (truthy (get data "results") = true
      /\ forall items, get data "results" <> VArr items)
  \/ (exists items x, get data "results" = VArr items
                      /\ In x (firstn 3 items) /\ nullish x = true) ->
  Groq.formatContext data = Raise TypeError.
Proof.
  intros H.
  assert (He : exists e, Groq.formatContext data = Raise e).
  { destruct (nullish data) eqn:N.
    { unfold Groq.formatContext, getProp. rewrite N. cbn [rbind]. eauto. }
    rewrite formatContext_unfold by assumption.
    destruct (if truthy (get data "answer")
              then rbind (ToString (get data "answer"))
                     (fun a => Ok ("Answer: " ++ a ++ nl ++ nl))
              else Ok "") as [lead|e]; cbn [rbind]; [|eauto].
    destruct H as [H|[(T & Hna)|(items & x & Er & Hin & Nx)]]; [discriminate| |].
    - rewrite T. destruct (get data "results") as [| | | | |items|];
        cbn [rbind]; eauto.
      now destruct (Hna items).
    - rewrite Er. cbn [truthy].
      destruct (mapResult_render_nullish (firstn 3 items)) as [e ->]; [eauto|].
      cbn [rbind]. eauto. }
  destruct He as [e He]. rewrite He. f_equal.
  exact (formatContext_raises _ _ He).
Qed.

(** X17.  A successful response that does not have the documented shape
    (the body is [null], [results] is something truthy that is not an array,
    or one of the first three results is [null]) makes the formatting throw a
    [TypeError]; the search logs it and returns the empty string. *)
Theorem malformed_search_response (cfg : Groq.config) (query : value) (w : world)
    (r : response) (data : value) :
  truthy (envValue (Groq.TAVILY_API_KEY cfg)) = true ->
  w (Groq.tavilyRequest cfg query) = Responded r ->
  ok r = true ->
  json r = Some data ->
  nullish data = true
  \/ (truthy (get data "results") = true
      /\ forall items, get data "results" <> VArr items)
  \/ (exists items x, get data "results" = VArr items
                      /\ In x (firstn 3 items) /\ nullish x = true) ->
  Groq.formatContext data = Raise TypeError
  /\ run w (Groq.searchWebWithTavily cfg query)
     = ([ Logged ConsoleLog "🌐 Tavily search for:" (LValue query);
          CallBegin (Groq.tavilyRequest cfg query);
          CallEnd (Groq.tavilyRequest cfg query) (Responded r);
          Logged ConsoleError "Tavily search failed:" (LError TypeError) ],
        Ok "").
Proof.
  intros K W O J Hbad.
  pose proof (formatContext_malformed data Hbad) as F.
  split; [exact F|].
  rewrite (searchWebWithTavily_outcome cfg query w K). cbv zeta.
  now rewrite W, O, J, F.
Qed.

Lemma malformed_search_response_witness :
  snd (run brokenSearchWorld (Groq.searchWebWithTavily bothKeys (VStr weatherQuestion)))
  = Ok "".
Proof.
  destruct (malformed_search_response bothKeys (VStr weatherQuestion) brokenSearchWorld
              (jsonResponse
                 (VObj [("results",
                         VArr [hitValue {| hitTitle := "T1"; hitUrl := "U1";
                                           hitContent := "C1" |};
                               VNull])]))
              (VObj [("results",
                      VArr [hitValue {| hitTitle := "T1"; hitUrl := "U1";
                                        hitContent := "C1" |};
                            VNull])])) as [_ H];
    [reflexivity | reflexivity | reflexivity | reflexivity | | now rewrite H].
  right. right. eexists. exists VNull. split; [reflexivity|].
  split; [|reflexivity]. cbn. right. left. reflexivity.
Defined.

(** X18.  The context depends on the response only through its [answer] and
    the first three entries of [results]: other properties and any entry from
    the fourth on, well-formed or not, change nothing. *)
Theorem context_reads_first_three_only (data : value) (items : list value) :
  nullish data = false ->
  get data "results" = VArr items ->
  Groq.formatContext data
  = Groq.formatContext (VObj [ ("answer", get data "answer");
                               ("results", VArr (firstn 3 items)) ]).
Proof.
  intros N Er. rewrite !formatContext_unfold by (assumption || reflexivity).
  cbn [get assoc String.eqb Ascii.eqb Bool.eqb].
  rewrite Er. cbn [truthy]. now rewrite firstn_firstn.
Qed.

Lemma context_reads_first_three_only_witness :
  Groq.formatContext crowdedData
  = Groq.formatContext (VObj [("answer", VUndefined); ("results", VArr threeResults)]).
Proof.
  exact (context_reads_first_three_only crowdedData (threeResults ++ [VNull])%list
           eq_refl eq_refl).
Defined.

Lemma join_nonempty (sep first : string) (rest : list string) :
  first <> "" -> join sep (first :: rest) <> "".
Proof.
  intros H. destruct first as [|c first]; [contradiction|].
  destruct rest; cbn; discriminate.
Qed.

Lemma append_empty_iff (a b : string) : a ++ b = "" <-> a = "" /\ b = "".
Proof.
  split.
  - destruct a; cbn; [auto | discriminate].
  - intros [-> ->]. reflexivity.
Qed.

(** X19.  For a response of the documented shape the context is empty
    exactly when there is no answer (or an empty one) and no result: whenever
    the provider gives an answer or at least one result, the search returns
    text. *)
Theorem context_empty_iff (answer : option string) (results : option (list searchHit)) :
  Groq.formatContext (tavilyData answer results) = Ok ""
  <-> (answer = None \/ answer = Some "") /\ (results = None \/ results = Some []).
Proof.
  rewrite formatContext_tavilyData. unfold specContext. split.
  - intros H. injection H as H. apply append_empty_iff in H as [Hlead Hrest].
    split.
    + destruct answer as [a|]; [|auto]. right. cbn in Hlead.
      destruct (String.eqb a "") eqn:Ea; [|discriminate].
      apply String.eqb_eq in Ea. now subst.
    + destruct results as [[|h hits]|]; auto.
      exfalso. cbn [firstn map] in Hrest. revert Hrest.
      apply join_nonempty. discriminate.
  - intros [[-> | ->] [-> | ->]]; reflexivity.
Qed.

(** ** More on the augmentation decider *)

Lemma eqb_empty_mapString (f : ascii -> ascii) (s : string) :
  String.eqb (mapString f s) "" = String.eqb s "".
Proof. now destruct s. Qed.

(** X20.  On ASCII text the decision does not look at the case of letters:
    two messages that differ only in case get the same answer. *)
Theorem shouldUseWeb_ignores_case {tables : CaseTables} (m m' : string) :
  allAscii m = true ->
  allAscii m' = true ->
  sameIgnoringCase m m' ->
  Groq.shouldUseWeb (VStr m) = Groq.shouldUseWeb (VStr m').
Proof.
  intros A A' Hsame. rewrite !shouldUseWeb_string. unfold toLowerCase.
  rewrite !lowerFrom_ascii by assumption. red in Hsame.
  rewrite <- (eqb_empty_mapString asciiLower m), <- (eqb_empty_mapString asciiLower m').
  now rewrite Hsame.
Qed.

Lemma shouldUseWeb_ignores_case_witness :
  Groq.shouldUseWeb (tables := plainTables) (VStr "Latest NEWS, please")
  = Groq.shouldUseWeb (tables := plainTables) (VStr "latest news, PLEASE").
Proof.
  apply (shouldUseWeb_ignores_case (tables := plainTables)); reflexivity.
Defined.

(** X21.  The decision looks at substrings only: an ASCII message that
    triggers the search still triggers it when any text, ASCII or not, is put
    before and after it. *)
Theorem shouldUseWeb_survives_embedding {tables : CaseTables} (m pre suf : string) :
  allAscii m = true ->
  Groq.shouldUseWeb (VStr m) = Ok true ->
  Groq.shouldUseWeb (VStr (pre ++ m ++ suf)) = Ok true.
Proof.
  intros A H. apply shouldUseWeb_true_iff in H as [Hm (word & Hin & Hocc)].
  apply shouldUseWeb_true_iff. split.
  - intros E. apply append_empty_iff in E as [_ E].
    apply append_empty_iff in E as [E _]. contradiction.
  - exists word. split; [assumption|].
    apply OccursIgnoringCase_lowered; [assumption|].
    destruct (Occurs_lowered_ascii word m Hin A Hocc) as (p & mid & s & -> & Hsame).
    exists (pre ++ p), mid, (s ++ suf). split; [|assumption].
    now rewrite !append_assoc3.
Qed.

Lemma shouldUseWeb_survives_embedding_witness :
  Groq.shouldUseWeb (tables := plainTables) (VStr ("Hola, " ++ "any news" ++ " por favor?"))
  = Ok true.
Proof.
  apply (shouldUseWeb_survives_embedding (tables := plainTables)); reflexivity.
Defined.

(** ** The DeepSeek variant, path by path *)

Lemma deepseek_search_as_groq (cfg : DeepSeek.config) (query : value) :
  DeepSeek.searchWebWithTavily cfg query = Groq.searchWebWithTavily (asGroq cfg) query.
Proof. reflexivity. Qed.

Lemma deepseekRelay_outcome (cfg : DeepSeek.config) (model system message : value)
    (webInfo : string) (w : world) :
  let c := DeepSeek.deepseekRequest cfg model
             (DeepSeek.buildMessages system message webInfo) in
  run w (tryCatch (deepseekRelay cfg model system message webInfo) deepseekOnError)
  = (CallBegin c :: CallEnd c (w c)
       :: match w c with
          | Rejected => [crashLine NetworkError]
          | Responded r =>
              if ok r then
                match json r with
                | None => [crashLine BodyError]
                | Some data => if nullish data then [crashLine TypeError] else []
                end
              else
                match text r with
                | Some t => [Logged ConsoleError "DeepSeek API error:" (LValue (VStr t))]
                | None => [crashLine BodyError]
                end
          end,
     Ok match w c with
        | Rejected => serverError
        | Responded r =>
            if ok r then
              match json r with
              | None => serverError
              | Some data =>
                  if nullish data then serverError
                  else {| status := 200;
                          body := VObj [("reply",
                                    if truthy (firstChoiceContent data)
                                    then firstChoiceContent data
                                    else VStr "No reply from model.")] |}
              end
            else
              match text r with
              | Some t => {| status := 500;
                             body := VObj [ ("error", VStr "DeepSeek API error");
                                            ("details", VStr t) ] |}
              | None => serverError
              end
        end).
Proof.
  intros c. unfold deepseekRelay, deepseekOnError. cbv zeta. fold c. program_step.
  destruct (w c) as [|[isOk txt js]];
    [|destruct isOk; [destruct js as [data|]; [destruct (nullish data) eqn:N|]
                     |destruct txt as [t|]]];
    program_step; unfold getProp; try rewrite N; program_step;
    try reflexivity.
  unfold firstChoiceContent. rewrite !getOpt_get. reflexivity.
Qed.

Section DeepSeekPaths.
Context {tables : CaseTables}.

Lemma deepseek_halves (cfg : DeepSeek.config) (reqBody : value) :
  DeepSeek.chatHandler cfg reqBody
  = tryCatch
      (model <- lift (getProp reqBody "model") ;;
       system <- lift (getProp reqBody "system") ;;
       message <- lift (getProp reqBody "message") ;;
       if negb (truthy (envValue (DeepSeek.DEEPSEEK_API_KEY cfg))) then
         Ret {| status := 500;
                body := VObj [("error", VStr "DEEPSEEK_API_KEY not set on server.")] |}
       else if negb (truthy model) || negb (truthy message) then
         Ret {| status := 400;
                body := VObj [("error", VStr "model and message are required.")] |}
       else
         useWeb <- lift (DeepSeek.shouldUseWeb message) ;;
         webInfo <- (if useWeb then DeepSeek.searchWebWithTavily cfg message
                     else Ret "") ;;
         deepseekRelay cfg model system message webInfo)%prog
      deepseekOnError.
Proof. reflexivity. Qed.

(** The five ways through the DeepSeek handler. *)
Lemma deepseek_paths (cfg : DeepSeek.config) (reqBody : value) (w : world) :
  let model := get reqBody "model" in
  let system := get reqBody "system" in
  let message := get reqBody "message" in
  (nullish reqBody = true
   /\ run w (DeepSeek.chatHandler cfg reqBody) = ([crashLine TypeError], Ok serverError))
  \/ (nullish reqBody = false
      /\ truthy (envValue (DeepSeek.DEEPSEEK_API_KEY cfg)) = false
      /\ run w (DeepSeek.chatHandler cfg reqBody)
         = ([], Ok {| status := 500;
                      body := VObj [("error",
                                VStr "DEEPSEEK_API_KEY not set on server.")] |}))
  \/ (nullish reqBody = false
      /\ truthy (envValue (DeepSeek.DEEPSEEK_API_KEY cfg)) = true
      /\ (truthy model = false \/ truthy message = false)
      /\ run w (DeepSeek.chatHandler cfg reqBody) = ([], Ok invalidRequest))
  \/ (nullish reqBody = false
      /\ truthy (envValue (DeepSeek.DEEPSEEK_API_KEY cfg)) = true
      /\ truthy model = true /\ truthy message = true
      /\ (forall s, message <> VStr s)
      /\ run w (DeepSeek.chatHandler cfg reqBody)
         = ([crashLine TypeError], Ok serverError))
  \/ (exists useWeb events webInfo,
        nullish reqBody = false
        /\ truthy (envValue (DeepSeek.DEEPSEEK_API_KEY cfg)) = true
        /\ truthy model = true /\ truthy message = true
        /\ Groq.shouldUseWeb message = Ok useWeb
        /\ run w (if useWeb then Groq.searchWebWithTavily (asGroq cfg) message
                  else Ret "") = (events, Ok webInfo)
        /\ run w (DeepSeek.chatHandler cfg reqBody)
           = ((events
               ++ fst (run w (tryCatch (deepseekRelay cfg model system message webInfo)
                                deepseekOnError)))%list,
              snd (run w (tryCatch (deepseekRelay cfg model system message webInfo)
                            deepseekOnError)))).
Proof.
  intros model system message. subst model system message.
  rewrite deepseek_halves. unfold getProp.
  destruct (nullish reqBody) eqn:N.
  { left. split; reflexivity. }
  right. cbn [lift bind].
  destruct (truthy (envValue (DeepSeek.DEEPSEEK_API_KEY cfg))) eqn:K; cbn [negb].
  2:{ left. repeat split. }
  right.
  destruct (truthy (get reqBody "model")) eqn:M; cbn [negb orb].
  2:{ left. repeat split; auto. }
  destruct (truthy (get reqBody "message")) eqn:U; cbn [negb orb].
  2:{ left. repeat split; auto. }
  right.
  change (DeepSeek.shouldUseWeb (get reqBody "message"))
    with (Groq.shouldUseWeb (get reqBody "message")).
  destruct (Groq.shouldUseWeb (get reqBody "message")) as [useWeb|e] eqn:S.
  - right. cbn [lift bind].
    destruct (search_step_run (asGroq cfg) (get reqBody "message") w useWeb)
      as (events & webInfo & R & _).
    exists useWeb, events, webInfo. repeat split; auto.
    rewrite run_tryCatch, run_bind.
    change (DeepSeek.searchWebWithTavily cfg (get reqBody "message"))
      with (Groq.searchWebWithTavily (asGroq cfg) (get reqBody "message")).
    rewrite R. cbn [andThen]. rewrite run_tryCatch.
    destruct (run w (deepseekRelay cfg (get reqBody "model") (get reqBody "system")
                       (get reqBody "message") webInfo)) as [t [a|x]];
      cbn [orElse fst snd]; [reflexivity|].
    destruct (run w (deepseekOnError x)) as [t' r'].
    cbn [fst snd]. now rewrite app_assoc.
  - left. destruct (shouldUseWeb_raises _ _ S) as (-> & _ & Hns).
    repeat split; auto.
Qed.

End DeepSeekPaths.

(** X22.  In the DeepSeek variant the model named in a completion request
    is always the truthy [model] of the chat request: the fallback
    ["deepseek-chat"] written in the payload is never what is sent, because a
    request without [model] has been turned down before. *)
Theorem deepseek_model_fallback_unused {tables : CaseTables}
    (cfg : DeepSeek.config) (reqBody : value) (w : world) (e : event) (rq : request) :
  In e (fst (run w (DeepSeek.chatHandler cfg reqBody))) ->
  requestOf e = Some rq ->
  url rq = deepseekEndpoint ->
  truthy (get reqBody "model") = true
  /\ get (payload rq) "model" = get reqBody "model".
Proof.
  intros Hin Hreq Hurl.
  assert (Hcall : isCall e = true) by (destruct e; [reflexivity..|discriminate]).
  destruct (deepseek_paths cfg reqBody w)
    as [(N & E)
       |[(N & K & E)
        |[(N & K & V & E)
         |[(N & K & M & U & Hns & E)
          |(useWeb & events & webInfo & N & K & M & U & S & R & E)]]]];
    rewrite E in Hin; cbn [fst] in Hin.
  - destruct Hin as [<-|[]]. discriminate.
  - destruct Hin.
  - destruct Hin.
  - destruct Hin as [<-|[]]. discriminate.
  - split; [exact M|].
    rewrite deepseekRelay_outcome in Hin. cbn [fst] in Hin.
    apply in_app_or in Hin as [Hin|[Hin|[Hin|Hin]]].
    + exfalso. apply In_calls in Hin; [|exact Hcall].
      destruct (search_step_cases (asGroq cfg) _ w useWeb events webInfo R)
        as [(-> & _)|(_ & _ & _ & C)].
      * destruct Hin.
      * rewrite C in Hin.
        destruct Hin as [<-|[<-|[]]]; cbn [requestOf] in Hreq;
          injection Hreq as <-; discriminate.
    + subst e. cbn [requestOf] in Hreq. injection Hreq as <-.
      cbn. now rewrite M.
    + subst e. cbn [requestOf] in Hreq. injection Hreq as <-.
      cbn. now rewrite M.
    + exfalso. apply In_calls in Hin; [|exact Hcall]. revert Hin.
      destruct (w _) as [|[[] [t|] [data|]]]; cbn; try tauto;
        destruct (nullish data); cbn; tauto.
Qed.

Lemma deepseek_model_fallback_unused_witness :
  truthy (get logoRequest "model") = true
  /\ get (payload logoDeepseekCompletion) "model" = get logoRequest "model".
Proof.
  apply (deepseek_model_fallback_unused (tables := plainTables) deepseekKeys
           logoRequest sunnyWorld (CallBegin logoDeepseekCompletion)).
  - vm_compute. left. reflexivity.
  - reflexivity.
  - reflexivity.
Defined.

Lemma search_run_same_outcome (cfg : Groq.config) (query : value) (w w' : world) :
  w (Groq.tavilyRequest cfg query) = w' (Groq.tavilyRequest cfg query) ->
  run w (Groq.searchWebWithTavily cfg query)
  = run w' (Groq.searchWebWithTavily cfg query).
Proof.
  intros H. destruct (truthy (envValue (Groq.TAVILY_API_KEY cfg))) eqn:K.
  - rewrite !searchWebWithTavily_outcome by assumption. cbv zeta. now rewrite H.
  - now rewrite searchWebWithTavily_disabled.
Qed.

(** X23.  The two variants answer alike.  Given the same credentials, the
    same request, a search provider that behaves the same and completion
    providers that answer corresponding requests in the same way, the Groq
    handler and the DeepSeek handler give responses with the same status, the
    same [reply] and the same [details], after the same number of outbound
    calls; they differ only in the provider named in error texts. *)
Theorem variants_respond_alike {tables : CaseTables}
    (cfg : DeepSeek.config) (reqBody : value) (wg wd : world) :
  (forall rq, url rq = searchEndpoint -> wd rq = wg rq) ->
  (forall model messages,
      wd (DeepSeek.deepseekRequest cfg model messages)
      = wg (Groq.groqRequest (asGroq cfg) model messages)) ->
  exists rg rd,
    snd (run wg (Groq.chatHandler (asGroq cfg) reqBody)) = Ok rg
    /\ snd (run wd (DeepSeek.chatHandler cfg reqBody)) = Ok rd
    /\ status rg = status rd
    /\ get (body rg) "reply" = get (body rd) "reply"
    /\ get (body rg) "details" = get (body rd) "details"
    /\ length (calls (fst (run wg (Groq.chatHandler (asGroq cfg) reqBody))))
       = length (calls (fst (run wd (DeepSeek.chatHandler cfg reqBody)))).
Proof.
  intros Hsearch Hcompletion.
  destruct (deepseek_paths cfg reqBody wd)
    as [(N & E)
       |[(N & K & E)
        |[(N & K & V & E)
         |[(N & K & M & U & Hns & E)
          |(useWeb & events & webInfo & N & K & M & U & S & R & E)]]]];
    rewrite E; cbn [fst snd].
  - rewrite chatHandler_absent_body by assumption.
    do 2 eexists. repeat split.
  - rewrite chatHandler_no_key by assumption.
    do 2 eexists. repeat split.
  - rewrite chatHandler_invalid by assumption.
    do 2 eexists. repeat split.
  - rewrite (chatHandler_decider_throws (asGroq cfg) reqBody wg TypeError N K M U
               (shouldUseWeb_non_string _ U Hns)).
    do 2 eexists. repeat split.
  - assert (R' : run wg (if useWeb
                         then Groq.searchWebWithTavily (asGroq cfg)
                                (get reqBody "message")
                         else Ret "") = (events, Ok webInfo)).
    { destruct useWeb; [|exact R].
      rewrite <- R. apply search_run_same_outcome.
      symmetry. now apply Hsearch. }
    rewrite (chatHandler_served (asGroq cfg) reqBody wg useWeb events webInfo
               N K M U S R').
    rewrite groqRelay_outcome, deepseekRelay_outcome. cbn [fst snd].
    change (DeepSeek.buildMessages (get reqBody "system") (get reqBody "message")
              webInfo)
      with (Groq.buildMessages (get reqBody "system") (get reqBody "message")
              webInfo).
    rewrite Hcompletion.
    unfold calls. rewrite !filter_app, !length_app. cbn [filter isCall length].
    destruct (wg _) as [|[[] [t|] [data|]]]; cbn [ok json text];
      try destruct (nullish data);
      do 2 eexists; repeat split.
Qed.

Lemma variants_respond_alike_witness :
  exists rg rd,
    snd (run sunnyWorld (Groq.chatHandler (tables := plainTables)
                           (asGroq deepseekKeys) weatherRequest)) = Ok rg
    /\ snd (run sunnyWorld (DeepSeek.chatHandler (tables := plainTables)
                              deepseekKeys weatherRequest)) = Ok rd
    /\ status rg = status rd
    /\ get (body rg) "reply" = get (body rd) "reply"
    /\ get (body rg) "details" = get (body rd) "details"
    /\ length (calls (fst (run sunnyWorld
                             (Groq.chatHandler (tables := plainTables)
                                (asGroq deepseekKeys) weatherRequest))))
       = length (calls (fst (run sunnyWorld
                               (DeepSeek.chatHandler (tables := plainTables)
                                  deepseekKeys weatherRequest)))).
Proof.
  apply (variants_respond_alike (tables := plainTables) deepseekKeys weatherRequest
           sunnyWorld sunnyWorld).
  - reflexivity.
  - reflexivity.
Defined.

(** ** Start-up and service *)

Lemma groqWarning_iff (cfg : Groq.config) :
  In groqWarning (startupWarnings cfg)
  <-> truthy (envValue (Groq.GROQ_API_KEY cfg)) = false.
Proof.
  unfold startupWarnings.
  destruct (truthy (envValue (Groq.GROQ_API_KEY cfg)));
    destruct (truthy (envValue (Groq.TAVILY_API_KEY cfg)));
    cbn [negb app In]; split; auto; try discriminate.
  - intros [].
  - intros [H|[]]. discriminate.
Qed.

Lemma tavilyWarning_iff (cfg : Groq.config) :
  In tavilyWarning (startupWarnings cfg)
  <-> truthy (envValue (Groq.TAVILY_API_KEY cfg)) = false.
Proof.
  unfold startupWarnings.
  destruct (truthy (envValue (Groq.GROQ_API_KEY cfg)));
    destruct (truthy (envValue (Groq.TAVILY_API_KEY cfg)));
    cbn [negb app In]; split; auto; try discriminate.
  - intros [].
  - intros [H|[]]. discriminate.
Qed.

(** X24.  The warnings written at start-up tell what the server will do.
    The warning about the LLM credential is written exactly when every chat
    request that has a body is answered with status 500 and
    ["GROQ_API_KEY not set on server."] without any call; the warning about
    the search credential is written exactly when the search is disabled,
    returning the empty string at once for every query. *)
Theorem startup_warnings_match_behaviour {tables : CaseTables} (cfg : Groq.config) :
  (In groqWarning (startupWarnings cfg)
   <-> forall reqBody w,
         nullish reqBody = false ->
         run w (Groq.chatHandler cfg reqBody)
         = ([], Ok {| status := 500;
                      body := VObj [("error",
                                VStr "GROQ_API_KEY not set on server.")] |}))
  /\ (In tavilyWarning (startupWarnings cfg)
      <-> forall query, Groq.searchWebWithTavily cfg query = Ret "").
Proof.
  rewrite groqWarning_iff, tavilyWarning_iff. split; split.
  - intros K reqBody w N. now apply chatHandler_no_key.
  - intros H. destruct (truthy (envValue (Groq.GROQ_API_KEY cfg))) eqn:K;
      [exfalso|reflexivity].
    specialize (H (VObj []) offline eq_refl).
    rewrite (chatHandler_invalid cfg (VObj []) offline eq_refl K (or_introl eq_refl))
      in H.
    discriminate.
  - intros T query. now apply searchWebWithTavily_disabled.
  - intros H. destruct (truthy (envValue (Groq.TAVILY_API_KEY cfg))) eqn:T;
      [exfalso|reflexivity].
    specialize (H VUndefined). unfold Groq.searchWebWithTavily in H.
    rewrite T in H. discriminate.
Qed.

(** X25.  Whatever the trigger and however it is spelled, a non-empty
    search context is handed to the model: with both credentials set and a
    truthy [model], a message in which some stretch spells a trigger in any
    case leads to a POST to the Tavily search endpoint with the message as
    query, and then to a POST to the Groq completion endpoint with three
    messages: one of role [system] with the system prompt, one of role
    [system] with the banner followed by exactly the text the search
    returned, and one of role [user] with the message. *)
Theorem search_context_is_forwarded {tables : CaseTables}
    (cfg : Groq.config) (reqBody : value) (w : world)
    (m webInfo groqKey tavilyKey : string) :
  Groq.GROQ_API_KEY cfg = Some groqKey ->
  groqKey <> "" ->
  Groq.TAVILY_API_KEY cfg = Some tavilyKey ->
  tavilyKey <> "" ->
  truthy (get reqBody "model") = true ->
  get reqBody "message" = VStr m ->
  (exists word, In word Groq.triggers /\ OccursIgnoringCase word m) ->
  snd (run w (Groq.searchWebWithTavily cfg (VStr m))) = Ok webInfo ->
  webInfo <> "" ->
  let s :=
    {| url := "https://api.tavily.com/search";
       method := "POST";
       headers := [("Content-Type", "application/json")];
       payload := VObj [ ("api_key", VStr tavilyKey);
                         ("query", VStr m);
                         ("search_depth", VStr "basic");
                         ("max_results", VNum true "5");
                         ("include_answer", VBool true) ] |} in
  let c :=
    {| url := "https://api.groq.com/openai/v1/chat/completions";
       method := "POST";
       headers := [ ("Content-Type", "application/json");
                    ("Authorization", "Bearer " ++ groqKey) ];
       payload :=
         VObj [ ("model", get reqBody "model");
                ("messages",
                 VArr [ VObj [ ("role", VStr "system");
                               ("content",
                                if truthy (get reqBody "system") then get reqBody "system"
                                else VStr "You are DINX, a precise, helpful design assistant. Use web context if provided, and say when information may be out of date.") ];
                        VObj [ ("role", VStr "system");
                               ("content", VStr ("Here is information from a live web search. Use it carefully in your answer:

" ++ webInfo)) ];
                        VObj [ ("role", VStr "user"); ("content", VStr m) ] ]) ] |} in
  calls (fst (run w (Groq.chatHandler cfg reqBody)))
  = [CallBegin s; CallEnd s (w s); CallBegin c; CallEnd c (w c)].
Proof.
  intros Kg Hg Kt Ht M Em (word & Hin & Hocc) Hsearch Hne s c.
  pose proof (credential_truthy _ _ Kg Hg) as K.
  pose proof (credential_truthy _ _ Kt Ht) as T.
  assert (N : nullish reqBody = false) by exact (get_string_not_nullish _ _ _ Em).
  assert (S : Groq.shouldUseWeb (get reqBody "message") = Ok true).
  { rewrite Em. apply shouldUseWeb_true_iff. split.
    - intros ->. destruct Hocc as (pre & mid & suf & E & Hsame).
      destruct (triggers_lowercase _ Hin) as (_ & Hlow & Hw).
      destruct pre; [|discriminate]. destruct mid; [|discriminate].
      red in Hsame. rewrite Hlow in Hsame. cbn in Hsame. congruence.
    - exists word. split; [assumption|]. now apply OccursIgnoringCase_lowered. }
  assert (U : truthy (get reqBody "message") = true).
  { destruct (truthy (get reqBody "message")) eqn:U; [reflexivity|].
    unfold Groq.shouldUseWeb in S. rewrite U in S. discriminate. }
  destruct (searchWebWithTavily_returns cfg (VStr m) w) as (events & ctx & E & _ & C).
  rewrite E in Hsearch. cbn [snd] in Hsearch. injection Hsearch as ->.
  specialize (C T). rewrite (tavilyRequest_written cfg tavilyKey _ Kt) in C. fold s in C.
  assert (R : run w (if true then Groq.searchWebWithTavily cfg (get reqBody "message")
                     else Ret "") = (events, Ok webInfo))
    by (rewrite Em; exact E).
  rewrite (chatHandler_served cfg reqBody w true events webInfo N K M U S R).
  rewrite groqRelay_outcome. cbn [fst].
  rewrite (groqRequest_written cfg groqKey _ _ Kg), buildMessages_written, Em.
  rewrite (truthy_VStr _ Hne). cbn [app]. fold c.
  unfold calls in *. rewrite filter_app, C. cbn [app filter isCall].
  do 4 f_equal. apply calls_relay_tail.
Qed.

Lemma search_context_is_forwarded_witness :
  calls (fst (run sunnyWorld
                (Groq.chatHandler (tables := plainTables) bothKeys pirateRequest)))
  = [ CallBegin
        {| url := "https://api.tavily.com/search";
           method := "POST";
           headers := [("Content-Type", "application/json")];
           payload := VObj [ ("api_key", VStr "tvly-test");
                             ("query", VStr "What is the weather today?");
                             ("search_depth", VStr "basic");
                             ("max_results", VNum true "5");
                             ("include_answer", VBool true) ] |};
      CallEnd
        {| url := "https://api.tavily.com/search";
           method := "POST";
           headers := [("Content-Type", "application/json")];
           payload := VObj [ ("api_key", VStr "tvly-test");
                             ("query", VStr "What is the weather today?");
                             ("search_depth", VStr "basic");
                             ("max_results", VNum true "5");
                             ("include_answer", VBool true) ] |}
        (Responded (jsonResponse (tavilyData (Some "A") (Some twoHits))));
      CallBegin
        {| url := "https://api.groq.com/openai/v1/chat/completions";
           method := "POST";
           headers := [ ("Content-Type", "application/json");
                        ("Authorization", "Bearer gsk-test") ];
           payload :=
             VObj [ ("model", VStr "llama-3.1-8b-instant");
                    ("messages",
                     VArr [ VObj [ ("role", VStr "system");
                                   ("content", VStr "Answer as a pirate.") ];
                            VObj [ ("role", VStr "system");
                                   ("content",
                                    VStr ("Here is information from a live web search. Use it carefully in your answer:

" ++ specContext (Some "A") (Some twoHits))) ];
                            VObj [ ("role", VStr "user");
                                   ("content", VStr "What is the weather today?") ] ]) ] |};
      CallEnd
        {| url := "https://api.groq.com/openai/v1/chat/completions";
           method := "POST";
           headers := [ ("Content-Type", "application/json");
                        ("Authorization", "Bearer gsk-test") ];
           payload :=
             VObj [ ("model", VStr "llama-3.1-8b-instant");
                    ("messages",
                     VArr [ VObj [ ("role", VStr "system");
                                   ("content", VStr "Answer as a pirate.") ];
                            VObj [ ("role", VStr "system");
                                   ("content",
                                    VStr ("Here is information from a live web search. Use it carefully in your answer:

" ++ specContext (Some "A") (Some twoHits))) ];
                            VObj [ ("role", VStr "user");
                                   ("content", VStr "What is the weather today?") ] ]) ] |}
        (Responded (jsonResponse (completionData "Bring an umbrella."))) ].
Proof.
  apply (search_context_is_forwarded (tables := plainTables) bothKeys pirateRequest
           sunnyWorld weatherQuestion (specContext (Some "A") (Some twoHits))
           "gsk-test" "tvly-test").
  - reflexivity.
  - discriminate.
  - reflexivity.
  - discriminate.
  - reflexivity.
  - reflexivity.
  - exists "weather". split; [simpl; tauto|].
    exists "What is the ", "weather", " today?". split; reflexivity.
  - reflexivity.
  - discriminate.
Defined.
